(** * PromptCanvas: workspace access control, version log and collaborative editor

    A shallow embedding of
    - the access-control module [src/utils/workspace-access.ts]
      ([checkWorkspaceAccess], [removeWorkspaceMember], [canPerformAction]),
    - the invitation handlers of the [WorkspaceMembers] panel
      ([loadInvitations], [handleInviteMember]), and
    - the [CollaborativeEditor] component (mount effect and its cleanup,
      [loadVersions], [savePrompt], the change handlers with their debounced
      save, [handleManualSave], [restoreVersion], the channel message handler),
    together with the properties stated for them in the specification, and
    - [addWorkspaceMember] and [getWorkspaceMembers] of the access module, the
      members list of the panel ([loadMembers], [handleRemoveMember],
      [handleCancelInvitation]) and the colour hash of the editor, with
      further properties read off the code.
    The presence roster of the editor and [getUserWorkspaces] are left out.

    The hosted backend is modelled as an explicit [World]: one list of rows per
    collection, the realtime channel, the wall clock and a schedule of
    transport faults.  Asynchronous functions of the source become computations
    in a state-and-exception monad; [try]/[catch]/[finally] blocks are kept as
    they are written.  A handler runs to completion before the next event is
    taken, so what is proved is about sequential use of one editor. *)

From Stdlib Require Import ZArith Lia Ascii String.
From stdpp Require Import base tactics option list strings numbers sorting.

Local Open Scope string_scope.
Local Open Scope list_scope.
Local Open Scope Z_scope.

(** ** Data model *)

Inductive Role := owner | editor | viewer.
Inductive Action := read | write | admin.

#[global] Instance Role_eq_dec : EqDecision Role.
Proof. solve_decision. Defined.
#[global] Instance Action_eq_dec : EqDecision Action.
Proof. solve_decision. Defined.

(** Record keys.  Keys are either assigned by the backend or built by the
    client as [`prefix_${Date.now()}_${Math.random()...}`]; only their identity
    matters, so a key is a number drawn from the world's supply. *)
Definition Key := nat.

(** Time values are milliseconds since the epoch, as in a JS [Date]. *)
Definition Time := Z.

Record WorkspaceMember := {
  wm_id : Key;
  wm_workspaceId : string;
  wm_userId : string;
  wm_role : Role;
  wm_invitedBy : option string;
  wm_invitedAt : Time;
  wm_joinedAt : Time;
}.

(** Invitations are issued for ['editor' | 'viewer'] only. *)
Inductive InviteRole := invite_editor | invite_viewer.

Record WorkspaceInvitation := {
  wi_id : Key;
  wi_workspaceId : string;
  wi_email : string;
  wi_role : InviteRole;
  wi_invitedBy : string;
  wi_expiresAt : Time;
  wi_acceptedAt : option Time;
  wi_createdAt : Time;
}.

Record User := {
  user_id : string;
  user_email : string;
  user_display_name : option string;
}.

Record Prompt := {
  p_id : string;
  p_title : string;
  p_content : string;
  p_description : option string;
  p_workspace_id : string;
  p_user_id : string;
  p_updated_at : Time;
}.

(** [title?] and [description?] are optional in the editor's own
    [PromptVersion] interface; [content] is not. *)
Record PromptVersion := {
  v_id : Key;
  v_prompt_id : string;
  v_version_number : Z;
  v_content : string;
  v_title : option string;
  v_description : option string;
  v_user_id : string;
  v_created_at : Time;
}.

Record PromptSession := {
  s_id : Key;
  s_prompt_id : string;
  s_user_id : string;
  s_user_color : string;
  s_last_seen : Time;
}.

(** Payload of a [content_change] broadcast.  Every publisher of this
    repository fills the three text fields; the receiver nevertheless reads
    [title] and [description] through [|| ''], so they may be absent. *)
Record ContentChange := {
  cc_content : string;
  cc_title : option string;
  cc_description : option string;
  cc_timestamp : Time;
}.

Inductive MessageType := content_change | other_event.

#[global] Instance MessageType_eq_dec : EqDecision MessageType.
Proof. solve_decision. Defined.

(** A message as delivered by the channel; [msg_userId] is the publisher. *)
Record Message := {
  msg_topic : string;
  msg_type : MessageType;
  msg_userId : string;
  msg_data : ContentChange;
}.

(** ** The backend world *)

Record World := {
  workspaceMembers : list WorkspaceMember;
  workspaceInvitations : list WorkspaceInvitation;
  prompts : list Prompt;
  prompt_versions : list PromptVersion;
  prompt_sessions : list PromptSession;
  subscriptions : list (string * string);   (* topic, subscribed user id *)
  broadcasts : list Message;                (* everything published so far *)
  now : Time;                               (* the wall clock *)
  keySupply : Key;                          (* next fresh record key *)
  faults : list bool;                       (* per database call: does it fail? *)
}.

Definition set_workspaceMembers (f : list WorkspaceMember → list WorkspaceMember) (w : World) : World :=
  {| workspaceMembers := f (workspaceMembers w);
     workspaceInvitations := workspaceInvitations w; prompts := prompts w;
     prompt_versions := prompt_versions w; prompt_sessions := prompt_sessions w;
     subscriptions := subscriptions w; broadcasts := broadcasts w; now := now w;
     keySupply := keySupply w; faults := faults w |}.

Definition set_workspaceInvitations (f : list WorkspaceInvitation → list WorkspaceInvitation) (w : World) : World :=
  {| workspaceMembers := workspaceMembers w;
     workspaceInvitations := f (workspaceInvitations w); prompts := prompts w;
     prompt_versions := prompt_versions w; prompt_sessions := prompt_sessions w;
     subscriptions := subscriptions w; broadcasts := broadcasts w; now := now w;
     keySupply := keySupply w; faults := faults w |}.

Definition set_prompts (f : list Prompt → list Prompt) (w : World) : World :=
  {| workspaceMembers := workspaceMembers w;
     workspaceInvitations := workspaceInvitations w; prompts := f (prompts w);
     prompt_versions := prompt_versions w; prompt_sessions := prompt_sessions w;
     subscriptions := subscriptions w; broadcasts := broadcasts w; now := now w;
     keySupply := keySupply w; faults := faults w |}.

Definition set_prompt_versions (f : list PromptVersion → list PromptVersion) (w : World) : World :=
  {| workspaceMembers := workspaceMembers w;
     workspaceInvitations := workspaceInvitations w; prompts := prompts w;
     prompt_versions := f (prompt_versions w); prompt_sessions := prompt_sessions w;
     subscriptions := subscriptions w; broadcasts := broadcasts w; now := now w;
     keySupply := keySupply w; faults := faults w |}.

Definition set_prompt_sessions (f : list PromptSession → list PromptSession) (w : World) : World :=
  {| workspaceMembers := workspaceMembers w;
     workspaceInvitations := workspaceInvitations w; prompts := prompts w;
     prompt_versions := prompt_versions w; prompt_sessions := f (prompt_sessions w);
     subscriptions := subscriptions w; broadcasts := broadcasts w; now := now w;
     keySupply := keySupply w; faults := faults w |}.

Definition set_subscriptions (f : list (string * string) → list (string * string)) (w : World) : World :=
  {| workspaceMembers := workspaceMembers w;
     workspaceInvitations := workspaceInvitations w; prompts := prompts w;
     prompt_versions := prompt_versions w; prompt_sessions := prompt_sessions w;
     subscriptions := f (subscriptions w); broadcasts := broadcasts w; now := now w;
     keySupply := keySupply w; faults := faults w |}.

Definition set_broadcasts (f : list Message → list Message) (w : World) : World :=
  {| workspaceMembers := workspaceMembers w;
     workspaceInvitations := workspaceInvitations w; prompts := prompts w;
     prompt_versions := prompt_versions w; prompt_sessions := prompt_sessions w;
     subscriptions := subscriptions w; broadcasts := f (broadcasts w); now := now w;
     keySupply := keySupply w; faults := faults w |}.

Definition set_now (t : Time) (w : World) : World :=
  {| workspaceMembers := workspaceMembers w;
     workspaceInvitations := workspaceInvitations w; prompts := prompts w;
     prompt_versions := prompt_versions w; prompt_sessions := prompt_sessions w;
     subscriptions := subscriptions w; broadcasts := broadcasts w; now := t;
     keySupply := keySupply w; faults := faults w |}.

Definition set_keySupply (k : Key) (w : World) : World :=
  {| workspaceMembers := workspaceMembers w;
     workspaceInvitations := workspaceInvitations w; prompts := prompts w;
     prompt_versions := prompt_versions w; prompt_sessions := prompt_sessions w;
     subscriptions := subscriptions w; broadcasts := broadcasts w; now := now w;
     keySupply := k; faults := faults w |}.

Definition set_faults (fs : list bool) (w : World) : World :=
  {| workspaceMembers := workspaceMembers w;
     workspaceInvitations := workspaceInvitations w; prompts := prompts w;
     prompt_versions := prompt_versions w; prompt_sessions := prompt_sessions w;
     subscriptions := subscriptions w; broadcasts := broadcasts w; now := now w;
     keySupply := keySupply w; faults := fs |}.

(** ** Exceptions and the monad of asynchronous backend code *)

Inductive ErrorCode := FORBIDDEN | NOT_FOUND.

(** What a [throw] can carry: the module's own [WorkspaceAccessError]
    (message, code) or any other error (a rejected backend call, a
    [RangeError]). *)
Inductive Exn :=
| WorkspaceAccessError (message : string) (code : ErrorCode)
| OtherError.

(** A computation over a state [St] that returns or throws.  Backend calls
    run over the [World]; the code of a component runs over the pair of the
    component's own state and the world. *)
Definition Mon (St A : Type) : Type := St → (Exn + A) * St.

Definition ret {St A} (a : A) : Mon St A := λ s, (inr a, s).

Definition bind {St A B} (m : Mon St A) (k : A → Mon St B) : Mon St B :=
  λ s, match m s with
       | (inr a, s') => k a s'
       | (inl e, s') => (inl e, s')
       end.

Definition throw {St A} (e : Exn) : Mon St A := λ s, (inl e, s).

(** [try { body } catch (error) { handler }]: effects of the body that
    happened before the throw stay in place. *)
Definition try_catch {St A} (body : Mon St A) (handler : Exn → Mon St A) : Mon St A :=
  λ s, match body s with
       | (inl e, s') => handler e s'
       | r => r
       end.

(** [try { body } finally { fin }]. *)
Definition try_finally {St A} (body : Mon St A) (fin : Mon St unit) : Mon St A :=
  λ s, match body s with
       | (r, s') => match fin s' with
                    | (inr _, s'') => (r, s'')
                    | (inl e, s'') => (inl e, s'')
                    end
       end.

Definition get_state {St} : Mon St St := λ s, (inr s, s).
Definition modify_state {St} (f : St → St) : Mon St unit := λ s, (inr (), f s).

(** The computations form a monad; stdpp's [x ← m; k] notation is used for
    the sequencing of [await]s. *)
#[global] Instance Mon_ret St : MRet (Mon St) := @ret St.
#[global] Instance Mon_bind St : MBind (Mon St) := λ A B k m, bind m k.

Abbreviation M := (Mon World).
Definition get_world : M World := get_state.
Definition modify_world (f : World → World) : M unit := modify_state f.

(** Component code: [view] reads the component, [update] is a state setter
    (or an assignment to a ref), [in_world] is a call to the backend. *)
Definition view {C} : Mon (C * World) C := λ s, (inr s.1, s).
Definition update {C} (f : C → C) : Mon (C * World) unit := λ s, (inr (), (f s.1, s.2)).
Definition in_world {C A} (m : M A) : Mon (C * World) A :=
  λ s, ((m s.2).1, (s.1, (m s.2).2)).

(** One round trip to the database: it fails (rejects) when the fault
    schedule says so, and consumes one entry of the schedule either way. *)
Definition db_call : M unit :=
  λ w, (match faults w with
        | true :: _ => inl OtherError
        | _ => inr ()
        end, set_faults (tail (faults w)) w).

(** No database call of this world will fail. *)
Definition healthy (w : World) : Prop := Forall (λ b, b = false) (faults w).

Definition fresh_key : M Key :=
  λ w, (inr (keySupply w), set_keySupply (S (keySupply w)) w).

(** ** Access control ([src/utils/workspace-access.ts]) *)

Definition workspaceMembers_list (where_ : WorkspaceMember → Prop)
    `{∀ m, Decision (where_ m)} : M (list WorkspaceMember) :=
  db_call;; w ← get_world; ret (filter where_ (workspaceMembers w)).

Definition workspaceMembers_delete (id : Key) : M unit :=
  db_call;; modify_world (set_workspaceMembers (filter (λ m, wm_id m ≠ id))).

Definition checkWorkspaceAccess (workspaceId userId : string) : M Role :=
  try_catch
    (members ← workspaceMembers_list
                  (λ m, wm_workspaceId m = workspaceId ∧ wm_userId m = userId);
     match members with
     | [] => throw (WorkspaceAccessError
                      "Access denied: You are not a member of this workspace" FORBIDDEN)
     | m0 :: _ => ret (wm_role m0)
     end)
    (λ error,
       match error with
       | WorkspaceAccessError _ _ => throw error
       | _ => throw (WorkspaceAccessError "Failed to check workspace access" NOT_FOUND)
       end).

Definition removeWorkspaceMember (workspaceId userId requestingUserId : string) : M unit :=
  try_catch
    (requestingUserRole ← checkWorkspaceAccess workspaceId requestingUserId;
     (if bool_decide (requestingUserRole ≠ owner ∧ requestingUserId ≠ userId)
      then throw (WorkspaceAccessError
                    "Only workspace owners can remove other members" FORBIDDEN)
      else ret ());;
     (if bool_decide (requestingUserId = userId ∧ requestingUserRole = owner)
      then
        owners ← workspaceMembers_list
                    (λ m, wm_workspaceId m = workspaceId ∧ wm_role m = owner);
        if bool_decide (length owners ≤ 1)%nat
        then throw (WorkspaceAccessError
                      "Cannot remove the last owner from workspace" FORBIDDEN)
        else ret ()
      else ret ());;
     members ← workspaceMembers_list
                  (λ m, wm_workspaceId m = workspaceId ∧ wm_userId m = userId);
     match members with
     | m0 :: _ => workspaceMembers_delete (wm_id m0)
     | [] => ret ()
     end)
    (λ error,
       match error with
       | WorkspaceAccessError _ _ => throw error
       | _ => throw (WorkspaceAccessError "Failed to remove member from workspace" FORBIDDEN)
       end).

(** [default: return false] of the source's [switch] is unreachable at the
    declared argument types. *)
Definition canPerformAction (userRole : Role) (action : Action) : bool :=
  match action with
  | read => bool_decide (userRole ∈ [owner; editor; viewer])
  | write => bool_decide (userRole ∈ [owner; editor])
  | admin => bool_decide (userRole = owner)
  end.


(** ** JS [Date] arithmetic (ECMAScript time values)

    [new Date()], [getDate], [setDate] and [toISOString] as the language
    defines them: a time value is a number of milliseconds since the epoch,
    [getDate]/[setDate] work on the local calendar, and the local zone is given
    by [LocalTZA t isUTC], the offset of local time from UTC at [t]. *)

Definition msPerDay : Z := 86400000.
Definition Day (t : Time) : Z := t `div` msPerDay.
Definition TimeWithinDay (t : Time) : Z := t `mod` msPerDay.

Definition DaysInYear (y : Z) : Z :=
  if bool_decide (y `mod` 4 ≠ 0) then 365
  else if bool_decide (y `mod` 100 ≠ 0) then 366
  else if bool_decide (y `mod` 400 ≠ 0) then 365
  else 366.

Definition DayFromYear (y : Z) : Z :=
  365 * (y - 1970) + (y - 1969) `div` 4 - (y - 1901) `div` 100 + (y - 1601) `div` 400.

(** The largest [y] with [DayFromYear y ≤ Day t], found around the Gregorian
    mean-year estimate. *)
Definition YearFromTime (t : Time) : Z :=
  let d := Day t in
  let y := 1970 + (400 * d) `div` 146097 in
  if bool_decide (DayFromYear (y + 1) ≤ d) then y + 1
  else if bool_decide (DayFromYear y ≤ d) then y
  else y - 1.

Definition LeapDays (y : Z) : Z := DaysInYear y - 365.
Definition InLeapYear (t : Time) : Z := LeapDays (YearFromTime t).
Definition DayWithinYear (t : Time) : Z := Day t - DayFromYear (YearFromTime t).

(** Day within the year on which month [m] (0 = January) starts. *)
Definition MonthStartDay (leap m : Z) : Z :=
  match m with
  | 0 => 0
  | 1 => 31
  | 2 => 59 + leap
  | 3 => 90 + leap
  | 4 => 120 + leap
  | 5 => 151 + leap
  | 6 => 181 + leap
  | 7 => 212 + leap
  | 8 => 243 + leap
  | 9 => 273 + leap
  | 10 => 304 + leap
  | 11 => 334 + leap
  | _ => 365 + leap
  end.

Definition MonthFromTime (t : Time) : Z :=
  Z.of_nat (length (filter (λ m, MonthStartDay (InLeapYear t) m ≤ DayWithinYear t)
                           [1; 2; 3; 4; 5; 6; 7; 8; 9; 10; 11])).

Definition DateFromTime (t : Time) : Z :=
  DayWithinYear t - MonthStartDay (InLeapYear t) (MonthFromTime t) + 1.

Definition MakeDay (year month date : Z) : Z :=
  let ym := year + month `div` 12 in
  let mn := month `mod` 12 in
  DayFromYear ym + MonthStartDay (LeapDays ym) mn + date - 1.

Definition MakeDate (day time : Z) : Z := day * msPerDay + time.

(** A time value outside ±8.64e15 ms is not a valid date ([NaN]). *)
Definition TimeClip (t : Z) : option Time :=
  if bool_decide (Z.abs t ≤ 8640000000000000) then Some t else None.

(** ** JS strings

    A [string] holds the UTF-8 encoding of the JS string it stands for, so an
    ASCII character is one byte and any other character two to four bytes.
    Nothing is said about byte sequences that are not well-formed UTF-8: no JS
    string is encoded by them. *)

Definition byte (a : ascii) : Z := Z.of_N (Ascii.N_of_ascii a).

(** What [String.prototype.trim] strips is the language's white space and
    line terminators: TAB, LF, VT, FF, CR and SP (one byte each), U+00A0 (two
    bytes), and U+1680, U+2000 to U+200A, U+2028, U+2029, U+202F, U+205F,
    U+3000 and U+FEFF (three bytes each). *)
Definition is_space (a : ascii) : bool :=
  let n := Ascii.N_of_ascii a in
  bool_decide (n = 32 ∨ 9 ≤ n ≤ 13)%N.

Definition is_space2 (a b : Z) : bool := bool_decide (a = 194 ∧ b = 160).

Definition is_space3 (a b c : Z) : bool :=
  bool_decide ((a = 225 ∧ b = 154 ∧ c = 128)
               ∨ (a = 226 ∧ b = 128 ∧ (128 ≤ c ≤ 138 ∨ c = 168 ∨ c = 169 ∨ c = 175))
               ∨ (a = 226 ∧ b = 129 ∧ c = 159)
               ∨ (a = 227 ∧ b = 128 ∧ c = 128)
               ∨ (a = 239 ∧ b = 187 ∧ c = 191)).

(** Strips the white space at the head of [l].  With [back] the list is a
    reversed string, and a character's bytes come last byte first. *)
Fixpoint drop_spaces (back : bool) (l : list ascii) : list ascii :=
  match l with
  | a :: l1 =>
      if is_space a then drop_spaces back l1
      else
        match l1 with
        | b :: l2 =>
            if (if back then is_space2 (byte b) (byte a) else is_space2 (byte a) (byte b))
            then drop_spaces back l2
            else
              match l2 with
              | c :: l3 =>
                  if (if back then is_space3 (byte c) (byte b) (byte a)
                      else is_space3 (byte a) (byte b) (byte c))
                  then drop_spaces back l3
                  else l
              | [] => l
              end
        | [] => l
        end
  | [] => []
  end.

Definition trim (s : string) : string :=
  string_of_list_ascii
    (rev (drop_spaces true (rev (drop_spaces false (list_ascii_of_string s))))).

(** [String.prototype.toLowerCase] is the Unicode case mapping of the host;
    the code that calls it takes it as a parameter.  On a string of ASCII
    characters, as the sample addresses are, it maps [A] to [Z] to [a] to [z]
    and keeps every other character: *)
Definition lower_ascii (a : ascii) : ascii :=
  let n := Ascii.N_of_ascii a in
  if bool_decide (65 ≤ n ≤ 90)%N then Ascii.ascii_of_N (n + 32) else a.

Definition toLowerCase_ascii (s : string) : string :=
  string_of_list_ascii (map lower_ascii (list_ascii_of_string s)).

(** The code points a sequence of UTF-8 bytes encodes (U+FFFD where the
    sequence breaks off), and the UTF-16 code units of a code point: a JS
    string is indexed by code unit. *)
Fixpoint codePoints (l : list Z) : list Z :=
  match l with
  | [] => []
  | a :: l1 =>
      if bool_decide (a < 128) then a :: codePoints l1
      else
        match l1 with
        | [] => [65533]
        | b :: l2 =>
            if bool_decide (a < 224)
            then (a `mod` 32 * 64 + b `mod` 64) :: codePoints l2
            else
              match l2 with
              | [] => [65533]
              | c :: l3 =>
                  if bool_decide (a < 240)
                  then (a `mod` 16 * 4096 + b `mod` 64 * 64 + c `mod` 64) :: codePoints l3
                  else
                    match l3 with
                    | [] => [65533]
                    | d :: l4 =>
                        (a `mod` 8 * 262144 + b `mod` 64 * 4096 + c `mod` 64 * 64
                         + d `mod` 64) :: codePoints l4
                    end
              end
        end
  end.

Definition codeUnits (cp : Z) : list Z :=
  if bool_decide (cp < 65536) then [cp]
  else [55296 + (cp - 65536) `div` 1024; 56320 + (cp - 65536) `mod` 1024].

(** [s.split('').map(b => b.charCodeAt(0))]. *)
Definition charCodes (s : string) : list Z :=
  codePoints (byte <$> list_ascii_of_string s) ≫= codeUnits.

(** ** The workspace members panel: invitations *)

Record MembersPanel := {
  mp_workspaceId : string;   (* props *)
  mp_userRole : Role;
  mp_userId : string;
  invitations : list WorkspaceInvitation;
  inviteEmail : string;
  inviteRole : InviteRole;
  inviteDialogOpen : bool;
  inviting : bool;
  mp_toasts : list string;   (* toast titles shown so far *)
}.

Definition setInvitations (x : list WorkspaceInvitation) (e : MembersPanel) : MembersPanel :=
  {| mp_workspaceId := mp_workspaceId e; mp_userRole := mp_userRole e;
     mp_userId := mp_userId e; invitations := x; inviteEmail := inviteEmail e;
     inviteRole := inviteRole e; inviteDialogOpen := inviteDialogOpen e;
     inviting := inviting e; mp_toasts := mp_toasts e |}.

Definition setInviteEmail (x : string) (e : MembersPanel) : MembersPanel :=
  {| mp_workspaceId := mp_workspaceId e; mp_userRole := mp_userRole e;
     mp_userId := mp_userId e; invitations := invitations e; inviteEmail := x;
     inviteRole := inviteRole e; inviteDialogOpen := inviteDialogOpen e;
     inviting := inviting e; mp_toasts := mp_toasts e |}.

Definition setInviteDialogOpen (x : bool) (e : MembersPanel) : MembersPanel :=
  {| mp_workspaceId := mp_workspaceId e; mp_userRole := mp_userRole e;
     mp_userId := mp_userId e; invitations := invitations e;
     inviteEmail := inviteEmail e; inviteRole := inviteRole e; inviteDialogOpen := x;
     inviting := inviting e; mp_toasts := mp_toasts e |}.

Definition setInviting (x : bool) (e : MembersPanel) : MembersPanel :=
  {| mp_workspaceId := mp_workspaceId e; mp_userRole := mp_userRole e;
     mp_userId := mp_userId e; invitations := invitations e;
     inviteEmail := inviteEmail e; inviteRole := inviteRole e;
     inviteDialogOpen := inviteDialogOpen e; inviting := x;
     mp_toasts := mp_toasts e |}.

Definition mp_toast_with (f : list string → list string) (e : MembersPanel) : MembersPanel :=
  {| mp_workspaceId := mp_workspaceId e; mp_userRole := mp_userRole e;
     mp_userId := mp_userId e; invitations := invitations e;
     inviteEmail := inviteEmail e; inviteRole := inviteRole e;
     inviteDialogOpen := inviteDialogOpen e; inviting := inviting e;
     mp_toasts := f (mp_toasts e) |}.

Definition mp_toast (t : string) : MembersPanel → MembersPanel :=
  mp_toast_with (λ l, l ++ [t]).

Definition workspaceInvitations_list (where_ : WorkspaceInvitation → Prop)
    `{∀ i, Decision (where_ i)} (orderBy : relation WorkspaceInvitation)
    `{∀ i j, Decision (orderBy i j)} : M (list WorkspaceInvitation) :=
  db_call;; w ← get_world;
  ret (merge_sort orderBy (filter where_ (workspaceInvitations w))).

(** [create] with the fields the caller passes; the key, [createdAt] and the
    empty [acceptedAt] are the backend's. *)
Definition workspaceInvitations_create (workspaceId email : string) (role : InviteRole)
    (invitedBy : string) (expiresAt : Time) : M unit :=
  db_call;; k ← fresh_key; w ← get_world;
  modify_world (set_workspaceInvitations (λ l, l ++
    [{| wi_id := k; wi_workspaceId := workspaceId; wi_email := email;
        wi_role := role; wi_invitedBy := invitedBy; wi_expiresAt := expiresAt;
        wi_acceptedAt := None; wi_createdAt := now w |}])).

Definition createdAt_desc : relation WorkspaceInvitation :=
  λ i j, wi_createdAt j ≤ wi_createdAt i.

#[global] Instance createdAt_desc_dec i j : Decision (createdAt_desc i j).
Proof. unfold createdAt_desc. apply _. Defined.

Definition loadInvitations : Mon (MembersPanel * World) unit :=
  c ← view;
  try_catch
    (invitesList ← in_world (workspaceInvitations_list
                     (λ i, wi_workspaceId i = mp_workspaceId c ∧ wi_acceptedAt i = None)
                     createdAt_desc);
     update (setInvitations invitesList))
    (λ _, ret ()).

Section Host.
(** Offset of the panel's local zone from UTC, as a function of the
    instant ([LocalTZA(t, isUTC)] of the language definition). *)
Context (LocalTZA : Time → bool → Z).
(** The host's [String.prototype.toLowerCase]. *)
Context (toLowerCase : string → string).

Definition LocalTime (t : Time) : Z := t + LocalTZA t true.
Definition UTC (t : Z) : Z := t - LocalTZA t false.

Definition Date_getDate (tv : Time) : Z := DateFromTime (LocalTime tv).

Definition Date_setDate (tv : Time) (date : Z) : option Time :=
  let t := LocalTime tv in
  let newDate := MakeDate (MakeDay (YearFromTime t) (MonthFromTime t) date)
                          (TimeWithinDay t) in
  TimeClip (UTC newDate).

(** [toISOString] throws a [RangeError] on an invalid date; the stored
    string is modelled by the time value it denotes. *)
Definition Date_toISOString {St} (d : option Time) : Mon St Time :=
  match d with
  | Some tv => ret tv
  | None => throw OtherError
  end.

Definition handleInviteMember : Mon (MembersPanel * World) unit :=
  c ← view;
  if bool_decide (trim (inviteEmail c) = "") then
    update (mp_toast "Error")
  else if negb (canPerformAction (mp_userRole c) admin) then
    update (mp_toast "Error")
  else
    update (setInviting true);;
    try_finally
      (try_catch
         (w ← in_world get_world;
          let expiresAt := now w in
          let expiresAt := Date_setDate expiresAt (Date_getDate expiresAt + 7) in
          iso ← Date_toISOString expiresAt;
          in_world (workspaceInvitations_create (mp_workspaceId c)
                      (trim (toLowerCase (inviteEmail c))) (inviteRole c)
                      (mp_userId c) iso);;
          update (mp_toast "Invitation sent");;
          update (setInviteEmail "");;
          update (setInviteDialogOpen false);;
          loadInvitations)
         (λ _, update (mp_toast "Error")))
      (update (setInviting false)).
End Host.


(** ** The collaborative editor *)

Definition USER_COLORS : list string :=
  ["#ef4444"; "#f97316"; "#eab308"; "#22c55e";
   "#06b6d4"; "#3b82f6"; "#8b5cf6"; "#ec4899"].

(** Bitwise operators work on 32-bit two's-complement integers. *)
Definition ToInt32 (n : Z) : Z :=
  let m := n `mod` 2 ^ 32 in
  if bool_decide (2 ^ 31 ≤ m) then m - 2 ^ 32 else m.

Definition getUserColor (userId : string) : string :=
  let hash := fold_left (λ a b, let a := (ToInt32 (a * 2 ^ 5) - a) + b in ToInt32 a)
                        (charCodes userId) 0 in
  default "" (USER_COLORS !! Z.to_nat (Z.abs hash `mod` Z.of_nat (length USER_COLORS))).

(** [x || ''] on an optional string. *)
Definition or_empty (x : option string) : string :=
  match x with
  | Some s => s
  | None => ""
  end.

(** What a [savePrompt] closure holds of the render that created it. *)
Record SaveEnv := {
  env_prompt : option Prompt;
  env_currentUser : option User;
  env_versions : list PromptVersion;
}.

(** A pending [setTimeout(() => savePrompt(c, t, d), delay)]. *)
Record Timer := {
  timer_id : nat;
  timer_fireAt : Time;
  timer_env : SaveEnv;
  timer_content : string;
  timer_title : string;
  timer_description : string;
}.

(** The closure returned by [startRealtimeUpdates]. *)
Inductive Cleanup := Unsubscribe (topic userId : string).

Record Editor := {
  promptId : string;   (* props *)
  prompt : option Prompt;
  content : string;
  title : string;
  description : string;
  versions : list PromptVersion;
  currentUser : option User;
  isLoading : bool;
  isSaving : bool;
  lastSaved : option Time;
  saveTimeoutRef : option nat;   (* saveTimeoutRef.current *)
  currentSessionId : option Key;   (* currentSessionId.current *)
  timers : list Timer;   (* timeouts pending in the client runtime *)
  nextTimer : nat;   (* next timeout handle *)
  auth : option User;   (* the identity blink.auth.me() answers with *)
  messageHandlers : list (option User);   (* closures given to channel.onMessage, by captured currentUser *)
  toasts : list string;   (* toast titles shown so far *)
  closed : bool;   (* onClose() was called *)
}.

Definition setPrompt (x : option Prompt) (e : Editor) : Editor :=
  {| promptId := promptId e; prompt := x; content := content e; title := title e;
     description := description e; versions := versions e;
     currentUser := currentUser e; isLoading := isLoading e; isSaving := isSaving e;
     lastSaved := lastSaved e; saveTimeoutRef := saveTimeoutRef e;
     currentSessionId := currentSessionId e; timers := timers e;
     nextTimer := nextTimer e; auth := auth e; messageHandlers := messageHandlers e;
     toasts := toasts e; closed := closed e |}.

Definition setContent (x : string) (e : Editor) : Editor :=
  {| promptId := promptId e; prompt := prompt e; content := x; title := title e;
     description := description e; versions := versions e;
     currentUser := currentUser e; isLoading := isLoading e; isSaving := isSaving e;
     lastSaved := lastSaved e; saveTimeoutRef := saveTimeoutRef e;
     currentSessionId := currentSessionId e; timers := timers e;
     nextTimer := nextTimer e; auth := auth e; messageHandlers := messageHandlers e;
     toasts := toasts e; closed := closed e |}.

Definition setTitle (x : string) (e : Editor) : Editor :=
  {| promptId := promptId e; prompt := prompt e; content := content e; title := x;
     description := description e; versions := versions e;
     currentUser := currentUser e; isLoading := isLoading e; isSaving := isSaving e;
     lastSaved := lastSaved e; saveTimeoutRef := saveTimeoutRef e;
     currentSessionId := currentSessionId e; timers := timers e;
     nextTimer := nextTimer e; auth := auth e; messageHandlers := messageHandlers e;
     toasts := toasts e; closed := closed e |}.

Definition setDescription (x : string) (e : Editor) : Editor :=
  {| promptId := promptId e; prompt := prompt e; content := content e;
     title := title e; description := x; versions := versions e;
     currentUser := currentUser e; isLoading := isLoading e; isSaving := isSaving e;
     lastSaved := lastSaved e; saveTimeoutRef := saveTimeoutRef e;
     currentSessionId := currentSessionId e; timers := timers e;
     nextTimer := nextTimer e; auth := auth e; messageHandlers := messageHandlers e;
     toasts := toasts e; closed := closed e |}.

Definition setVersions (x : list PromptVersion) (e : Editor) : Editor :=
  {| promptId := promptId e; prompt := prompt e; content := content e;
     title := title e; description := description e; versions := x;
     currentUser := currentUser e; isLoading := isLoading e; isSaving := isSaving e;
     lastSaved := lastSaved e; saveTimeoutRef := saveTimeoutRef e;
     currentSessionId := currentSessionId e; timers := timers e;
     nextTimer := nextTimer e; auth := auth e; messageHandlers := messageHandlers e;
     toasts := toasts e; closed := closed e |}.

Definition setCurrentUser (x : option User) (e : Editor) : Editor :=
  {| promptId := promptId e; prompt := prompt e; content := content e;
     title := title e; description := description e; versions := versions e;
     currentUser := x; isLoading := isLoading e; isSaving := isSaving e;
     lastSaved := lastSaved e; saveTimeoutRef := saveTimeoutRef e;
     currentSessionId := currentSessionId e; timers := timers e;
     nextTimer := nextTimer e; auth := auth e; messageHandlers := messageHandlers e;
     toasts := toasts e; closed := closed e |}.

Definition setIsLoading (x : bool) (e : Editor) : Editor :=
  {| promptId := promptId e; prompt := prompt e; content := content e;
     title := title e; description := description e; versions := versions e;
     currentUser := currentUser e; isLoading := x; isSaving := isSaving e;
     lastSaved := lastSaved e; saveTimeoutRef := saveTimeoutRef e;
     currentSessionId := currentSessionId e; timers := timers e;
     nextTimer := nextTimer e; auth := auth e; messageHandlers := messageHandlers e;
     toasts := toasts e; closed := closed e |}.

Definition setIsSaving (x : bool) (e : Editor) : Editor :=
  {| promptId := promptId e; prompt := prompt e; content := content e;
     title := title e; description := description e; versions := versions e;
     currentUser := currentUser e; isLoading := isLoading e; isSaving := x;
     lastSaved := lastSaved e; saveTimeoutRef := saveTimeoutRef e;
     currentSessionId := currentSessionId e; timers := timers e;
     nextTimer := nextTimer e; auth := auth e; messageHandlers := messageHandlers e;
     toasts := toasts e; closed := closed e |}.

Definition setLastSaved (x : option Time) (e : Editor) : Editor :=
  {| promptId := promptId e; prompt := prompt e; content := content e;
     title := title e; description := description e; versions := versions e;
     currentUser := currentUser e; isLoading := isLoading e; isSaving := isSaving e;
     lastSaved := x; saveTimeoutRef := saveTimeoutRef e;
     currentSessionId := currentSessionId e; timers := timers e;
     nextTimer := nextTimer e; auth := auth e; messageHandlers := messageHandlers e;
     toasts := toasts e; closed := closed e |}.

Definition set_saveTimeoutRef (x : option nat) (e : Editor) : Editor :=
  {| promptId := promptId e; prompt := prompt e; content := content e;
     title := title e; description := description e; versions := versions e;
     currentUser := currentUser e; isLoading := isLoading e; isSaving := isSaving e;
     lastSaved := lastSaved e; saveTimeoutRef := x;
     currentSessionId := currentSessionId e; timers := timers e;
     nextTimer := nextTimer e; auth := auth e; messageHandlers := messageHandlers e;
     toasts := toasts e; closed := closed e |}.

Definition set_currentSessionId (x : option Key) (e : Editor) : Editor :=
  {| promptId := promptId e; prompt := prompt e; content := content e;
     title := title e; description := description e; versions := versions e;
     currentUser := currentUser e; isLoading := isLoading e; isSaving := isSaving e;
     lastSaved := lastSaved e; saveTimeoutRef := saveTimeoutRef e;
     currentSessionId := x; timers := timers e; nextTimer := nextTimer e;
     auth := auth e; messageHandlers := messageHandlers e; toasts := toasts e;
     closed := closed e |}.

Definition set_timers (f : list Timer → list Timer) (e : Editor) : Editor :=
  {| promptId := promptId e; prompt := prompt e; content := content e;
     title := title e; description := description e; versions := versions e;
     currentUser := currentUser e; isLoading := isLoading e; isSaving := isSaving e;
     lastSaved := lastSaved e; saveTimeoutRef := saveTimeoutRef e;
     currentSessionId := currentSessionId e; timers := f (timers e);
     nextTimer := nextTimer e; auth := auth e; messageHandlers := messageHandlers e;
     toasts := toasts e; closed := closed e |}.

Definition set_nextTimer (x : nat) (e : Editor) : Editor :=
  {| promptId := promptId e; prompt := prompt e; content := content e;
     title := title e; description := description e; versions := versions e;
     currentUser := currentUser e; isLoading := isLoading e; isSaving := isSaving e;
     lastSaved := lastSaved e; saveTimeoutRef := saveTimeoutRef e;
     currentSessionId := currentSessionId e; timers := timers e; nextTimer := x;
     auth := auth e; messageHandlers := messageHandlers e; toasts := toasts e;
     closed := closed e |}.

Definition set_messageHandlers (f : list (option User) → list (option User)) (e : Editor) : Editor :=
  {| promptId := promptId e; prompt := prompt e; content := content e;
     title := title e; description := description e; versions := versions e;
     currentUser := currentUser e; isLoading := isLoading e; isSaving := isSaving e;
     lastSaved := lastSaved e; saveTimeoutRef := saveTimeoutRef e;
     currentSessionId := currentSessionId e; timers := timers e;
     nextTimer := nextTimer e; auth := auth e;
     messageHandlers := f (messageHandlers e); toasts := toasts e;
     closed := closed e |}.

Definition toast_with (f : list string → list string) (e : Editor) : Editor :=
  {| promptId := promptId e; prompt := prompt e; content := content e;
     title := title e; description := description e; versions := versions e;
     currentUser := currentUser e; isLoading := isLoading e; isSaving := isSaving e;
     lastSaved := lastSaved e; saveTimeoutRef := saveTimeoutRef e;
     currentSessionId := currentSessionId e; timers := timers e;
     nextTimer := nextTimer e; auth := auth e; messageHandlers := messageHandlers e;
     toasts := f (toasts e); closed := closed e |}.

Definition set_closed (x : bool) (e : Editor) : Editor :=
  {| promptId := promptId e; prompt := prompt e; content := content e;
     title := title e; description := description e; versions := versions e;
     currentUser := currentUser e; isLoading := isLoading e; isSaving := isSaving e;
     lastSaved := lastSaved e; saveTimeoutRef := saveTimeoutRef e;
     currentSessionId := currentSessionId e; timers := timers e;
     nextTimer := nextTimer e; auth := auth e; messageHandlers := messageHandlers e;
     toasts := toasts e; closed := x |}.

Definition toast (t : string) : Editor → Editor := toast_with (λ l, l ++ [t]).

Definition closure_env (e : Editor) : SaveEnv :=
  {| env_prompt := prompt e; env_currentUser := currentUser e; env_versions := versions e |}.

(** *** Backend collections used by the editor *)

Definition version_number_desc : relation PromptVersion :=
  λ a b, v_version_number b ≤ v_version_number a.

#[global] Instance version_number_desc_dec a b : Decision (version_number_desc a b).
Proof. unfold version_number_desc. apply _. Defined.

Definition prompt_versions_list (where_ : PromptVersion → Prop)
    `{∀ v, Decision (where_ v)} (orderBy : relation PromptVersion)
    `{∀ a b, Decision (orderBy a b)} (limit : nat) : M (list PromptVersion) :=
  db_call;; w ← get_world;
  ret (take limit (merge_sort orderBy (filter where_ (prompt_versions w)))).

Definition prompt_versions_create (v : PromptVersion) : M unit :=
  db_call;; modify_world (set_prompt_versions (λ l, l ++ [v])).

Definition prompts_list (where_ : Prompt → Prop) `{∀ p, Decision (where_ p)}
    (limit : nat) : M (list Prompt) :=
  db_call;; w ← get_world; ret (take limit (filter where_ (prompts w))).

Definition prompts_update (id : string) (content title description : string)
    (updated_at : Time) : M unit :=
  db_call;;
  modify_world (set_prompts (map (λ p,
    if bool_decide (p_id p = id)
    then {| p_id := p_id p; p_title := title; p_content := content;
            p_description := Some description; p_workspace_id := p_workspace_id p;
            p_user_id := p_user_id p; p_updated_at := updated_at |}
    else p))).

Definition prompt_sessions_create (s : PromptSession) : M unit :=
  db_call;; modify_world (set_prompt_sessions (λ l, l ++ [s])).

Definition prompt_sessions_delete (id : Key) : M unit :=
  db_call;; modify_world (set_prompt_sessions (filter (λ s, s_id s ≠ id))).

Definition channel_topic (promptId : string) : string := "prompt_" +:+ promptId.

(** The channel stamps a published message with the publishing client's
    user id. *)
Definition realtime_publish (topic : string) (type : MessageType) (sender : string)
    (data : ContentChange) : M unit :=
  modify_world (set_broadcasts (λ l, l ++
    [{| msg_topic := topic; msg_type := type; msg_userId := sender; msg_data := data |}])).

Definition channel_subscribe (topic userId : string) : M unit :=
  modify_world (set_subscriptions (λ l, l ++ [(topic, userId)])).

Definition channel_unsubscribe (topic userId : string) : M unit :=
  modify_world (set_subscriptions (filter (λ s, s ≠ (topic, userId)))).

Definition run_cleanup (c : Cleanup) : M unit :=
  match c with
  | Unsubscribe topic userId => channel_unsubscribe topic userId
  end.

Definition Date_now : M Time := w ← get_world; ret (now w).

(** [Math.max(...xs, 0)]. *)
Definition Math_max_0 (xs : list Z) : Z := foldr Z.max 0 xs.

(** *** The component *)

Definition sender_id (e : Editor) : string :=
  match auth e with
  | Some u => user_id u
  | None => "anonymous"
  end.

Definition loadVersions : Mon (Editor * World) unit :=
  e ← view;
  try_catch
    (versionData ← in_world (prompt_versions_list
                     (λ v, v_prompt_id v = promptId e) version_number_desc 20);
     update (setVersions versionData))
    (λ _, ret ()).

(** [savePrompt] is a [useCallback] closure: [prompt], [currentUser] and
    [versions] are those of the render that created it ([env]). *)
Definition savePrompt (env : SaveEnv) (newContent newTitle newDescription : string)
    : Mon (Editor * World) unit :=
  e ← view;
  match env_prompt env, env_currentUser env with
  | Some _, Some user =>
      try_finally
        (try_catch
           (update (setIsSaving true);;
            t ← in_world Date_now;
            in_world (prompts_update (promptId e) newContent newTitle newDescription t);;
            let nextVersionNumber :=
              Math_max_0 (map v_version_number (env_versions env)) + 1 in
            id ← in_world fresh_key;
            t ← in_world Date_now;
            in_world (prompt_versions_create
              {| v_id := id; v_prompt_id := promptId e;
                 v_version_number := nextVersionNumber; v_content := newContent;
                 v_title := Some newTitle; v_description := Some newDescription;
                 v_user_id := user_id user; v_created_at := t |});;
            t ← in_world Date_now;
            update (setLastSaved (Some t));;
            loadVersions;;
            update (toast "Saved"))
           (λ _, update (toast "Error")))
        (update (setIsSaving false))
  | _, _ => ret ()
  end.

(** The handler given to [channel.onMessage]; [captured] is the
    [currentUser] of the render whose [startRealtimeUpdates] registered it. *)
Definition onMessage (captured : option User) (message : Message) (e : Editor) : Editor :=
  if bool_decide (msg_type message = content_change
                  ∧ Some (msg_userId message) ≠ user_id <$> captured)
  then
    let e := setContent (cc_content (msg_data message)) e in
    let e := setTitle (or_empty (cc_title (msg_data message))) e in
    setDescription (or_empty (cc_description (msg_data message))) e
  else e.

(** Delivery of a channel message to every handler the component registered. *)
Definition deliver (message : Message) (e : Editor) : Editor :=
  fold_left (λ e captured, onMessage captured message e) (messageHandlers e) e.

Definition startRealtimeUpdates (captured : option User) : Mon (Editor * World) Cleanup :=
  e ← view;
  let topic := channel_topic (promptId e) in
  let userId := match captured with
                | Some u => if bool_decide (user_id u = "") then "anonymous" else user_id u
                | None => "anonymous"
                end in
  in_world (channel_subscribe topic userId);;
  update (set_messageHandlers (λ l, l ++ [captured]));;
  ret (Unsubscribe topic userId).

Definition auth_me : Mon (Editor * World) User :=
  e ← view;
  match auth e with
  | Some u => ret u
  | None => throw OtherError
  end.

(** The body of the mount effect; [captured] is the [currentUser] seen by the
    [startRealtimeUpdates] of the render that ran the effect. *)
Definition loadData (captured : option User) : Mon (Editor * World) unit :=
  e ← view;
  try_finally
    (try_catch
       (update (setIsLoading true);;
        user ← auth_me;
        update (setCurrentUser (Some user));;
        promptData ← in_world (prompts_list (λ p, p_id p = promptId e) 1);
        match promptData with
        | [] =>
            update (toast "Error");;
            update (set_closed true)
        | promptItem :: _ =>
            update (setPrompt (Some promptItem));;
            (* [x || ''] is [x] on a string *)
            update (setContent (p_content promptItem));;
            update (setTitle (p_title promptItem));;
            update (setDescription (or_empty (p_description promptItem)));;
            loadVersions;;
            sessionId ← in_world fresh_key;
            update (set_currentSessionId (Some sessionId));;
            t ← in_world Date_now;
            in_world (prompt_sessions_create
              {| s_id := sessionId; s_prompt_id := promptId e; s_user_id := user_id user;
                 s_user_color := getUserColor (user_id user); s_last_seen := t |});;
            (* the closure returned here is dropped *)
            startRealtimeUpdates captured;;
            ret ()
        end)
       (λ _, update (toast "Error")))
    (update (setIsLoading false)).

Definition clearTimeout (id : nat) : Editor → Editor :=
  set_timers (filter (λ tm, timer_id tm ≠ id)).

(** The cleanup function returned by the mount effect.  The session delete
    is not awaited; its rejection is only logged. *)
Definition effect_cleanup : Mon (Editor * World) unit :=
  e ← view;
  match saveTimeoutRef e with
  | Some id => update (clearTimeout id)
  | None => ret ()
  end;;
  match currentSessionId e with
  | Some id => try_catch (in_world (prompt_sessions_delete id)) (λ _, ret ())
  | None => ret ()
  end.

(** [saveTimeoutRef.current = setTimeout(() => savePrompt(c, t, d), delay)]
    for the [savePrompt] of render [e]. *)
Definition setTimeout_save (e : Editor) (c t d : string) (delay : Z)
    : Mon (Editor * World) unit :=
  tnow ← in_world Date_now;
  r ← view;
  let id := nextTimer r in
  update (set_nextTimer (S id));;
  update (set_timers (λ l, l ++
    [{| timer_id := id; timer_fireAt := tnow + delay; timer_env := closure_env e;
        timer_content := c; timer_title := t; timer_description := d |}]));;
  update (set_saveTimeoutRef (Some id)).

Definition clear_pending_save : Mon (Editor * World) unit :=
  r ← view;
  match saveTimeoutRef r with
  | Some id => update (clearTimeout id)
  | None => ret ()
  end.

Definition handleContentChange (newContent : string) : Mon (Editor * World) unit :=
  e ← view;
  update (setContent newContent);;
  t ← in_world Date_now;
  in_world (realtime_publish (channel_topic (promptId e)) content_change (sender_id e)
    {| cc_content := newContent; cc_title := Some (title e);
       cc_description := Some (description e); cc_timestamp := t |});;
  clear_pending_save;;
  setTimeout_save e newContent (title e) (description e) 2000.

Definition handleTitleChange (newTitle : string) : Mon (Editor * World) unit :=
  e ← view;
  update (setTitle newTitle);;
  t ← in_world Date_now;
  in_world (realtime_publish (channel_topic (promptId e)) content_change (sender_id e)
    {| cc_content := content e; cc_title := Some newTitle;
       cc_description := Some (description e); cc_timestamp := t |});;
  clear_pending_save;;
  setTimeout_save e (content e) newTitle (description e) 2000.

Definition handleDescriptionChange (newDescription : string) : Mon (Editor * World) unit :=
  e ← view;
  update (setDescription newDescription);;
  t ← in_world Date_now;
  in_world (realtime_publish (channel_topic (promptId e)) content_change (sender_id e)
    {| cc_content := content e; cc_title := Some (title e);
       cc_description := Some newDescription; cc_timestamp := t |});;
  clear_pending_save;;
  setTimeout_save e (content e) (title e) newDescription 2000.

Definition handleManualSave : Mon (Editor * World) unit :=
  e ← view;
  clear_pending_save;;
  savePrompt (closure_env e) (content e) (title e) (description e).

Definition restoreVersion (version : PromptVersion) : Mon (Editor * World) unit :=
  e ← view;
  try_catch
    (update (setContent (v_content version));;
     update (setTitle (or_empty (v_title version)));;
     update (setDescription (or_empty (v_description version)));;
     t ← in_world Date_now;
     in_world (realtime_publish (channel_topic (promptId e)) content_change (sender_id e)
       {| cc_content := v_content version; cc_title := Some (or_empty (v_title version));
          cc_description := Some (or_empty (v_description version)); cc_timestamp := t |});;
     savePrompt (closure_env e) (v_content version) (or_empty (v_title version))
                (or_empty (v_description version));;
     update (toast "Version Restored"))
    (λ _, update (toast "Error")).

(** *** The client's timers

    An idealised clock: a timeout runs at the instant it is due.  [advance t]
    lets time pass up to [t], running the timeouts that fall due on the way
    in the order of their due times. *)

Definition fireAt_asc : relation Timer := λ a b, timer_fireAt a ≤ timer_fireAt b.

#[global] Instance fireAt_asc_dec a b : Decision (fireAt_asc a b).
Proof. unfold fireAt_asc. apply _. Defined.

Definition fire (tm : Timer) : Mon (Editor * World) unit :=
  e ← view;
  if bool_decide (timer_id tm ∈ timer_id <$> timers e) then
    update (set_timers (filter (λ x, timer_id x ≠ timer_id tm)));;
    in_world (modify_world (set_now (timer_fireAt tm)));;
    savePrompt (timer_env tm) (timer_content tm) (timer_title tm) (timer_description tm)
  else ret ().

Fixpoint fire_all (tms : list Timer) : Mon (Editor * World) unit :=
  match tms with
  | [] => ret ()
  | tm :: rest => fire tm;; fire_all rest
  end.

Definition advance (t : Time) : Mon (Editor * World) unit :=
  e ← view;
  fire_all (merge_sort fireAt_asc (filter (λ tm, timer_fireAt tm ≤ t) (timers e)));;
  in_world (modify_world (set_now t)).

(** *** Local edits, as events

    The three change handlers differ only in the field they set; [Edit] names
    the event and [apply_edit] is the in-memory document right after it. *)

Inductive Edit :=
| EditContent (newContent : string)
| EditTitle (newTitle : string)
| EditDescription (newDescription : string).

Definition handleEdit (ed : Edit) : Mon (Editor * World) unit :=
  match ed with
  | EditContent s => handleContentChange s
  | EditTitle s => handleTitleChange s
  | EditDescription s => handleDescriptionChange s
  end.

Definition apply_edit (ed : Edit) : Editor → Editor :=
  match ed with
  | EditContent s => setContent s
  | EditTitle s => setTitle s
  | EditDescription s => setDescription s
  end.

(** Three edits, half a second apart, the first at [T0]. *)
Definition typing_burst (T0 : Time) (ed1 ed2 ed3 : Edit) : Mon (Editor * World) unit :=
  advance T0;; handleEdit ed1;;
  advance (T0 + 500);; handleEdit ed2;;
  advance (T0 + 1000);; handleEdit ed3.

(** Everything that can happen to an open editor, one event at a time. *)
Inductive Event :=
| Local (ed : Edit)
| ManualSave
| Restore (version : PromptVersion)
| Remote (captured : option User) (message : Message)
| Tick (t : Time).

Definition step (ev : Event) : Mon (Editor * World) unit :=
  match ev with
  | Local ed => handleEdit ed
  | ManualSave => handleManualSave
  | Restore version => restoreVersion version
  | Remote captured message => update (onMessage captured message)
  | Tick t => advance t
  end.

Fixpoint run (evs : list Event) : Mon (Editor * World) unit :=
  match evs with
  | [] => ret ()
  | ev :: evs => step ev;; run evs
  end.

(** [N] saves one after the other, each by the [savePrompt] of the render
    that follows the previous save. *)
Fixpoint save_all (saves : list (string * string * string)) : Mon (Editor * World) unit :=
  match saves with
  | [] => ret ()
  | (c, t, d) :: rest =>
      e ← view;
      savePrompt (closure_env e) c t d;;
      save_all rest
  end.

(** An editor as first rendered for [promptId] by a client signed in as
    [auth]. *)
Definition initial_editor (promptId : string) (auth : option User) : Editor :=
  {| promptId := promptId; prompt := None; content := ""; title := "";
     description := ""; versions := []; currentUser := None; isLoading := true;
     isSaving := false; lastSaved := None; saveTimeoutRef := None;
     currentSessionId := None; timers := []; nextTimer := 1%nat; auth := auth;
     messageHandlers := []; toasts := []; closed := false |}.

(** ** Access control: adding and listing members *)

(** [create] on the members collection; the key is the backend's. *)
Definition workspaceMembers_create (workspaceId userId : string) (role : Role)
    (invitedBy : option string) (invitedAt joinedAt : Time) : M WorkspaceMember :=
  db_call;; k ← fresh_key;
  let member := {| wm_id := k; wm_workspaceId := workspaceId; wm_userId := userId;
                   wm_role := role; wm_invitedBy := invitedBy;
                   wm_invitedAt := invitedAt; wm_joinedAt := joinedAt |} in
  modify_world (set_workspaceMembers (λ l, l ++ [member]));;
  ret member.

(** The [catch] has no [instanceof] test: every failure becomes the same
    [WorkspaceAccessError], with the constructor's default code. *)
Definition addWorkspaceMember (workspaceId userId : string) (role : Role)
    (invitedBy : option string) : M WorkspaceMember :=
  try_catch
    (invitedAt ← (w ← get_world; ret (now w));
     joinedAt ← (w ← get_world; ret (now w));
     member ← workspaceMembers_create workspaceId userId role invitedBy
                invitedAt joinedAt;
     ret member)
    (λ _, throw (WorkspaceAccessError "Failed to add member to workspace" FORBIDDEN)).

Section MemberOrder.
(** The backend's [createdAt] stamp of a membership row, which the row
    type of the access module does not carry. *)
Context (createdAt : WorkspaceMember → Time).

Definition member_createdAt_asc : relation WorkspaceMember :=
  λ a b, createdAt a ≤ createdAt b.

#[global] Instance member_createdAt_asc_dec a b : Decision (member_createdAt_asc a b).
Proof. unfold member_createdAt_asc. apply _. Defined.

Definition workspaceMembers_list_by (where_ : WorkspaceMember → Prop)
    `{∀ m, Decision (where_ m)} (orderBy : relation WorkspaceMember)
    `{∀ a b, Decision (orderBy a b)} : M (list WorkspaceMember) :=
  db_call;; w ← get_world;
  ret (merge_sort orderBy (filter where_ (workspaceMembers w))).

Definition getWorkspaceMembers (workspaceId : string) : M (list WorkspaceMember) :=
  try_catch
    (members ← workspaceMembers_list_by (λ m, wm_workspaceId m = workspaceId)
                 member_createdAt_asc;
     ret members)
    (λ _, ret []).
End MemberOrder.

(** ** The workspace members panel: members and cancelled invitations *)

Definition workspaceInvitations_delete (id : Key) : M unit :=
  db_call;; modify_world (set_workspaceInvitations (filter (λ i, wi_id i ≠ id))).

Definition handleCancelInvitation (invitationId : Key) : Mon (MembersPanel * World) unit :=
  try_catch
    (in_world (workspaceInvitations_delete invitationId);;
     update (mp_toast "Invitation cancelled");;
     loadInvitations)
    (λ _, update (mp_toast "Error")).

(** The panel's [members] and [loading] state, beside the state its
    invitation handlers use. *)
Record MembersView := {
  mv_panel : MembersPanel;
  members : list WorkspaceMember;
  loading : bool;
}.

Definition setMembers (x : list WorkspaceMember) (v : MembersView) : MembersView :=
  {| mv_panel := mv_panel v; members := x; loading := loading v |}.

Definition setLoading (x : bool) (v : MembersView) : MembersView :=
  {| mv_panel := mv_panel v; members := members v; loading := x |}.

Definition mv_toast (t : string) (v : MembersView) : MembersView :=
  {| mv_panel := mp_toast t (mv_panel v); members := members v; loading := loading v |}.

Section MembersPanelMembers.
Context (createdAt : WorkspaceMember → Time).

Definition loadMembers : Mon (MembersView * World) unit :=
  v ← view;
  try_finally
    (try_catch
       (membersList ← in_world
                        (getWorkspaceMembers createdAt (mp_workspaceId (mv_panel v)));
        update (setMembers membersList))
       (λ _, update (mv_toast "Error")))
    (update (setLoading false)).

Definition handleRemoveMember (memberUserId : string) : Mon (MembersView * World) unit :=
  v ← view;
  try_catch
    (in_world (removeWorkspaceMember (mp_workspaceId (mv_panel v)) memberUserId
                 (mp_userId (mv_panel v)));;
     update (mv_toast "Member removed");;
     loadMembers)
    (λ _, update (mv_toast "Error")).
End MembersPanelMembers.

(** The remove button of a member's row is rendered under this condition. *)
Definition remove_button_shown (v : MembersView) (m : WorkspaceMember) : bool :=
  canPerformAction (mp_userRole (mv_panel v)) admin
  && bool_decide (wm_userId m ≠ mp_userId (mv_panel v)).

(** * Predicates used by the statements

    ** Access control *)

Definition member_rows (ws u : string) (w : World) : list WorkspaceMember :=
  filter (λ m, wm_workspaceId m = ws ∧ wm_userId m = u) (workspaceMembers w).

Definition owner_rows (ws : string) (w : World) : list WorkspaceMember :=
  filter (λ m, wm_workspaceId m = ws ∧ wm_role m = owner) (workspaceMembers w).

(** The workspace has a member with role owner. *)
Definition has_owner (ws : string) (w : World) : Prop :=
  ∃ m, m ∈ workspaceMembers w ∧ wm_workspaceId m = ws ∧ wm_role m = owner.

(** At most one membership row per (workspace, user). *)
Definition membership_unique (w : World) : Prop :=
  NoDup ((λ m, (wm_workspaceId m, wm_userId m)) <$> workspaceMembers w).

(** Row keys are unique. *)
Definition member_keys_unique (w : World) : Prop :=
  NoDup (wm_id <$> workspaceMembers w).

Definition access_denied : Exn :=
  WorkspaceAccessError "Access denied: You are not a member of this workspace" FORBIDDEN.
Definition access_check_failed : Exn :=
  WorkspaceAccessError "Failed to check workspace access" NOT_FOUND.
Definition owners_only : Exn :=
  WorkspaceAccessError "Only workspace owners can remove other members" FORBIDDEN.
Definition last_owner : Exn :=
  WorkspaceAccessError "Cannot remove the last owner from workspace" FORBIDDEN.
Definition remove_failed : Exn :=
  WorkspaceAccessError "Failed to remove member from workspace" FORBIDDEN.

Definition is_access_error (e : Exn) : Prop :=
  ∃ message code, e = WorkspaceAccessError message code.

(** The world after one database call, and whether that call succeeds. *)
Definition after_call (w : World) : World := set_faults (tail (faults w)) w.

Definition call_ok (w : World) : bool :=
  match faults w with
  | true :: _ => false
  | _ => true
  end.

(** ** The editor *)

(** The session has loaded its prompt and knows its user: the guard of
    [savePrompt] passes. *)
Definition loaded (e : Editor) : Prop :=
  is_Some (prompt e) ∧ is_Some (currentUser e).

(** At most one timeout is pending, and it is the one the ref holds. *)
Definition debounced (e : Editor) : Prop :=
  match timers e with
  | [] => True
  | [tm] => saveTimeoutRef e = Some (timer_id tm)
  | _ => False
  end.

(** The timeouts left pending by [clearTimeout(saveTimeoutRef.current)]. *)
Definition still_pending (e : Editor) : list Timer :=
  match saveTimeoutRef e with
  | Some id => filter (λ tm, timer_id tm ≠ id) (timers e)
  | None => timers e
  end.

(** The timeout armed by an edit [ed] made in session [e] at world [w]. *)
Definition armed_timer (ed : Edit) (e : Editor) (w : World) : Timer :=
  {| timer_id := nextTimer e; timer_fireAt := now w + 2000; timer_env := closure_env e;
     timer_content := content (apply_edit ed e); timer_title := title (apply_edit ed e);
     timer_description := description (apply_edit ed e) |}.

(** The version records of a prompt, oldest first. *)
Definition version_log (promptId : string) (w : World) : list PromptVersion :=
  filter (λ v, v_prompt_id v = promptId) (prompt_versions w).

(** What [loadVersions] reads: the 20 highest-numbered records. *)
Definition latest_versions (promptId : string) (w : World) : list PromptVersion :=
  take 20 (merge_sort version_number_desc (version_log promptId w)).

(** The session's cached [versions] are those of the backend. *)
Definition versions_in_sync (e : Editor) (w : World) : Prop :=
  versions e = latest_versions (promptId e) w.

(** The record appended by a save, and the prompt row it writes. *)
Definition saved_version (env : SaveEnv) (c t d : string) (e : Editor) (w : World)
    (user : User) : PromptVersion :=
  {| v_id := keySupply w; v_prompt_id := promptId e;
     v_version_number := Math_max_0 (map v_version_number (env_versions env)) + 1;
     v_content := c; v_title := Some t; v_description := Some d;
     v_user_id := user_id user; v_created_at := now w |}.

Definition saved_prompt (id c t d : string) (at_ : Time) (p : Prompt) : Prompt :=
  if bool_decide (p_id p = id)
  then {| p_id := p_id p; p_title := t; p_content := c; p_description := Some d;
          p_workspace_id := p_workspace_id p; p_user_id := p_user_id p;
          p_updated_at := at_ |}
  else p.

Definition same_document (e e' : Editor) : Prop :=
  promptId e' = promptId e ∧ prompt e' = prompt e ∧ currentUser e' = currentUser e
  ∧ content e' = content e ∧ title e' = title e ∧ description e' = description e
  ∧ auth e' = auth e ∧ messageHandlers e' = messageHandlers e
  ∧ currentSessionId e' = currentSessionId e.

Definition same_timers (e e' : Editor) : Prop :=
  timers e' = timers e ∧ saveTimeoutRef e' = saveTimeoutRef e
  ∧ nextTimer e' = nextTimer e.

(** The collections a save does not write to. *)
Definition same_channel (w w' : World) : Prop :=
  broadcasts w' = broadcasts w ∧ subscriptions w' = subscriptions w
  ∧ prompt_sessions w' = prompt_sessions w ∧ now w' = now w.

(** ** Sample data, for the instances of the statements *)

Definition empty_world : World :=
  {| workspaceMembers := []; workspaceInvitations := []; prompts := [];
     prompt_versions := []; prompt_sessions := []; subscriptions := [];
     broadcasts := []; now := 0; keySupply := 100%nat; faults := [] |}.

Definition member (id : Key) (ws u : string) (r : Role) : WorkspaceMember :=
  {| wm_id := id; wm_workspaceId := ws; wm_userId := u; wm_role := r;
     wm_invitedBy := None; wm_invitedAt := 0; wm_joinedAt := 0 |}.

(** A workspace with a single owner and an editor, and a second workspace
    with two owners. *)
Definition team_world : World :=
  set_workspaceMembers
    (λ _, [member 1%nat "ws1" "alice" owner; member 2%nat "ws1" "bob" editor;
           member 3%nat "ws2" "alice" owner; member 4%nat "ws2" "carol" owner])
    empty_world.

(** A members panel opened by the owner of [ws1], about to invite Bob, in a
    zone without offset, on 2024-01-28T12:00:00Z; one earlier invitation is
    pending and one was accepted. *)
Definition utc_zone : Time → bool → Z := λ _ _, 0.

(** A zone with a daylight-saving change, as US Eastern time in the spring
    of 2024: five hours behind UTC until 2024-03-10T07:00:00Z (02:00 on the
    local clock) and four hours behind from then on.  A local time in the
    skipped hour is read with the offset before the change. *)
Definition eastern_2024 : Time → bool → Z :=
  λ t isUTC,
    if isUTC
    then if bool_decide (t < 1710054000000) then -18000000 else -14400000
    else if bool_decide (t < 1710054000000 - 14400000) then -18000000 else -14400000.

(** The string with the given UTF-8 bytes, and an address of white space
    only: a space, a no-break space (U+00A0) and an ideographic space
    (U+3000). *)
Definition of_bytes (l : list Z) : string :=
  string_of_list_ascii ((λ b, Ascii.ascii_of_N (Z.to_N b)) <$> l).

Definition blank_address : string := of_bytes [32; 194; 160; 227; 128; 128].

Definition owner_panel : MembersPanel :=
  {| mp_workspaceId := "ws1"; mp_userRole := owner; mp_userId := "alice";
     invitations := []; inviteEmail := "  Bob@Example.com "; inviteRole := invite_editor;
     inviteDialogOpen := true; inviting := false; mp_toasts := [] |}.

Definition pending_invitation : WorkspaceInvitation :=
  {| wi_id := 7%nat; wi_workspaceId := "ws1"; wi_email := "dan@example.com";
     wi_role := invite_viewer; wi_invitedBy := "alice"; wi_expiresAt := 1706961600000;
     wi_acceptedAt := None; wi_createdAt := 1706356800000 |}.

Definition accepted_invitation : WorkspaceInvitation :=
  {| wi_id := 8%nat; wi_workspaceId := "ws1"; wi_email := "eve@example.com";
     wi_role := invite_editor; wi_invitedBy := "alice"; wi_expiresAt := 1706961600000;
     wi_acceptedAt := Some 1706400000000; wi_createdAt := 1706356800000 |}.

Definition invite_world : World :=
  set_now 1706443200000
    (set_workspaceInvitations (λ _, [pending_invitation; accepted_invitation]) team_world).

(** A client signed in as Alice opens the editor on prompt [p1]. *)
Definition alice : User :=
  {| user_id := "alice"; user_email := "alice@example.com"; user_display_name := None |}.

Definition prompt_p1 : Prompt :=
  {| p_id := "p1"; p_title := "Greeting"; p_content := ""; p_description := None;
     p_workspace_id := "ws1"; p_user_id := "alice"; p_updated_at := 0 |}.

Definition editor_world : World := set_prompts (λ _, [prompt_p1]) team_world.

(** The editor and the world after the first run of the mount effect.  The
    handler this run registers has captured no user; the run that follows the
    change of [currentUser] is not part of it. *)
Definition mounted : Editor * World :=
  Eval vm_compute in (loadData None (initial_editor "p1" (Some alice), editor_world)).2.

(** Bob opens the same prompt after Alice (first run of his mount effect). *)
Definition bob : User :=
  {| user_id := "bob"; user_email := "bob@example.com"; user_display_name := None |}.

Definition bob_mounted : Editor * World :=
  Eval vm_compute in (loadData None (initial_editor "p1" (Some bob), mounted.2)).2.

(** The same world once Bob has saved a first version of [p1]. *)
Definition restore_world : World :=
  set_prompt_versions
    (λ _, [{| v_id := 5%nat; v_prompt_id := "p1"; v_version_number := 1;
              v_content := "first draft"; v_title := None; v_description := None;
              v_user_id := "bob"; v_created_at := 10 |}])
    mounted.2.

(** The same, the version carrying a title and no description. *)
Definition titled_world : World :=
  set_prompt_versions
    (λ _, [{| v_id := 5%nat; v_prompt_id := "p1"; v_version_number := 1;
              v_content := "first draft"; v_title := Some "Greeting";
              v_description := None; v_user_id := "bob"; v_created_at := 10 |}])
    mounted.2.

(** Two broadcasts from Bob: a full one and one without title and
    description. *)
Definition hello_from_bob : Message :=
  {| msg_topic := "prompt_p1"; msg_type := content_change; msg_userId := "bob";
     msg_data := {| cc_content := "hello"; cc_title := Some "Greeting";
                    cc_description := Some ""; cc_timestamp := 5 |} |}.

Definition bare_from_bob : Message :=
  {| msg_topic := "prompt_p1"; msg_type := content_change; msg_userId := "bob";
     msg_data := {| cc_content := "hello"; cc_title := None;
                    cc_description := None; cc_timestamp := 5 |} |}.

(** ** Adding members *)

Definition add_failed : Exn :=
  WorkspaceAccessError "Failed to add member to workspace" FORBIDDEN.

(** The row [addWorkspaceMember] creates in world [w]. *)
Definition added_member (ws u : string) (role : Role) (by_ : option string)
    (w : World) : WorkspaceMember :=
  {| wm_id := keySupply w; wm_workspaceId := ws; wm_userId := u; wm_role := role;
     wm_invitedBy := by_; wm_invitedAt := now w; wm_joinedAt := now w |}.

(** The next key the backend hands out is not in use. *)
Definition member_key_fresh (w : World) : Prop :=
  keySupply w ∉ wm_id <$> workspaceMembers w.

(** The members panel of [ws1] as its owner sees it before any load. *)
Definition owner_view : MembersView :=
  {| mv_panel := owner_panel; members := []; loading := true |}.

(** ** Broadcasts *)

(** The message an edit [ed] made in session [e] puts on the channel. *)
Definition edit_message (ed : Edit) (e : Editor) (w : World) : Message :=
  {| msg_topic := channel_topic (promptId e); msg_type := content_change;
     msg_userId := sender_id e;
     msg_data := {| cc_content := content (apply_edit ed e);
                    cc_title := Some (title (apply_edit ed e));
                    cc_description := Some (description (apply_edit ed e));
                    cc_timestamp := now w |} |}.

(** Alice's editor once it has read the log of [restore_world]. *)
Definition restore_editor : Editor :=
  Eval vm_compute in (loadVersions (mounted.1, restore_world)).2.1.

(** * Properties *)

(** ** Reasoning about backend calls *)

Ltac unfold_mon :=
  unfold mbind, Mon_bind, mret, Mon_ret, bind, try_catch, try_finally, throw, ret,
    get_world, modify_world, get_state, modify_state, view, update, in_world in *.

Lemma healthy_tail w : healthy w → healthy (set_faults (tail (faults w)) w).
Proof.
  unfold healthy. simpl. destruct (faults w); simpl; [done|].
  by inversion 1.
Qed.

Lemma filter_none {A} (P : A → Prop) `{∀ x, Decision (P x)} (l : list A) :
  Forall (λ x, ¬ P x) l → filter P l = [].
Proof.
  induction 1 as [|x l Hx _ IH]; [done|]. by rewrite filter_cons_False.
Qed.

Lemma filter_all {A} (P : A → Prop) `{∀ x, Decision (P x)} (l : list A) :
  Forall P l → filter P l = l.
Proof.
  induction 1 as [|x l Hx _ IH]; [done|]. by rewrite filter_cons_True, IH.
Qed.

(** ** Access control *)

Lemma db_call_eq w :
  db_call w = (if call_ok w then inr () else inl OtherError, after_call w).
Proof. unfold db_call, call_ok, after_call. by destruct (faults w) as [|[] ?]. Qed.

Lemma healthy_call_ok w : healthy w → call_ok w = true.
Proof.
  unfold healthy, call_ok. destruct (faults w) as [|[] ?]; try done.
  inversion 1; discriminate.
Qed.

Lemma healthy_after_call w : healthy w → healthy (after_call w).
Proof. apply healthy_tail. Qed.

Lemma workspaceMembers_list_eq (P : WorkspaceMember → Prop) `{∀ m, Decision (P m)} w :
  workspaceMembers_list P w =
    (if call_ok w then inr (filter P (workspaceMembers w)) else inl OtherError,
     after_call w).
Proof.
  unfold workspaceMembers_list. unfold_mon. rewrite db_call_eq.
  by destruct (call_ok w).
Qed.

Lemma workspaceMembers_delete_eq id w :
  workspaceMembers_delete id w =
    (if call_ok w then inr () else inl OtherError,
     if call_ok w
     then set_workspaceMembers (filter (λ m, wm_id m ≠ id)) (after_call w)
     else after_call w).
Proof.
  unfold workspaceMembers_delete. unfold_mon. rewrite db_call_eq.
  by destruct (call_ok w).
Qed.

Lemma checkWorkspaceAccess_eq ws u w :
  checkWorkspaceAccess ws u w =
    (if call_ok w
     then match member_rows ws u w with
          | [] => inl access_denied
          | m0 :: _ => inr (wm_role m0)
          end
     else inl access_check_failed, after_call w).
Proof.
  unfold checkWorkspaceAccess. unfold_mon. rewrite workspaceMembers_list_eq.
  unfold member_rows.
  destruct (call_ok w); [|done]. by destruct (filter _ _).
Qed.

(** Symbolic execution of [removeWorkspaceMember]: one case per answer of
    the backend and per branch of the source. *)
Ltac run_remove :=
  repeat first
    [ progress simpl
    | rewrite workspaceMembers_list_eq
    | rewrite workspaceMembers_delete_eq
    | case_bool_decide
    | match goal with
      | |- context [call_ok ?w] => destruct (call_ok w) eqn:?
      | |- context [match filter ?P ?l with _ => _ end] => destruct (filter P l) eqn:?
      end ].

Lemma remove_outcome ws u req w :
  let res := removeWorkspaceMember ws u req w in
  (∃ e, res.1 = inl e ∧ is_access_error e
        ∧ workspaceMembers res.2 = workspaceMembers w)
  ∨ (∃ mr rest, res.1 = inr () ∧ workspaceMembers res.2 = workspaceMembers w
       ∧ member_rows ws u w = []
       ∧ member_rows ws req w = mr :: rest ∧ wm_role mr = owner)
  ∨ (∃ m rest mr rest',
       res.1 = inr ()
       ∧ workspaceMembers res.2 = filter (λ x, wm_id x ≠ wm_id m) (workspaceMembers w)
       ∧ member_rows ws u w = m :: rest
       ∧ member_rows ws req w = mr :: rest'
       ∧ (wm_role mr = owner ∨ req = u)
       ∧ (req = u → wm_role mr = owner → (2 ≤ length (owner_rows ws w))%nat)).
Proof.
  intros res. subst res.
  unfold removeWorkspaceMember. unfold_mon.
  rewrite checkWorkspaceAccess_eq.
  destruct (call_ok w) eqn:Hc0; simpl.
  2: { left. eexists. split; [done|]. split; [by eexists _, _|done]. }
  destruct (member_rows ws req w) as [|mr rest'] eqn:Hreq; simpl.
  { left. eexists. split; [done|]. split; [by eexists _, _|done]. }
  unfold member_rows, owner_rows in *.
  run_remove.
  all: try (left; eexists; split; [done|]; split; [by eexists _, _|done]).
  - destruct H0 as [-> _]. congruence.
  - right; right. eexists _, _, _, _.
    repeat split; eauto; try tauto. intros; lia.
  - right; left. eexists _, _. repeat split; eauto.
    destruct (decide (wm_role mr = owner)); [done|].
    destruct (decide (req = u)) as [->|]; [congruence|tauto].
  - right; right. eexists _, _, _, _. repeat split; eauto; [|tauto].
    destruct (decide (wm_role mr = owner)); [by left|].
    destruct (decide (req = u)); [by right|tauto].
Qed.

(** With one row per (workspace, user), a member's rows are that row. *)
Lemma member_rows_unique w r :
  membership_unique w → r ∈ workspaceMembers w →
  member_rows (wm_workspaceId r) (wm_userId r) w = [r].
Proof.
  unfold membership_unique, member_rows.
  induction (workspaceMembers w) as [|x l IH]; intros Hnd Hin.
  - by apply elem_of_nil in Hin.
  - rewrite fmap_cons in Hnd. apply NoDup_cons in Hnd as [Hx Hnd].
    rewrite filter_cons. apply elem_of_cons in Hin as [<-|Hin].
    + rewrite decide_True by done. f_equal.
      apply filter_none, Forall_forall. intros y Hy [Hws Hu].
      apply Hx, list_elem_of_fmap. exists y. by rewrite Hws, Hu.
    + rewrite decide_False; [by apply IH|].
      intros [Hws Hu]. apply Hx, list_elem_of_fmap. exists r. by rewrite Hws, Hu.
Qed.

(** Deleting a row by its key removes that row and nothing else. *)
Lemma delete_row_count (P : WorkspaceMember → Prop) `{∀ m, Decision (P m)} l m :
  NoDup (wm_id <$> l) → m ∈ l → P m →
  length (filter P l) = S (length (filter P (filter (λ x, wm_id x ≠ wm_id m) l))).
Proof.
  induction l as [|x l IH]; intros Hnd Hin HP.
  - by apply elem_of_nil in Hin.
  - rewrite fmap_cons in Hnd. apply NoDup_cons in Hnd as [Hx Hnd].
    apply elem_of_cons in Hin as [<-|Hin].
    + rewrite (filter_cons (λ x, wm_id x ≠ wm_id m)), decide_False by naive_solver.
      rewrite filter_cons, decide_True by done. simpl.
      rewrite (filter_all (λ x, wm_id x ≠ wm_id m) l); [done|].
      apply Forall_forall. intros y Hy Heq.
      apply Hx, list_elem_of_fmap. by exists y.
    + assert (wm_id x ≠ wm_id m) as Hne.
      { intros Heq. apply Hx, list_elem_of_fmap. by exists m. }
      rewrite (filter_cons (λ x, wm_id x ≠ wm_id m)), decide_True by done.
      rewrite !filter_cons. destruct (decide (P x)); simpl; rewrite IH; done.
Qed.

Lemma delete_row_keys_unique l id :
  NoDup (wm_id <$> l) → NoDup (wm_id <$> filter (λ x, wm_id x ≠ id) l).
Proof.
  intros Hnd. eapply sublist_NoDup; [exact Hnd|].
  apply fmap_sublist, sublist_filter.
Qed.

Lemma key_determines_row l x y :
  NoDup (wm_id <$> l) → x ∈ l → y ∈ l → wm_id x = wm_id y → x = y.
Proof.
  intros Hnd Hx Hy Hxy.
  apply list_elem_of_lookup in Hx as [i Hi], Hy as [j Hj].
  assert (i = j) as ->; [|congruence].
  eapply NoDup_lookup; [exact Hnd| |];
    rewrite list_lookup_fmap; [by rewrite Hi|by rewrite Hj, Hxy].
Qed.

Lemma has_owner_rows ws w : has_owner ws w ↔ owner_rows ws w ≠ [].
Proof.
  unfold has_owner, owner_rows. split.
  - intros (m & Hin & Hws & Hr) Hnil.
    assert (m ∈ filter (λ m, wm_workspaceId m = ws ∧ wm_role m = owner)
                (workspaceMembers w)) as Hm by (by apply list_elem_of_filter).
    rewrite Hnil in Hm. by apply elem_of_nil in Hm.
  - destruct (filter _ _) as [|m l] eqn:Hf; [done|]. intros _.
    assert (m ∈ filter (λ m, wm_workspaceId m = ws ∧ wm_role m = owner)
                (workspaceMembers w)) as Hm by (rewrite Hf; left).
    apply list_elem_of_filter in Hm as [[? ?] ?]. by exists m.
Qed.

Lemma remove_keeps_owner ws u req ws' w :
  member_keys_unique w → has_owner ws' w →
  has_owner ws' (removeWorkspaceMember ws u req w).2
  ∧ member_keys_unique (removeWorkspaceMember ws u req w).2.
Proof.
  intros Hkeys Hown. unfold member_keys_unique in *.
  destruct (remove_outcome ws u req w)
    as [(e & _ & _ & Hrows)|[(mr & rest & _ & Hrows & _)
       |(m & rest & mr & rest' & _ & Hrows & Hm & Hmr & Hperm & Hcount)]].
  1,2: unfold has_owner; by rewrite Hrows.
  split; [|rewrite Hrows; by apply delete_row_keys_unique].
  assert (m ∈ member_rows ws u w) as Hmin by (rewrite Hm; left).
  apply list_elem_of_filter in Hmin as [[Hmws Hmu] Hmin].
  assert (mr ∈ member_rows ws req w) as Hmrin by (rewrite Hmr; left).
  apply list_elem_of_filter in Hmrin as [[Hmrws Hmru] Hmrin].
  destruct Hown as (o & Hoin & Hows & Horole).
  destruct (decide (wm_id o = wm_id m)) as [Heq|Hne].
  2: { exists o. rewrite Hrows. split; [|done]. by apply list_elem_of_filter. }
  (* the deleted row is an owner row of [ws'] *)
  assert (o = m) as -> by eauto using key_determines_row.
  destruct (decide (req = u)) as [->|Hother].
  - (* an owner leaves: another owner row stays *)
    assert (mr = m) as -> by congruence.
    specialize (Hcount eq_refl Horole).
    pose proof (delete_row_count (λ x, wm_workspaceId x = ws ∧ wm_role x = owner)
                  (workspaceMembers w) m Hkeys Hmin (conj Hmws Horole)) as Hc.
    apply has_owner_rows. unfold owner_rows in *. rewrite Hrows, <- Hows, Hmws.
    intros Hnil. rewrite Hnil in Hc. simpl in Hc. lia.
  - (* an owner removes someone else: the requester's row stays *)
    destruct Hperm as [Hrole|?]; [|done].
    exists mr. rewrite Hrows. repeat split; [|congruence|done].
    apply list_elem_of_filter. split; [|done].
    intros Hsame. apply Hother.
    assert (mr = m) as ->; [|congruence].
    eauto using key_determines_row.
Qed.

(** ** Dates and invitations *)

Lemma MonthFromTime_range t : 0 ≤ MonthFromTime t ≤ 11.
Proof.
  unfold MonthFromTime.
  pose proof (length_filter (λ m, MonthStartDay (InLeapYear t) m ≤ DayWithinYear t)
                [1; 2; 3; 4; 5; 6; 7; 8; 9; 10; 11]) as Hlen.
  simpl length in Hlen at 2. lia.
Qed.

Lemma MakeDay_shift t k :
  MakeDay (YearFromTime t) (MonthFromTime t) (DateFromTime t + k) = Day t + k.
Proof.
  pose proof (MonthFromTime_range t) as Hm.
  unfold MakeDay, DateFromTime, DayWithinYear, InLeapYear.
  rewrite Z.div_small, Z.mod_small, Z.add_0_r by lia. lia.
Qed.

Lemma MakeDate_Day t k : MakeDate (Day t + k) (TimeWithinDay t) = t + k * msPerDay.
Proof.
  unfold MakeDate, Day, TimeWithinDay.
  pose proof (Z.div_mod t msPerDay ltac:(done)). lia.
Qed.

Lemma setDate_shift tza T k :
  Date_setDate tza T (Date_getDate tza T + k)
  = TimeClip (UTC tza (LocalTime tza T + k * msPerDay)).
Proof.
  unfold Date_setDate, Date_getDate. by rewrite MakeDay_shift, MakeDate_Day.
Qed.

Lemma workspaceInvitations_create_eq ws email role by_ expiresAt w :
  workspaceInvitations_create ws email role by_ expiresAt w =
    (if call_ok w then inr () else inl OtherError,
     if call_ok w
     then set_workspaceInvitations (λ l, l ++
            [{| wi_id := keySupply w; wi_workspaceId := ws; wi_email := email;
                wi_role := role; wi_invitedBy := by_; wi_expiresAt := expiresAt;
                wi_acceptedAt := None; wi_createdAt := now w |}])
            (set_keySupply (S (keySupply w)) (after_call w))
     else after_call w).
Proof.
  unfold workspaceInvitations_create, fresh_key. unfold_mon. rewrite db_call_eq.
  by destruct (call_ok w).
Qed.

Lemma workspaceInvitations_list_eq (P : WorkspaceInvitation → Prop)
    `{∀ i, Decision (P i)} (R : relation WorkspaceInvitation)
    `{∀ i j, Decision (R i j)} w :
  workspaceInvitations_list P R w =
    (if call_ok w then inr (merge_sort R (filter P (workspaceInvitations w)))
     else inl OtherError, after_call w).
Proof.
  unfold workspaceInvitations_list. unfold_mon. rewrite db_call_eq.
  by destruct (call_ok w).
Qed.

Lemma loadInvitations_world c w :
  workspaceInvitations (loadInvitations (c, w)).2.2 = workspaceInvitations w.
Proof.
  unfold loadInvitations. unfold_mon. simpl.
  rewrite workspaceInvitations_list_eq. by destruct (call_ok w).
Qed.

Lemma loadInvitations_pending c w i :
  healthy w →
  i ∈ invitations (loadInvitations (c, w)).2.1
  ↔ i ∈ workspaceInvitations w
    ∧ wi_workspaceId i = mp_workspaceId c ∧ wi_acceptedAt i = None.
Proof.
  intros Hw. unfold loadInvitations. unfold_mon. simpl.
  rewrite workspaceInvitations_list_eq, healthy_call_ok by done. simpl.
  rewrite merge_sort_Permutation, list_elem_of_filter. tauto.
Qed.


(** ** The editor: saving *)

Lemma prompts_update_eq id c t d at_ w :
  prompts_update id c t d at_ w =
    (if call_ok w then inr () else inl OtherError,
     if call_ok w then set_prompts (map (saved_prompt id c t d at_)) (after_call w)
     else after_call w).
Proof.
  unfold prompts_update. unfold_mon. rewrite db_call_eq. by destruct (call_ok w).
Qed.

Lemma prompt_versions_create_eq v w :
  prompt_versions_create v w =
    (if call_ok w then inr () else inl OtherError,
     if call_ok w then set_prompt_versions (λ l, l ++ [v]) (after_call w)
     else after_call w).
Proof.
  unfold prompt_versions_create. unfold_mon. rewrite db_call_eq.
  by destruct (call_ok w).
Qed.

Lemma prompt_versions_list_eq (P : PromptVersion → Prop) `{∀ v, Decision (P v)}
    (R : relation PromptVersion) `{∀ a b, Decision (R a b)} n w :
  prompt_versions_list P R n w =
    (if call_ok w then inr (take n (merge_sort R (filter P (prompt_versions w))))
     else inl OtherError, after_call w).
Proof.
  unfold prompt_versions_list. unfold_mon. rewrite db_call_eq.
  by destruct (call_ok w).
Qed.

Lemma Forall_tail {A} (P : A → Prop) (l : list A) : Forall P l → Forall P (tail l).
Proof. destruct 1; [constructor|done]. Qed.

Lemma savePrompt_healthy env c t d e w p user :
  env_prompt env = Some p → env_currentUser env = Some user → healthy w →
  ∃ e' w',
    savePrompt env c t d (e, w) = (inr (), (e', w'))
    ∧ prompt_versions w' = prompt_versions w ++ [saved_version env c t d e w user]
    ∧ prompts w' = map (saved_prompt (promptId e) c t d (now w)) (prompts w)
    ∧ same_channel w w' ∧ healthy w'
    ∧ versions_in_sync e' w'
    ∧ same_document e e' ∧ same_timers e e'
    ∧ lastSaved e' = Some (now w).
Proof.
  intros Hp Hu Hw. unfold savePrompt. unfold_mon. cbn [fst snd]. rewrite Hp, Hu.
  unfold Date_now, fresh_key, loadVersions. unfold_mon. cbn [fst snd].
  rewrite prompts_update_eq, healthy_call_ok by done. cbn [fst snd].
  rewrite prompt_versions_create_eq, healthy_call_ok
    by (unfold healthy in *; cbn; by apply Forall_tail).
  cbn [fst snd].
  rewrite prompt_versions_list_eq, healthy_call_ok
    by (unfold healthy in *; cbn; by do 2 apply Forall_tail).
  cbn [fst snd].
  eexists _, _. split; [reflexivity|].
  repeat split; try reflexivity.
  unfold healthy in *; cbn; by do 3 apply Forall_tail.
Qed.

(** ** The editor: edits and timers *)

Lemma bind_eq {St A B} (m : Mon St A) (k : A → Mon St B) s a s' :
  m s = (inr a, s') → (m ≫= k) s = k a s'.
Proof. intros Hm. unfold_mon. by rewrite Hm. Qed.

Lemma handleEdit_spec ed e w :
  ∃ e' w',
    handleEdit ed (e, w) = (inr (), (e', w'))
    ∧ timers e' = still_pending e ++ [armed_timer ed e w]
    ∧ saveTimeoutRef e' = Some (nextTimer e)
    ∧ content e' = content (apply_edit ed e)
    ∧ title e' = title (apply_edit ed e)
    ∧ description e' = description (apply_edit ed e)
    ∧ promptId e' = promptId e ∧ prompt e' = prompt e
    ∧ currentUser e' = currentUser e ∧ versions e' = versions e
    ∧ prompt_versions w' = prompt_versions w ∧ prompts w' = prompts w
    ∧ now w' = now w ∧ faults w' = faults w.
Proof.
  unfold still_pending, armed_timer.
  destruct ed; destruct (saveTimeoutRef e) as [id|] eqn:Href.
  all: eexists _, _; split;
    [unfold handleEdit, handleContentChange, handleTitleChange, handleDescriptionChange,
       clear_pending_save, setTimeout_save, Date_now; unfold_mon;
     cbn [fst snd saveTimeoutRef setContent setTitle setDescription];
     rewrite Href; reflexivity|].
  all: repeat split; reflexivity.
Qed.

Lemma debounced_still_pending e : debounced e → still_pending e = [].
Proof.
  unfold debounced, still_pending.
  destruct (timers e) as [|tm [|? ?]]; try done.
  - by destruct (saveTimeoutRef e).
  - intros ->. by rewrite filter_cons_False by (intros ?; done).
Qed.

Lemma advance_idle t e w :
  timers e = [] → advance t (e, w) = (inr (), (e, set_now t w)).
Proof.
  intros Ht. unfold advance. unfold_mon. cbn [fst snd]. by rewrite Ht.
Qed.

Lemma advance_early t e w tm :
  timers e = [tm] → t < timer_fireAt tm →
  advance t (e, w) = (inr (), (e, set_now t w)).
Proof.
  intros Ht Hlt. unfold advance. unfold_mon. cbn [fst snd]. rewrite Ht.
  by rewrite filter_cons_False, filter_nil by lia.
Qed.

Lemma advance_due t e w tm :
  timers e = [tm] → timer_fireAt tm ≤ t →
  advance t (e, w) =
    (savePrompt (timer_env tm) (timer_content tm) (timer_title tm) (timer_description tm);;
     in_world (modify_world (set_now t)))
      (set_timers (λ _, []) e, set_now (timer_fireAt tm) w).
Proof.
  intros Ht Hle. unfold advance. unfold_mon. cbn [fst snd]. rewrite Ht.
  rewrite filter_cons_True, filter_nil by done.
  change (merge_sort fireAt_asc [tm]) with [tm].
  cbn [fire_all]. unfold fire. unfold_mon. cbn [fst snd]. rewrite Ht.
  rewrite bool_decide_true by (rewrite fmap_cons; left).
  unfold set_timers. cbn [fst snd]. rewrite Ht.
  rewrite filter_cons_False by (intros ?; done). cbn [filter list_filter].
  by destruct (savePrompt _ _ _ _ _) as [[?|[]] ?].
Qed.

Lemma apply_edit_document ed e e' :
  content e' = content e → title e' = title e → description e' = description e →
  content (apply_edit ed e') = content (apply_edit ed e)
  ∧ title (apply_edit ed e') = title (apply_edit ed e)
  ∧ description (apply_edit ed e') = description (apply_edit ed e).
Proof. by destruct ed. Qed.

Lemma handleEdit_debounced ed e w :
  debounced e →
  ∃ e' w',
    handleEdit ed (e, w) = (inr (), (e', w'))
    ∧ timers e' = [armed_timer ed e w]
    ∧ saveTimeoutRef e' = Some (timer_id (armed_timer ed e w))
    ∧ debounced e'
    ∧ content e' = content (apply_edit ed e)
    ∧ title e' = title (apply_edit ed e)
    ∧ description e' = description (apply_edit ed e)
    ∧ promptId e' = promptId e ∧ prompt e' = prompt e
    ∧ currentUser e' = currentUser e ∧ versions e' = versions e
    ∧ prompt_versions w' = prompt_versions w ∧ prompts w' = prompts w
    ∧ now w' = now w ∧ faults w' = faults w.
Proof.
  intros Hd.
  destruct (handleEdit_spec ed e w)
    as (e' & w' & Hrun & Ht & Href & Hrest).
  rewrite debounced_still_pending in Ht by done.
  exists e', w'. repeat split; try tauto.
  unfold debounced. by rewrite Ht.
Qed.

Lemma typing_burst_spec T0 ed1 ed2 ed3 e w :
  timers e = [] →
  ∃ e3 w3 tm,
    typing_burst T0 ed1 ed2 ed3 (e, w) = (inr (), (e3, w3))
    ∧ timers e3 = [tm] ∧ saveTimeoutRef e3 = Some (timer_id tm)
    ∧ timer_fireAt tm = T0 + 3000
    ∧ env_prompt (timer_env tm) = prompt e
    ∧ env_currentUser (timer_env tm) = currentUser e
    ∧ timer_content tm = content (apply_edit ed3 (apply_edit ed2 (apply_edit ed1 e)))
    ∧ timer_title tm = title (apply_edit ed3 (apply_edit ed2 (apply_edit ed1 e)))
    ∧ timer_description tm
      = description (apply_edit ed3 (apply_edit ed2 (apply_edit ed1 e)))
    ∧ promptId e3 = promptId e
    ∧ prompt_versions w3 = prompt_versions w ∧ prompts w3 = prompts w
    ∧ faults w3 = faults w.
Proof.
  intros Ht0. unfold typing_burst.
  rewrite (bind_eq _ _ _ _ _ (advance_idle T0 e w Ht0)).
  destruct (handleEdit_debounced ed1 e (set_now T0 w))
    as (e1 & w1 & Hrun1 & Ht1 & _ & Hd1 & Hc1 & Hti1 & Hde1 & Hid1 & Hp1 & Hu1 & _
        & Hv1 & Hps1 & Hn1 & Hf1);
    [by unfold debounced; rewrite Ht0|].
  rewrite (bind_eq _ _ _ _ _ Hrun1).
  rewrite (bind_eq _ _ _ _ _ (advance_early (T0 + 500) e1 w1 _ Ht1
             ltac:(cbn; rewrite ?Hn1; cbn; lia))).
  destruct (handleEdit_debounced ed2 e1 (set_now (T0 + 500) w1) Hd1)
    as (e2 & w2 & Hrun2 & Ht2 & _ & Hd2 & Hc2 & Hti2 & Hde2 & Hid2 & Hp2 & Hu2 & _
        & Hv2 & Hps2 & Hn2 & Hf2).
  rewrite (bind_eq _ _ _ _ _ Hrun2).
  rewrite (bind_eq _ _ _ _ _ (advance_early (T0 + 1000) e2 w2 _ Ht2
             ltac:(cbn; rewrite ?Hn2; cbn; lia))).
  destruct (handleEdit_debounced ed3 e2 (set_now (T0 + 1000) w2) Hd2)
    as (e3 & w3 & Hrun3 & Ht3 & Href3 & Hd3 & Hc3 & Hti3 & Hde3 & Hid3 & Hp3 & Hu3 & _
        & Hv3 & Hps3 & Hn3 & Hf3).
  exists e3, w3, (armed_timer ed3 e2 (set_now (T0 + 1000) w2)).
  destruct (apply_edit_document ed2 (apply_edit ed1 e) e1) as (Ha & Hb & Hc); [done..|].
  rewrite <- Hc2 in Ha. rewrite <- Hti2 in Hb. rewrite <- Hde2 in Hc.
  destruct (apply_edit_document ed3 (apply_edit ed2 (apply_edit ed1 e)) e2)
    as (Ha' & Hb' & Hc'); [done..|].
  split; [exact Hrun3|]. split; [exact Ht3|]. split; [exact Href3|].
  cbn [armed_timer timer_fireAt timer_env timer_content timer_title timer_description
       closure_env env_prompt env_currentUser now set_now].
  cbn [prompt_versions prompts faults set_now] in *.
  repeat split; try congruence.
  lia.
Qed.

Lemma clear_pending_save_spec e w :
  ∃ e', clear_pending_save (e, w) = (inr (), (e', w))
        ∧ timers e' = still_pending e ∧ promptId e' = promptId e.
Proof.
  unfold clear_pending_save, still_pending. unfold_mon. cbn [fst snd].
  destruct (saveTimeoutRef e); by eexists.
Qed.

Lemma handleManualSave_spec e w p u :
  prompt e = Some p → currentUser e = Some u → debounced e → healthy w →
  ∃ e' w',
    handleManualSave (e, w) = (inr (), (e', w'))
    ∧ timers e' = []
    ∧ prompt_versions w'
      = prompt_versions w
        ++ [saved_version (closure_env e) (content e) (title e) (description e) e w u]
    ∧ prompts w'
      = map (saved_prompt (promptId e) (content e) (title e) (description e) (now w))
            (prompts w).
Proof.
  intros Hp Hu Hd Hw.
  destruct (clear_pending_save_spec e w) as (ec & Hclear & Htc & Hidc).
  rewrite debounced_still_pending in Htc by done.
  destruct (savePrompt_healthy (closure_env e) (content e) (title e) (description e)
              ec w p u Hp Hu Hw)
    as (e' & w' & Hsave & Hlog & Hrow & _ & _ & _ & _ & (Ht & _) & _).
  exists e', w'. unfold handleManualSave.
  change ((view ≫= _) (e, w)) with
    ((clear_pending_save;;
      savePrompt (closure_env e) (content e) (title e) (description e)) (e, w)).
  rewrite (bind_eq _ _ _ _ _ Hclear), Hsave.
  unfold saved_version in *. rewrite Hidc in Hlog, Hrow.
  repeat split; congruence.
Qed.


(** ** The version log *)

#[global] Instance version_number_desc_trans : Transitive version_number_desc.
Proof. unfold version_number_desc. intros a b c ? ?. lia. Qed.

#[global] Instance version_number_desc_total : Total version_number_desc.
Proof. unfold version_number_desc. intros a b. lia. Qed.

Lemma Math_max_0_bounds (xs : list Z) b :
  Forall (λ x, x ≤ b) xs → 0 ≤ Math_max_0 xs ≤ Z.max b 0.
Proof.
  unfold Math_max_0. induction 1 as [|x xs Hx _ IH]; simpl; lia.
Qed.

Lemma Math_max_0_perm (xs ys : list Z) : xs ≡ₚ ys → Math_max_0 xs = Math_max_0 ys.
Proof.
  unfold Math_max_0. induction 1; simpl; lia.
Qed.

Lemma Math_max_0_snoc (xs : list Z) y :
  Math_max_0 (xs ++ [y]) = Z.max (Math_max_0 xs) (Z.max y 0).
Proof.
  unfold Math_max_0. induction xs as [|x xs IH]; simpl; lia.
Qed.

Lemma Math_max_0_upto k : Math_max_0 (Z.of_nat <$> seq 1 k) = Z.of_nat k.
Proof.
  induction k as [|k IH]; [done|].
  rewrite seq_S, fmap_app.
  change (Z.of_nat <$> [(1 + k)%nat]) with [Z.of_nat (1 + k)].
  rewrite Math_max_0_snoc, IH. lia.
Qed.

(** The highest number is among the records [loadVersions] keeps. *)
Lemma Math_max_0_latest (l : list PromptVersion) n :
  Math_max_0 (v_version_number <$> take (S n) (merge_sort version_number_desc l))
  = Math_max_0 (v_version_number <$> l).
Proof.
  rewrite <- (Math_max_0_perm _ _
    (fmap_Permutation v_version_number _ _ (merge_sort_Permutation version_number_desc l))).
  pose proof (StronglySorted_merge_sort version_number_desc l) as Hs.
  destruct (merge_sort version_number_desc l) as [|x s]; [done|].
  apply StronglySorted_inv in Hs as [_ Hx].
  assert (∀ ys : list PromptVersion, Forall (version_number_desc x) ys →
            Math_max_0 (v_version_number <$> x :: ys) = Z.max (v_version_number x) 0)
    as Hmax.
  { intros ys Hys.
    pose proof (Math_max_0_bounds (v_version_number <$> ys) (v_version_number x)) as Hb.
    rewrite fmap_cons. unfold Math_max_0 in *. simpl.
    enough (0 ≤ foldr Z.max 0 (v_version_number <$> ys)
              ≤ Z.max (v_version_number x) 0) by lia.
    apply Hb, Forall_fmap. eapply Forall_impl; [exact Hys|]. by intros y. }
  rewrite firstn_cons, !Hmax; [done|done|].
  eapply Forall_forall. intros y Hy. eapply Forall_forall; [exact Hx|].
  by apply (subseteq_take n s).
Qed.

Lemma version_log_snoc pid w v :
  v_prompt_id v = pid →
  filter (λ v, v_prompt_id v = pid) (prompt_versions w ++ [v])
  = version_log pid w ++ [v].
Proof.
  intros Hv. unfold version_log. by rewrite filter_app, filter_cons_True.
Qed.

Lemma savePrompt_in_sync c t d e w :
  loaded e → healthy w → versions_in_sync e w →
  ∃ e' w' v,
    savePrompt (closure_env e) c t d (e, w) = (inr (), (e', w'))
    ∧ prompt_versions w' = prompt_versions w ++ [v]
    ∧ v_prompt_id v = promptId e
    ∧ v_version_number v
      = Math_max_0 (v_version_number <$> version_log (promptId e) w) + 1
    ∧ v_content v = c ∧ v_title v = Some t ∧ v_description v = Some d
    ∧ versions_in_sync e' w' ∧ loaded e' ∧ healthy w' ∧ promptId e' = promptId e.
Proof.
  intros [[p Hp] [u Hu]] Hw Hsync.
  destruct (savePrompt_healthy (closure_env e) c t d e w p u Hp Hu Hw)
    as (e' & w' & Hsave & Hlog & _ & _ & Hw' & Hsync' & Hdoc & _).
  destruct Hdoc as (Hid & Hp' & Hu' & _).
  exists e', w', (saved_version (closure_env e) c t d e w u).
  repeat split; try done.
  - cbn [saved_version v_version_number closure_env env_versions].
    rewrite Hsync. unfold latest_versions. by rewrite Math_max_0_latest.
  - rewrite Hp'. by eexists.
  - rewrite Hu'. by eexists.
Qed.

Lemma save_all_numbers saves : ∀ e w k,
  loaded e → healthy w → versions_in_sync e w →
  v_version_number <$> version_log (promptId e) w = Z.of_nat <$> seq 1 k →
  (save_all saves (e, w)).1 = inr ()
  ∧ v_version_number <$> version_log (promptId e) (save_all saves (e, w)).2.2
    = Z.of_nat <$> seq 1 (k + length saves).
Proof.
  induction saves as [|[[c t] d] saves IH]; intros e w k Hl Hw Hsync Hnum.
  - simpl. by rewrite Nat.add_0_r.
  - destruct (savePrompt_in_sync c t d e w Hl Hw Hsync)
      as (e' & w' & v & Hsave & Hlog & Hv & Hvn & _ & _ & _ & Hsync' & Hl' & Hw' & Hid).
    cbn [save_all].
    change ((view ≫= _) (e, w)) with
      ((savePrompt (closure_env e) c t d;; save_all saves) (e, w)).
    rewrite (bind_eq _ _ _ _ _ Hsave).
    destruct (IH e' w' (S k) Hl' Hw' Hsync') as [Hok Hnums].
    { rewrite Hid. unfold version_log at 1. rewrite Hlog, version_log_snoc by done.
      rewrite fmap_app, Hnum, seq_S, fmap_app. simpl. rewrite Hvn, Hnum, Math_max_0_upto.
      do 3 f_equal. lia. }
    split; [done|]. rewrite Hid in Hnums. rewrite Hnums. simpl length.
    by rewrite Nat.add_succ_r.
Qed.


(** ** The editor: what every event preserves *)

Lemma savePrompt_frame env c t d e w :
  (savePrompt env c t d (e, w)).1 = inr ()
  ∧ same_timers e (savePrompt env c t d (e, w)).2.1.
Proof.
  unfold savePrompt, same_timers. unfold_mon. cbn [fst snd].
  destruct (env_prompt env), (env_currentUser env); try done.
  unfold Date_now, fresh_key, loadVersions. unfold_mon. cbn [fst snd].
  rewrite prompts_update_eq.
  destruct (call_ok w); cbn [fst snd]; [|done].
  rewrite prompt_versions_create_eq.
  destruct (call_ok _); cbn [fst snd]; [|done].
  rewrite prompt_versions_list_eq.
  by destruct (call_ok _).
Qed.

Lemma advance_debounced t e w :
  debounced e →
  (advance t (e, w)).1 = inr () ∧ debounced (advance t (e, w)).2.1.
Proof.
  intros Hd. pose proof Hd as Hd'. unfold debounced in Hd'.
  destruct (timers e) as [|tm [|? ?]] eqn:Ht; [| |done].
  - by rewrite advance_idle.
  - destruct (decide (t < timer_fireAt tm)).
    + by rewrite (advance_early t e w tm).
    + rewrite (advance_due t e w tm) by (done || lia).
      match goal with
      | |- context [(savePrompt ?env ?c ?ti ?d;; ?k) ?s] =>
          destruct (savePrompt_frame env c ti d s.1 s.2) as [Hok (Hsame & _)];
          cbn [fst snd] in Hok, Hsame;
          destruct (savePrompt env c ti d s) as [[?|[]] [e' w']] eqn:Hsave
      end; [done|].
      unfold_mon. rewrite Hsave. cbn [fst snd] in *.
      split; [done|]. unfold debounced. by rewrite Hsame.
Qed.

Lemma step_debounced ev e w :
  debounced e →
  (step ev (e, w)).1 = inr () ∧ debounced (step ev (e, w)).2.1.
Proof.
  intros Hd. destruct ev as [ed| |version|captured message|t]; cbn [step].
  - destruct (handleEdit_debounced ed e w Hd) as (e' & w' & -> & _ & _ & Hd' & _).
    done.
  - destruct (clear_pending_save_spec e w) as (ec & Hclear & Htc & _).
    rewrite debounced_still_pending in Htc by done.
    unfold handleManualSave.
    change ((view ≫= _) (e, w)) with
      ((clear_pending_save;;
        savePrompt (closure_env e) (content e) (title e) (description e)) (e, w)).
    rewrite (bind_eq _ _ _ _ _ Hclear).
    destruct (savePrompt_frame (closure_env e) (content e) (title e) (description e)
                ec w) as [Hok (Hsame & _)].
    split; [done|]. unfold debounced. by rewrite Hsame, Htc.
  - unfold restoreVersion, Date_now, realtime_publish. unfold_mon. cbn [fst snd].
    match goal with
    | |- context [savePrompt ?env ?c ?ti ?d ?s] =>
        destruct (savePrompt_frame env c ti d s.1 s.2) as [Hok (Hsame & Href & _)];
        cbn [fst snd] in Hok, Hsame, Href;
        destruct (savePrompt env c ti d s) as [[?|[]] [e' w']]
    end; [done|].
    cbn [fst snd] in *. split; [done|].
    unfold debounced in *. cbn [toast toast_with timers saveTimeoutRef].
    cbn [setDescription setTitle setContent timers saveTimeoutRef] in Hsame, Href.
    by rewrite Hsame, Href.
  - unfold update. cbn [fst snd]. split; [done|].
    unfold onMessage. by case_bool_decide.
  - by apply advance_debounced.
Qed.

(** No sequence of events leaves more than one timeout pending. *)
Lemma run_debounced evs : ∀ e w,
  debounced e →
  (run evs (e, w)).1 = inr () ∧ debounced (run evs (e, w)).2.1.
Proof.
  induction evs as [|ev evs IH]; intros e w Hd; [done|].
  destruct (step_debounced ev e w Hd) as [Hok Hd'].
  destruct (step ev (e, w)) as [[?|[]] [e' w']] eqn:Hstep; [done|].
  cbn [run]. rewrite (bind_eq _ _ _ _ _ Hstep). by apply IH.
Qed.

Lemma loadVersions_frame e w :
  (loadVersions (e, w)).1 = inr ()
  ∧ same_timers e (loadVersions (e, w)).2.1.
Proof.
  unfold loadVersions, same_timers. unfold_mon. cbn [fst snd].
  rewrite prompt_versions_list_eq. by destruct (call_ok w).
Qed.

(** Mounting arms no timeout. *)
Lemma loadData_timers captured e w :
  (loadData captured (e, w)).1 = inr ()
  ∧ timers (loadData captured (e, w)).2.1 = timers e.
Proof.
  unfold loadData, auth_me, prompts_list, loadVersions, fresh_key, Date_now,
    prompt_sessions_create, startRealtimeUpdates, channel_subscribe.
  unfold_mon. cbn [fst snd auth setIsLoading].
  destruct (auth e); cbn [fst snd]; [|done].
  rewrite db_call_eq. destruct (call_ok w); cbn [fst snd]; [|done].
  destruct (take 1 _) as [|promptItem ?]; cbn [fst snd]; [done|].
  rewrite prompt_versions_list_eq.
  destruct (call_ok _); cbn [fst snd]; rewrite db_call_eq;
    by destruct (call_ok _).
Qed.

Example mounted_is_loaded :
  loaded mounted.1 ∧ debounced mounted.1 ∧ versions_in_sync mounted.1 mounted.2
  ∧ healthy mounted.2.
Proof.
  split; [split; eexists; reflexivity|]. split; [exact I|]. split; [reflexivity|].
  constructor.
Qed.

(** Alice types while Bob has the same prompt open: the broadcast reaches
    Bob's editor, and nothing is saved on Bob's side however long he waits. *)
Example broadcast_reaches_other_editor :
  ∃ m, broadcasts (handleContentChange "hello" (mounted.1, bob_mounted.2)).2.2 = [m]
       ∧ msg_userId m = "alice"
       ∧ content (deliver m bob_mounted.1) = "hello"
       ∧ prompt_versions
           (advance 100000
              (deliver m bob_mounted.1,
               (handleContentChange "hello" (mounted.1, bob_mounted.2)).2.2)).2.2 = [].
Proof. eexists. by vm_compute. Qed.

(** The calendar functions on a few instants: 1970-01-01, the last
    millisecond of 1969, 2024-02-29 and 2024-12-31, and an expiry that
    crosses the end of a month. *)
Example calendar_samples :
  (YearFromTime 0, MonthFromTime 0, DateFromTime 0) = (1970, 0, 1)
  ∧ (YearFromTime (-1), MonthFromTime (-1), DateFromTime (-1)) = (1969, 11, 31)
  ∧ (YearFromTime 1709164800000, MonthFromTime 1709164800000,
     DateFromTime 1709164800000) = (2024, 1, 29)
  ∧ (YearFromTime 1735603200000, MonthFromTime 1735603200000,
     DateFromTime 1735603200000) = (2024, 11, 31)
  ∧ Date_setDate utc_zone 1706443200000 (Date_getDate utc_zone 1706443200000 + 7)
    = Some 1707048000000.
Proof. by vm_compute. Qed.

(** [trim] strips white space beyond ASCII and keeps what is none (U+200B);
    character codes are UTF-16 code units: U+00C9 is one unit, U+1F600 a
    surrogate pair. *)
Example string_samples :
  trim "  Bob@Example.com " = "Bob@Example.com"
  ∧ trim (of_bytes [194; 160; 65; 226; 128; 168; 239; 187; 191; 9]) = "A"
  ∧ trim (of_bytes [226; 128; 139; 32]) = of_bytes [226; 128; 139]
  ∧ charCodes "bob" = [98; 111; 98]
  ∧ charCodes (of_bytes [195; 137]) = [201]
  ∧ charCodes (of_bytes [240; 159; 152; 128]) = [55357; 56832]
  ∧ getUserColor (of_bytes [195; 137]) = "#f97316".
Proof. by vm_compute. Qed.

Example getUserColor_samples :
  getUserColor "alice" = "#ef4444" ∧ getUserColor "bob" = "#3b82f6"
  ∧ getUserColor "anonymous" = "#22c55e".
Proof. by vm_compute. Qed.

(** C4. [canPerformAction] is total; [read] is granted to every role,
    [write] exactly to owner and editor, [admin] exactly to owner. *)
Theorem canPerformAction_table (role : Role) :
  canPerformAction role read = true
  ∧ (canPerformAction role write = true ↔ role = owner ∨ role = editor)
  ∧ (canPerformAction role admin = true ↔ role = owner).
Proof.
  destruct role; vm_compute; intuition congruence.
Qed.

(** C5. The sole owner of a workspace cannot remove themself: the call fails,
    with the last-owner error when the backend answers, and deletes no
    membership row.  Consequently a workspace that has an owner still has one
    after any call of [removeWorkspaceMember], successful or not. *)
Theorem last_owner_cannot_leave :
  (∀ w ws u r,
     owner_rows ws w = [r] → wm_userId r = u → membership_unique w →
     (∃ e, (removeWorkspaceMember ws u u w).1 = inl e ∧ is_access_error e)
     ∧ workspaceMembers (removeWorkspaceMember ws u u w).2 = workspaceMembers w
     ∧ (healthy w → (removeWorkspaceMember ws u u w).1 = inl last_owner))
  ∧ (∀ w ws u req ws',
       member_keys_unique w → has_owner ws' w →
       has_owner ws' (removeWorkspaceMember ws u req w).2
       ∧ member_keys_unique (removeWorkspaceMember ws u req w).2).
Proof.
  split; [|intros; by apply remove_keeps_owner].
  intros w ws u r Hown <- Huniq.
  assert (r ∈ owner_rows ws w) as Hr by (rewrite Hown; left).
  apply list_elem_of_filter in Hr as [[<- Hrole] Hin].
  pose proof (member_rows_unique w r Huniq Hin) as Hrows.
  assert (healthy w → call_ok w = true ∧ call_ok (after_call w) = true) as Hh.
  { intros Hw. split; [by apply healthy_call_ok|].
    by apply healthy_call_ok, healthy_after_call. }
  unfold removeWorkspaceMember. unfold_mon.
  rewrite checkWorkspaceAccess_eq, Hrows, Hrole.
  destruct (call_ok w) eqn:Hc0; simpl.
  2: { split; [|split]; [eexists; split; [done|by eexists _, _]|done|].
       intros [? _]%Hh. done. }
  rewrite bool_decide_true by done.
  rewrite workspaceMembers_list_eq.
  destruct (call_ok (after_call w)) eqn:Hc1; simpl.
  2: { split; [|split]; [eexists; split; [done|by eexists _, _]|done|].
       intros [_ ?]%Hh. done. }
  change (filter _ (workspaceMembers w)) with (owner_rows (wm_workspaceId r) w).
  rewrite Hown. simpl.
  split; [|split]; [eexists; split; [done|by eexists _, _]|done|done].
Qed.

Lemma last_owner_cannot_leave_witness :
  owner_rows "ws1" team_world = [member 1%nat "ws1" "alice" owner]
  ∧ (removeWorkspaceMember "ws1" "alice" "alice" team_world).1 = inl last_owner
  ∧ workspaceMembers (removeWorkspaceMember "ws1" "alice" "alice" team_world).2
    = workspaceMembers team_world
  ∧ has_owner "ws1" (removeWorkspaceMember "ws1" "bob" "alice" team_world).2.
Proof.
  destruct last_owner_cannot_leave as [Hsole Hinv].
  assert (membership_unique team_world) as Huniq by (unfold membership_unique; compute_done).
  assert (member_keys_unique team_world) as Hkeys by (unfold member_keys_unique; compute_done).
  assert (healthy team_world) as Hw by constructor.
  destruct (Hsole team_world "ws1" "alice" (member 1%nat "ws1" "alice" owner)
              eq_refl eq_refl Huniq) as (_ & Hrows & Herr).
  split; [reflexivity|]. split; [exact (Herr Hw)|]. split; [exact Hrows|].
  apply (Hinv team_world "ws1" "bob" "alice" "ws1" Hkeys).
  exists (member 1%nat "ws1" "alice" owner). split; [left|done].
Defined.

(** C6. [removeWorkspaceMember] resolves the requester's role first, so a
    failed resolution is the outcome of the call; a requester who is not an
    owner and is not removing themself gets a [WorkspaceAccessError] and
    nothing is deleted; a permitted removal of a user who has no membership
    row returns normally and deletes nothing. *)
Theorem remove_member_permission ws u req w :
  (∀ e, (checkWorkspaceAccess ws req w).1 = inl e →
        removeWorkspaceMember ws u req w = (inl e, (checkWorkspaceAccess ws req w).2))
  ∧ (req ≠ u → (checkWorkspaceAccess ws req w).1 ≠ inr owner →
       (∃ e, (removeWorkspaceMember ws u req w).1 = inl e ∧ is_access_error e)
       ∧ workspaceMembers (removeWorkspaceMember ws u req w).2 = workspaceMembers w)
  ∧ (req ≠ u → ∀ role, (checkWorkspaceAccess ws req w).1 = inr role → role ≠ owner →
       (removeWorkspaceMember ws u req w).1 = inl owners_only)
  ∧ (healthy w →
     ∀ role, (checkWorkspaceAccess ws req w).1 = inr role → role = owner ∨ req = u →
       member_rows ws u w = [] →
       (removeWorkspaceMember ws u req w).1 = inr ()
       ∧ workspaceMembers (removeWorkspaceMember ws u req w).2 = workspaceMembers w).
Proof.
  unfold removeWorkspaceMember. unfold_mon.
  rewrite checkWorkspaceAccess_eq.
  destruct (call_ok w) eqn:Hc0; simpl.
  2: { repeat split; try done.
       - by intros e [= <-].
       - eexists; split; [done|by eexists _, _]. }
  destruct (member_rows ws req w) as [|mr rest] eqn:Hreq; simpl.
  { repeat split; try done.
    - by intros e [= <-].
    - eexists; split; [done|by eexists _, _]. }
  split; [|split; [|split]].
  - by intros e.
  - intros Hne Hrole.
    rewrite bool_decide_true by (split; congruence). simpl.
    split; [|done]. eexists; split; [done|by eexists _, _].
  - intros Hne role [= <-] Hrole.
    by rewrite bool_decide_true by (split; congruence).
  - intros Hw role [= <-] Hperm Hnone.
    assert (req ≠ u) as Hne by (intros ->; congruence).
    destruct Hperm as [Hrole|?]; [|done].
    rewrite bool_decide_false by (intros [? _]; done). simpl.
    rewrite bool_decide_false by (intros [? _]; done). simpl.
    rewrite workspaceMembers_list_eq, healthy_call_ok by by apply healthy_after_call.
    simpl. unfold member_rows in Hnone. by rewrite Hnone.
Qed.

Lemma remove_member_permission_witness :
  removeWorkspaceMember "ws1" "alice" "dave" team_world
    = (inl access_denied, (checkWorkspaceAccess "ws1" "dave" team_world).2)
  ∧ (removeWorkspaceMember "ws1" "alice" "bob" team_world).1 = inl owners_only
  ∧ workspaceMembers (removeWorkspaceMember "ws1" "alice" "bob" team_world).2
    = workspaceMembers team_world
  ∧ (removeWorkspaceMember "ws1" "dave" "alice" team_world).1 = inr ()
  ∧ workspaceMembers (removeWorkspaceMember "ws1" "dave" "alice" team_world).2
    = workspaceMembers team_world.
Proof.
  assert (healthy team_world) as Hw by constructor.
  destruct (remove_member_permission "ws1" "alice" "dave" team_world) as (Hfirst & _).
  destruct (remove_member_permission "ws1" "alice" "bob" team_world)
    as (_ & Hdenied & Hcode & _).
  destruct (remove_member_permission "ws1" "dave" "alice" team_world)
    as (_ & _ & _ & Hnoop).
  split; [exact (Hfirst access_denied eq_refl)|].
  split; [apply (Hcode ltac:(done) editor eq_refl ltac:(done))|].
  split; [apply Hdenied; done|].
  apply (Hnoop Hw owner eq_refl (or_introl eq_refl) eq_refl).
Defined.

(** C9. An invitation issued at [T] is stored with the expiry
    [setDate(getDate() + 7)] computes on the local calendar: the instant
    seven calendar days later at the same wall-clock time.  That is [T] plus
    604800000 ms (7 days) plus the zone's offset at [T] minus its offset at
    the new wall-clock time, hence exactly [T] plus 7 days when the two
    offsets are equal, and an hour less or more across a daylight-saving
    change.  The pending listing keeps exactly the workspace's invitations
    whose [acceptedAt] is empty, so an accepted invitation is never listed. *)
Theorem invitation_expiry_and_pending :
  (∀ LocalTZA toLowerCase c w,
     trim (inviteEmail c) ≠ "" → mp_userRole c = owner → healthy w →
     Z.abs (now w + 604800000
            + (LocalTZA (now w) true
               - LocalTZA (now w + LocalTZA (now w) true + 604800000) false))
       ≤ 8640000000000000 →
     ∃ inv,
       workspaceInvitations (handleInviteMember LocalTZA toLowerCase (c, w)).2.2
         = workspaceInvitations w ++ [inv]
       ∧ wi_createdAt inv = now w
       ∧ wi_acceptedAt inv = None
       ∧ wi_expiresAt inv
         = now w + 604800000
           + (LocalTZA (now w) true
              - LocalTZA (now w + LocalTZA (now w) true + 604800000) false)
       ∧ (LocalTZA (now w + LocalTZA (now w) true + 604800000) false
          = LocalTZA (now w) true →
          wi_expiresAt inv = now w + 604800000))
  ∧ (∀ c w i,
       healthy w →
       (i ∈ invitations (loadInvitations (c, w)).2.1
        ↔ i ∈ workspaceInvitations w
          ∧ wi_workspaceId i = mp_workspaceId c ∧ wi_acceptedAt i = None)
       ∧ (wi_acceptedAt i ≠ None → i ∉ invitations (loadInvitations (c, w)).2.1)).
Proof.
  split.
  - intros tza lc c w Hemail Hrole Hw Hvalid.
    assert (UTC tza (LocalTime tza (now w) + 7 * msPerDay)
            = now w + 604800000
              + (tza (now w) true - tza (now w + tza (now w) true + 604800000) false))
      as Hexpiry by (change (7 * msPerDay) with 604800000; unfold UTC, LocalTime; lia).
    unfold handleInviteMember. unfold_mon.
    cbn [fst snd].
    rewrite bool_decide_false by done. rewrite Hrole.
    cbn [negb canPerformAction].
    rewrite bool_decide_true by done.
    cbn [negb fst snd].
    rewrite setDate_shift, Hexpiry. unfold TimeClip, Date_toISOString.
    rewrite bool_decide_true by done.
    unfold_mon.
    cbn [fst snd].
    rewrite workspaceInvitations_create_eq, healthy_call_ok by done.
    cbn [fst snd].
    match goal with
    | |- context [loadInvitations (?c', ?w')] =>
        pose proof (loadInvitations_world c' w') as Hl;
        destruct (loadInvitations (c', w')) as [[e|[]] [c2 w2]]
    end.
    all: cbn [fst snd workspaceInvitations set_workspaceInvitations set_keySupply
              after_call set_faults] in Hl |- *.
    all: eexists; split; [exact Hl|]; cbn [wi_createdAt wi_acceptedAt wi_expiresAt].
    all: repeat split.
    all: intros Hsame; rewrite Hsame; lia.
  - intros c w i Hw. split; [by apply loadInvitations_pending|].
    intros Hacc Hin. apply loadInvitations_pending in Hin; [|done]. tauto.
Qed.

Lemma invitation_expiry_and_pending_witness :
  (∃ inv,
     workspaceInvitations
       (handleInviteMember utc_zone toLowerCase_ascii (owner_panel, invite_world)).2.2
       = workspaceInvitations invite_world ++ [inv]
     ∧ wi_expiresAt inv = 1706443200000 + 604800000)
  ∧ accepted_invitation ∉ invitations (loadInvitations (owner_panel, invite_world)).2.1.
Proof.
  destruct invitation_expiry_and_pending as [Hexp Hpend].
  assert (healthy invite_world) as Hw by constructor.
  split.
  - destruct (Hexp utc_zone toLowerCase_ascii owner_panel invite_world)
      as (inv & Hrows & _ & _ & _ & Hinv);
      [compute_done|reflexivity|exact Hw|compute_done|].
    exists inv. split; [exact Hrows|]. apply Hinv. reflexivity.
  - apply (Hpend owner_panel invite_world accepted_invitation Hw). discriminate.
Defined.

(** Across a daylight-saving change the stored expiry is not [T] plus 7
    days: an invitation issued on 2024-03-07 at 12:00 UTC (07:00 in a zone
    that moves its clocks forward on 2024-03-10) expires on 2024-03-14 at
    07:00 local time, which is 11:00 UTC, an hour short of seven days. *)
Lemma invitation_expiry_counterexample :
  let T := 1709812800000 in
  let r := handleInviteMember eastern_2024 toLowerCase_ascii
             (owner_panel, set_now T invite_world) in
  ∃ inv,
    workspaceInvitations r.2.2 = workspaceInvitations invite_world ++ [inv]
    ∧ wi_createdAt inv = T
    ∧ wi_expiresAt inv = T + 604800000 - 3600000
    ∧ wi_expiresAt inv ≠ T + 604800000.
Proof.
  intros T r. vm_compute. eexists. split; [reflexivity|]. by split_and!.
Qed.

(** C3. Every local edit cancels the timeout the ref holds and arms a new
    one, due 2000 ms later, that carries the document as of that edit.  After
    edits at [T0], [T0 + 500] and [T0 + 1000] nothing is saved before
    [T0 + 3000], and from [T0 + 3000] on exactly one version has been written,
    at [T0 + 3000], with the document of the third edit.  A manual save
    cancels the pending timeout and writes the in-memory document at once;
    no save follows it. *)
Theorem debounced_save :
  (∀ ed e w,
     ∃ e' w',
       handleEdit ed (e, w) = (inr (), (e', w'))
       ∧ timers e' = still_pending e ++ [armed_timer ed e w]
       ∧ saveTimeoutRef e' = Some (timer_id (armed_timer ed e w))
       ∧ timer_fireAt (armed_timer ed e w) = now w + 2000
       ∧ (debounced e → timers e' = [armed_timer ed e w])
       ∧ prompt_versions w' = prompt_versions w ∧ prompts w' = prompts w)
  ∧ (∀ T0 ed1 ed2 ed3 e w t,
       loaded e → timers e = [] → healthy w → T0 + 1000 ≤ t →
       let r := (typing_burst T0 ed1 ed2 ed3;; advance t) (e, w) in
       let doc := apply_edit ed3 (apply_edit ed2 (apply_edit ed1 e)) in
       r.1 = inr ()
       ∧ (t < T0 + 3000 →
          prompt_versions r.2.2 = prompt_versions w ∧ prompts r.2.2 = prompts w)
       ∧ (T0 + 3000 ≤ t →
          ∃ v, prompt_versions r.2.2 = prompt_versions w ++ [v]
               ∧ v_created_at v = T0 + 3000
               ∧ v_content v = content doc
               ∧ v_title v = Some (title doc)
               ∧ v_description v = Some (description doc)
               ∧ prompts r.2.2
                 = map (saved_prompt (promptId e) (content doc) (title doc)
                          (description doc) (T0 + 3000)) (prompts w)))
  ∧ (∀ e w t,
       loaded e → debounced e → healthy w →
       let r := handleManualSave (e, w) in
       r.1 = inr () ∧ timers r.2.1 = []
       ∧ (∃ v, prompt_versions r.2.2 = prompt_versions w ++ [v]
               ∧ v_created_at v = now w
               ∧ v_content v = content e
               ∧ v_title v = Some (title e)
               ∧ v_description v = Some (description e))
       ∧ prompts r.2.2
         = map (saved_prompt (promptId e) (content e) (title e) (description e) (now w))
               (prompts w)
       ∧ prompt_versions (advance t r.2).2.2 = prompt_versions r.2.2).
Proof.
  split; [|split].
  - intros ed e w.
    destruct (handleEdit_spec ed e w) as (e' & w' & Hrun & Ht & Href & Hrest).
    exists e', w'. repeat split; try tauto.
    intros Hd. by rewrite Ht, debounced_still_pending.
  - intros T0 ed1 ed2 ed3 e w t [[p Hp] [u Hu]] Ht0 Hw Hlate r doc. subst r doc.
    destruct (typing_burst_spec T0 ed1 ed2 ed3 e w Ht0)
      as (e3 & w3 & tm & Hrun & Ht3 & _ & Hfire & Henvp & Henvu & Hc & Hti & Hde
          & Hid & Hlog & Hrows & Hf).
    rewrite (bind_eq _ _ _ _ _ Hrun).
    destruct (decide (t < T0 + 3000)) as [Hearly|Hdue].
    + rewrite (advance_early t e3 w3 tm Ht3) by lia.
      cbn [fst snd prompt_versions prompts set_now].
      split; [done|]. split; [done|]. intros ?; lia.
    + rewrite (advance_due t e3 w3 tm Ht3) by lia.
      destruct (savePrompt_healthy (timer_env tm) (timer_content tm) (timer_title tm)
                  (timer_description tm) (set_timers (λ _, []) e3)
                  (set_now (timer_fireAt tm) w3) p u)
        as (e' & w' & Hsave & Hlog' & Hrows' & _);
        [congruence|congruence|by unfold healthy in *; cbn; rewrite Hf|].
      rewrite (bind_eq _ _ _ _ _ Hsave). unfold_mon.
      cbn [fst snd prompt_versions prompts set_now].
      split; [done|]. split; [intros ?; lia|]. intros _.
      eexists. split; [rewrite Hlog'; cbn [prompt_versions set_now]; by rewrite Hlog|].
      cbn [saved_version v_created_at v_content v_title v_description now set_now].
      rewrite Hrows'. cbn [promptId set_timers prompts now set_now].
      rewrite Hfire, Hc, Hti, Hde, Hid, Hrows. done.
  - intros e w t [[p Hp] [u Hu]] Hd Hw r. subst r.
    destruct (handleManualSave_spec e w p u Hp Hu Hd Hw)
      as (e' & w' & Hrun & Ht & Hlog & Hrows).
    rewrite Hrun. cbn [fst snd].
    split; [done|]. split; [done|]. split; [by eexists|]. split; [done|].
    by rewrite (advance_idle t e' w' Ht).
Qed.

Lemma debounced_save_witness :
  prompt_versions
    ((typing_burst 0 (EditContent "h") (EditContent "he") (EditContent "hello");;
      advance 2500) (mounted.1, mounted.2)).2.2 = []
  ∧ (∃ v, prompt_versions
            ((typing_burst 0 (EditContent "h") (EditContent "he") (EditContent "hello");;
              advance 3000) (mounted.1, mounted.2)).2.2 = [v]
          ∧ v_created_at v = 3000 ∧ v_content v = "hello")
  ∧ timers (handleManualSave (mounted.1, mounted.2)).2.1 = [].
Proof.
  destruct debounced_save as (_ & Hburst & Hmanual).
  assert (loaded mounted.1) as Hl by (split; eexists; reflexivity).
  assert (healthy mounted.2) as Hw by constructor.
  split; [|split].
  - destruct (Hburst 0 (EditContent "h") (EditContent "he") (EditContent "hello")
                mounted.1 mounted.2 2500 Hl eq_refl Hw ltac:(compute_done))
      as (_ & Hearly & _).
    apply Hearly. compute_done.
  - destruct (Hburst 0 (EditContent "h") (EditContent "he") (EditContent "hello")
                mounted.1 mounted.2 3000 Hl eq_refl Hw ltac:(compute_done))
      as (_ & _ & Hdue).
    destruct (Hdue ltac:(compute_done)) as (v & Hlog & Hat & Hc & _).
    exists v. split; [exact Hlog|]. split; [exact Hat|exact Hc].
  - apply (Hmanual mounted.1 mounted.2 0 Hl I Hw).
Defined.

(** C1. A save by a session whose cached versions are those of the backend
    appends one record numbered [max(cached numbers, 0) + 1], which then is
    the maximum over the prompt's log plus one, and leaves the cache in step
    with the backend; hence [N] saves made one after the other by one session,
    each through the [savePrompt] of the render that follows the previous
    save, on a prompt without versions leave records numbered exactly
    [1, ..., N], in that order. *)
Theorem sequential_versions :
  (∀ e w c t d,
     loaded e → healthy w → versions_in_sync e w →
     ∃ e' w' v,
       savePrompt (closure_env e) c t d (e, w) = (inr (), (e', w'))
       ∧ prompt_versions w' = prompt_versions w ++ [v]
       ∧ v_prompt_id v = promptId e
       ∧ v_version_number v
         = Math_max_0 (v_version_number <$> version_log (promptId e) w) + 1
       ∧ versions_in_sync e' w')
  ∧ (∀ saves e w,
       loaded e → healthy w → version_log (promptId e) w = [] → versions e = [] →
       (save_all saves (e, w)).1 = inr ()
       ∧ v_version_number <$> version_log (promptId e) (save_all saves (e, w)).2.2
         = Z.of_nat <$> seq 1 (length saves)).
Proof.
  split.
  - intros e w c t d Hl Hw Hsync.
    destruct (savePrompt_in_sync c t d e w Hl Hw Hsync)
      as (e' & w' & v & Hsave & Hlog & Hv & Hvn & _ & _ & _ & Hsync' & _).
    by exists e', w', v.
  - intros saves e w Hl Hw Hempty Hcache.
    apply (save_all_numbers saves e w 0%nat); try done.
    + unfold versions_in_sync, latest_versions. by rewrite Hcache, Hempty.
    + by rewrite Hempty.
Qed.

Lemma sequential_versions_witness :
  v_version_number
    <$> version_log "p1"
          (save_all [("a", "t", "d"); ("b", "t", "d"); ("c", "t", "d")]
             (mounted.1, mounted.2)).2.2
  = [1; 2; 3].
Proof.
  destruct sequential_versions as [_ Hseq].
  assert (loaded mounted.1) as Hl by (split; eexists; reflexivity).
  assert (healthy mounted.2) as Hw by constructor.
  exact (proj2 (Hseq [("a", "t", "d"); ("b", "t", "d"); ("c", "t", "d")]
                  mounted.1 mounted.2 Hl Hw eq_refl eq_refl)).
Defined.

(** The number of a record comes from the list the saving closure has
    cached, not from the log, so saves made one after the other can repeat a
    number.  Alice and Bob both have prompt [p1] open, its log empty; Alice
    saves, then Bob saves: both records get number 1.  Within one session: a
    save, then an edit, a restore of the saved version before the edit's
    timeout is due, and the timeout, give the numbers 1, 2, 2. *)
Lemma sequential_versions_counterexample :
  let by_alice :=
    savePrompt (closure_env mounted.1) "a" "t" "d" (mounted.1, bob_mounted.2) in
  let by_bob :=
    savePrompt (closure_env bob_mounted.1) "b" "t" "d" (bob_mounted.1, by_alice.2.2) in
  let first := run [Local (EditContent "a"); Tick 2000] (mounted.1, mounted.2) in
  let K := {| v_id := 101%nat; v_prompt_id := "p1"; v_version_number := 1;
              v_content := "a"; v_title := Some "Greeting"; v_description := Some "";
              v_user_id := "alice"; v_created_at := 2000 |} in
  let later := run [Local (EditContent "b"); Restore K; Tick 5000] first.2 in
  version_log "p1" bob_mounted.2 = []
  ∧ by_alice.1 = inr () ∧ by_bob.1 = inr ()
  ∧ v_version_number <$> version_log "p1" by_bob.2.2 = [1; 1]
  ∧ version_log "p1" mounted.2 = []
  ∧ first.1 = inr () ∧ version_log "p1" first.2.2 = [K]
  ∧ later.1 = inr ()
  ∧ v_version_number <$> version_log "p1" later.2.2 = [1; 2; 2].
Proof. by vm_compute. Qed.

(** C7. Restoring version [K] appends one record carrying [K]'s content,
    title and description (an absent title or description is recorded as the
    empty string), writes the same three values to the live prompt row and to
    the editor, and leaves every earlier record of the log, [K] included, as
    it was. *)
Theorem restore_appends e w K :
  loaded e → healthy w → K ∈ version_log (promptId e) w →
  (restoreVersion K (e, w)).1 = inr ()
  ∧ (∃ v, prompt_versions (restoreVersion K (e, w)).2.2 = prompt_versions w ++ [v]
          ∧ v_prompt_id v = promptId e
          ∧ v_content v = v_content K
          ∧ v_title v = Some (or_empty (v_title K))
          ∧ v_description v = Some (or_empty (v_description K))
          ∧ (∀ t, v_title K = Some t → v_title v = Some t)
          ∧ (v_title K = None → v_title v = Some "")
          ∧ (∀ d, v_description K = Some d → v_description v = Some d)
          ∧ (v_description K = None → v_description v = Some ""))
  ∧ K ∈ version_log (promptId e) (restoreVersion K (e, w)).2.2
  ∧ prompts (restoreVersion K (e, w)).2.2
    = map (saved_prompt (promptId e) (v_content K) (or_empty (v_title K))
             (or_empty (v_description K)) (now w)) (prompts w)
  ∧ content (restoreVersion K (e, w)).2.1 = v_content K
  ∧ title (restoreVersion K (e, w)).2.1 = or_empty (v_title K)
  ∧ description (restoreVersion K (e, w)).2.1 = or_empty (v_description K)
  ∧ (∀ t, v_title K = Some t → title (restoreVersion K (e, w)).2.1 = t)
  ∧ (v_title K = None → title (restoreVersion K (e, w)).2.1 = "")
  ∧ (∀ d, v_description K = Some d → description (restoreVersion K (e, w)).2.1 = d)
  ∧ (v_description K = None → description (restoreVersion K (e, w)).2.1 = "")
  ∧ (∀ row, row ∈ prompts (restoreVersion K (e, w)).2.2 → p_id row = promptId e →
       p_content row = v_content K
       ∧ (∀ t, v_title K = Some t → p_title row = t)
       ∧ (v_title K = None → p_title row = "")
       ∧ (∀ d, v_description K = Some d → p_description row = Some d)
       ∧ (v_description K = None → p_description row = Some "")).
Proof.
  intros [[p Hp] [u Hu]] Hw HK.
  set (e1 := setDescription (or_empty (v_description K))
               (setTitle (or_empty (v_title K)) (setContent (v_content K) e))).
  set (w1 := set_broadcasts (λ l, l ++
               [{| msg_topic := channel_topic (promptId e); msg_type := content_change;
                   msg_userId := sender_id e;
                   msg_data := {| cc_content := v_content K;
                                  cc_title := Some (or_empty (v_title K));
                                  cc_description := Some (or_empty (v_description K));
                                  cc_timestamp := now w |} |}]) w).
  destruct (savePrompt_healthy (closure_env e) (v_content K) (or_empty (v_title K))
              (or_empty (v_description K)) e1 w1 p u Hp Hu Hw)
    as (e' & w' & Hsave & Hlog & Hrows & _ & _ & _ & Hdoc & _).
  destruct Hdoc as (_ & _ & _ & Hc & Ht & Hd & _).
  assert (restoreVersion K (e, w) = (inr (), (toast "Version Restored" e', w'))) as Hrun.
  { unfold restoreVersion, Date_now, realtime_publish. unfold_mon. cbn [fst snd].
    fold e1. fold w1. by rewrite Hsave. }
  rewrite Hrun. cbn [fst snd].
  split; [done|]. split; [|split; [|split; [|split_and!]]].
  - eexists. split; [exact Hlog|].
    cbn [saved_version v_prompt_id v_content v_title v_description].
    split_and!; try done.
    + by intros t ->.
    + by intros ->.
    + by intros d ->.
    + by intros ->.
  - unfold version_log in *. rewrite Hlog, filter_app. apply elem_of_app. by left.
  - exact Hrows.
  - cbn [toast toast_with content]. by rewrite Hc.
  - cbn [toast toast_with title]. by rewrite Ht.
  - cbn [toast toast_with description]. by rewrite Hd.
  - intros t Ht'. cbn [toast toast_with title]. rewrite Ht.
    change (or_empty (v_title K) = t). by rewrite Ht'.
  - intros Ht'. cbn [toast toast_with title]. rewrite Ht.
    change (or_empty (v_title K) = ""). by rewrite Ht'.
  - intros d Hd'. cbn [toast toast_with description]. rewrite Hd.
    change (or_empty (v_description K) = d). by rewrite Hd'.
  - intros Hd'. cbn [toast toast_with description]. rewrite Hd.
    change (or_empty (v_description K) = ""). by rewrite Hd'.
  - intros row Hrow Hid. rewrite Hrows in Hrow.
    apply list_elem_of_fmap in Hrow as (p0 & -> & _).
    unfold saved_prompt in *. cbn [promptId set_broadcasts] in *.
    case_bool_decide as Hp0; [|done].
    cbn [p_content p_title p_description]. split_and!; try done.
    + by intros t ->.
    + by intros ->.
    + by intros d ->.
    + by intros ->.
Qed.

Lemma restore_appends_witness :
  ∃ v, prompt_versions
         (restoreVersion
            {| v_id := 5%nat; v_prompt_id := "p1"; v_version_number := 1;
               v_content := "first draft"; v_title := Some "Greeting";
               v_description := None; v_user_id := "bob"; v_created_at := 10 |}
            (mounted.1, titled_world)).2.2
       = prompt_versions titled_world ++ [v]
       ∧ v_content v = "first draft" ∧ v_title v = Some "Greeting"
       ∧ v_description v = Some "".
Proof.
  assert (loaded mounted.1) as Hl by (split; eexists; reflexivity).
  assert (healthy titled_world) as Hw by constructor.
  destruct (restore_appends mounted.1 titled_world
              {| v_id := 5%nat; v_prompt_id := "p1"; v_version_number := 1;
                 v_content := "first draft"; v_title := Some "Greeting";
                 v_description := None; v_user_id := "bob"; v_created_at := 10 |}
              Hl Hw ltac:(left))
    as (_ & (v & Hlog & _ & Hc & _ & _ & Ht & _ & _ & Hd) & _).
  exists v. split_and!; [exact Hlog|exact Hc|exact (Ht _ eq_refl)|exact (Hd eq_refl)].
Defined.

(** C2. A [content_change] message from another user replaces the local
    content, title and description by the values of its payload (an absent
    title or description reads as the empty string), whatever the local
    values were; the pending timeouts and the ref are untouched, and when no
    timeout is pending no save follows, however much time passes. *)
Theorem remote_change_overwrites captured message e :
  captured = currentUser e ∨ captured = None →
  msg_type message = content_change →
  Some (msg_userId message) ≠ user_id <$> currentUser e →
  content (onMessage captured message e) = cc_content (msg_data message)
  ∧ title (onMessage captured message e) = or_empty (cc_title (msg_data message))
  ∧ description (onMessage captured message e)
    = or_empty (cc_description (msg_data message))
  ∧ (∀ t, cc_title (msg_data message) = Some t →
          title (onMessage captured message e) = t)
  ∧ (∀ d, cc_description (msg_data message) = Some d →
          description (onMessage captured message e) = d)
  ∧ timers (onMessage captured message e) = timers e
  ∧ saveTimeoutRef (onMessage captured message e) = saveTimeoutRef e
  ∧ (timers e = [] → ∀ w t,
       advance t (onMessage captured message e, w)
       = (inr (), (onMessage captured message e, set_now t w))).
Proof.
  intros Hcap Htype Hother.
  assert (Some (msg_userId message) ≠ user_id <$> captured) as Hcond
    by (destruct Hcap as [->| ->]; done).
  unfold onMessage. rewrite bool_decide_true by done.
  repeat split; try done.
  - by intros t ->.
  - by intros d ->.
  - intros Ht w t. by apply advance_idle.
Qed.

Lemma remote_change_overwrites_witness :
  content (onMessage (Some alice) hello_from_bob mounted.1) = "hello"
  ∧ timers (onMessage (Some alice) hello_from_bob mounted.1) = [].
Proof.
  destruct (remote_change_overwrites (Some alice) hello_from_bob mounted.1
              (or_introl eq_refl) eq_refl ltac:(discriminate))
    as (Hc & _ & _ & _ & _ & Ht & _).
  split; [exact Hc|exact Ht].
Defined.

(** C10. When the payload of a [content_change] message from another user
    has no title (no description), the local title (description) becomes the
    empty string, whatever it was. *)
Theorem remote_change_clears_absent_fields captured message e :
  captured = currentUser e ∨ captured = None →
  msg_type message = content_change →
  Some (msg_userId message) ≠ user_id <$> currentUser e →
  (cc_title (msg_data message) = None → title (onMessage captured message e) = "")
  ∧ (cc_description (msg_data message) = None →
     description (onMessage captured message e) = "").
Proof.
  intros Hcap Htype Hother.
  assert (Some (msg_userId message) ≠ user_id <$> captured) as Hcond
    by (destruct Hcap as [->| ->]; done).
  unfold onMessage. rewrite bool_decide_true by done.
  split; by intros ->.
Qed.

Lemma remote_change_clears_absent_fields_witness :
  title mounted.1 = "Greeting"
  ∧ title (onMessage (Some alice) bare_from_bob mounted.1) = ""
  ∧ description (onMessage (Some alice) bare_from_bob mounted.1) = "".
Proof.
  destruct (remote_change_clears_absent_fields (Some alice) bare_from_bob mounted.1
              (or_introl eq_refl) eq_refl ltac:(discriminate)) as (Ht & Hd).
  split; [reflexivity|]. split; [exact (Ht eq_refl)|exact (Hd eq_refl)].
Defined.

(** C8. What the cleanup of the mount effect does: it cancels the timeout
    the ref holds and deletes the session's own [prompt_sessions] row, but the
    channel subscription stays; the closure that would unsubscribe is the one
    [startRealtimeUpdates] returned and [loadData] dropped. *)
Theorem unmount_keeps_subscription :
  (∀ e w,
     (effect_cleanup (e, w)).1 = inr ()
     ∧ subscriptions (effect_cleanup (e, w)).2.2 = subscriptions w
     ∧ timers (effect_cleanup (e, w)).2.1 = still_pending e
     ∧ (∀ id, currentSessionId e = Some id → healthy w →
          prompt_sessions (effect_cleanup (e, w)).2.2
          = filter (λ s, s_id s ≠ id) (prompt_sessions w)))
  ∧ subscriptions mounted.2 = [("prompt_p1", "anonymous")]
  ∧ subscriptions ((handleContentChange "x";; effect_cleanup) (mounted.1, mounted.2)).2.2
    = [("prompt_p1", "anonymous")]
  ∧ timers ((handleContentChange "x";; effect_cleanup) (mounted.1, mounted.2)).2.1 = []
  ∧ prompt_sessions
      ((handleContentChange "x";; effect_cleanup) (mounted.1, mounted.2)).2.2 = []
  ∧ subscriptions (run_cleanup (Unsubscribe "prompt_p1" "anonymous") mounted.2).2 = [].
Proof.
  split; [|by vm_compute].
  intros e w. unfold effect_cleanup, still_pending, prompt_sessions_delete.
  unfold_mon. cbn [fst snd].
  destruct (saveTimeoutRef e) as [tid|], (currentSessionId e) as [sid|];
    cbn [fst snd]; rewrite ?db_call_eq; repeat split; try done.
  all: try by destruct (call_ok w).
  all: intros id [= <-] Hw; by rewrite healthy_call_ok.
Qed.

(** * Further properties of the code *)

(** ** Access control: adding, listing and removing members *)

Lemma addWorkspaceMember_eq ws u role by_ w :
  addWorkspaceMember ws u role by_ w =
    (if call_ok w then inr (added_member ws u role by_ w) else inl add_failed,
     if call_ok w
     then set_workspaceMembers (λ l, l ++ [added_member ws u role by_ w])
            (set_keySupply (S (keySupply w)) (after_call w))
     else after_call w).
Proof.
  unfold addWorkspaceMember, workspaceMembers_create, fresh_key. unfold_mon.
  cbn [fst snd]. rewrite db_call_eq. by destruct (call_ok w).
Qed.

Lemma member_rows_snoc ws u w m :
  member_rows ws u (set_workspaceMembers (λ l, l ++ [m]) w) =
  member_rows ws u w
  ++ (if decide (wm_workspaceId m = ws ∧ wm_userId m = u) then [m] else []).
Proof.
  unfold member_rows. cbn [workspaceMembers set_workspaceMembers].
  by rewrite filter_app, filter_cons, filter_nil.
Qed.

(** X1. [checkWorkspaceAccess] never writes; it answers a role exactly when
    the call goes through and the user has a membership row, and that role is
    the role of one of the user's rows (of the user's row, when there is one row
    per member); a non-member gets [FORBIDDEN] and a failed lookup
    [NOT_FOUND], never the other way round. *)
Theorem checkWorkspaceAccess_taxonomy ws u w :
  workspaceMembers (checkWorkspaceAccess ws u w).2 = workspaceMembers w
  ∧ ((∃ role, (checkWorkspaceAccess ws u w).1 = inr role)
     ↔ call_ok w = true ∧ member_rows ws u w ≠ [])
  ∧ (∀ role, (checkWorkspaceAccess ws u w).1 = inr role →
       ∃ m, m ∈ workspaceMembers w ∧ wm_workspaceId m = ws ∧ wm_userId m = u
            ∧ wm_role m = role)
  ∧ ((checkWorkspaceAccess ws u w).1 = inl access_denied
     ↔ call_ok w = true ∧ member_rows ws u w = [])
  ∧ ((checkWorkspaceAccess ws u w).1 = inl access_check_failed ↔ call_ok w = false)
  ∧ (membership_unique w → call_ok w = true →
     ∀ m, m ∈ workspaceMembers w → wm_workspaceId m = ws → wm_userId m = u →
          (checkWorkspaceAccess ws u w).1 = inr (wm_role m)).
Proof.
  rewrite checkWorkspaceAccess_eq. cbn [fst snd].
  split; [done|].
  destruct (call_ok w) eqn:Hok.
  - destruct (member_rows ws u w) as [|m0 rest] eqn:Hrows; split_and!.
    + split; [by intros [? ?]|by intros [_ ?]].
    + by intros role.
    + done.
    + split; by intros.
    + intros _ _ m Hin Hws Hu.
      assert (m ∈ member_rows ws u w) as Hm by (by apply list_elem_of_filter).
      rewrite Hrows in Hm. by apply elem_of_nil in Hm.
    + split; [done|]. intros _. by eexists.
    + assert (m0 ∈ member_rows ws u w) as Hm0 by (rewrite Hrows; left).
      apply list_elem_of_filter in Hm0 as [[Hws0 Hu0] Hin0].
      intros role [= <-]. by exists m0.
    + split; [done|]. by intros [_ ?].
    + split; by intros.
    + intros Huniq _ m Hin <- <-.
      pose proof (member_rows_unique w m Huniq Hin) as Hone.
      rewrite Hrows in Hone. by injection Hone as ->.
  - split_and!; try done.
    + split; [by intros [? ?]|by intros [? ?]].
    + split; [done|by intros [? ?]].
Qed.

Lemma checkWorkspaceAccess_taxonomy_witness :
  (checkWorkspaceAccess "ws1" "bob" team_world).1 = inr editor
  ∧ (checkWorkspaceAccess "ws1" "dave" team_world).1 = inl access_denied
  ∧ (checkWorkspaceAccess "ws1" "bob" (set_faults [true] team_world)).1
    = inl access_check_failed.
Proof.
  split; [|split].
  - destruct (checkWorkspaceAccess_taxonomy "ws1" "bob" team_world)
      as (_ & _ & _ & _ & _ & Huniq).
    apply (Huniq ltac:(unfold membership_unique; compute_done) eq_refl
             (member 2%nat "ws1" "bob" editor)); [|done..].
    right; left.
  - destruct (checkWorkspaceAccess_taxonomy "ws1" "dave" team_world)
      as (_ & _ & _ & Hdenied & _).
    by apply Hdenied.
  - destruct (checkWorkspaceAccess_taxonomy "ws1" "bob" (set_faults [true] team_world))
      as (_ & _ & _ & _ & Hfailed & _).
    by apply Hfailed.
Defined.

(** X2. After [addWorkspaceMember] has added a user who had no row in the
    workspace, [checkWorkspaceAccess] answers the role just given, and the
    answer for every other (workspace, user) pair is what it was before. *)
Theorem add_then_check ws u role by_ w :
  healthy w → member_rows ws u w = [] →
  ((addWorkspaceMember ws u role by_;; checkWorkspaceAccess ws u) w).1 = inr role
  ∧ (∀ ws' u', (ws', u') ≠ (ws, u) →
       ((addWorkspaceMember ws u role by_;; checkWorkspaceAccess ws' u') w).1
       = (checkWorkspaceAccess ws' u' w).1).
Proof.
  intros Hw Hnone.
  assert (call_ok w = true) as Hok by by apply healthy_call_ok.
  assert (call_ok (after_call w) = true) as Hok'
    by by apply healthy_call_ok, healthy_after_call.
  split; [|intros ws' u' Hne].
  all: unfold_mon; rewrite addWorkspaceMember_eq, Hok; cbn [fst snd];
    rewrite !checkWorkspaceAccess_eq; cbn [fst snd].
  all: change (call_ok (set_workspaceMembers _ _)) with (call_ok (after_call w)).
  all: rewrite Hok', ?Hok;
    rewrite member_rows_snoc.
  - change (member_rows ws u (set_keySupply _ _)) with (member_rows ws u w).
    rewrite Hnone, decide_True by done. done.
  - change (member_rows ws' u' (set_keySupply _ _)) with (member_rows ws' u' w).
    rewrite decide_False by (cbn; intros [? ?]; congruence).
    by rewrite app_nil_r.
Qed.

Lemma add_then_check_witness :
  ((addWorkspaceMember "ws1" "dave" viewer (Some "alice");;
    checkWorkspaceAccess "ws1" "dave") team_world).1 = inr viewer.
Proof.
  apply (add_then_check "ws1" "dave" viewer (Some "alice") team_world);
    [constructor|reflexivity].
Defined.

(** X3. [addWorkspaceMember] does not look for an existing row: adding a
    user who is already a member appends a second row for the same
    (workspace, user) pair, and [checkWorkspaceAccess] keeps answering the
    role of the old row. *)
Theorem add_existing_member ws u role by_ w m rest :
  healthy w → member_rows ws u w = m :: rest →
  ((addWorkspaceMember ws u role by_;; checkWorkspaceAccess ws u) w).1
    = inr (wm_role m)
  ∧ member_rows ws u (addWorkspaceMember ws u role by_ w).2
    = m :: rest ++ [added_member ws u role by_ w]
  ∧ ¬ membership_unique (addWorkspaceMember ws u role by_ w).2.
Proof.
  intros Hw Hrows.
  assert (call_ok w = true) as Hok by by apply healthy_call_ok.
  assert (call_ok (after_call w) = true) as Hok'
    by by apply healthy_call_ok, healthy_after_call.
  assert (member_rows ws u (addWorkspaceMember ws u role by_ w).2
          = m :: rest ++ [added_member ws u role by_ w]) as Hafter.
  { rewrite addWorkspaceMember_eq, Hok. cbn [fst snd].
    rewrite member_rows_snoc.
    change (member_rows ws u (set_keySupply _ _)) with (member_rows ws u w).
    by rewrite Hrows, decide_True. }
  split; [|split; [done|]].
  - unfold_mon. rewrite addWorkspaceMember_eq, Hok in *. cbn [fst snd] in *.
    rewrite checkWorkspaceAccess_eq. cbn [fst snd].
    change (call_ok (set_workspaceMembers _ _)) with (call_ok (after_call w)).
    by rewrite Hok', Hafter.
  - intros Huniq.
    assert (m ∈ member_rows ws u (addWorkspaceMember ws u role by_ w).2) as Hm
      by (rewrite Hafter; left).
    apply list_elem_of_filter in Hm as [[Hws Hu] Hin].
    pose proof (member_rows_unique _ m Huniq Hin) as Hone.
    rewrite Hws, Hu, Hafter in Hone.
    injection Hone as Hone. by destruct rest.
Qed.

Lemma add_existing_member_witness :
  ((addWorkspaceMember "ws1" "bob" owner None;; checkWorkspaceAccess "ws1" "bob")
     team_world).1 = inr editor
  ∧ ¬ membership_unique (addWorkspaceMember "ws1" "bob" owner None team_world).2.
Proof.
  destruct (add_existing_member "ws1" "bob" owner None team_world
              (member 2%nat "ws1" "bob" editor) [] ltac:(constructor) eq_refl)
    as (Hrole & _ & Hdup).
  split; [exact Hrole|exact Hdup].
Defined.

(** X4. When the backend rejects the write, [addWorkspaceMember] throws the
    module's own error, with the default code [FORBIDDEN], and the members
    collection is as before; otherwise it returns the row it appended, stamped
    with the current time. *)
Theorem addWorkspaceMember_outcomes ws u role by_ w :
  (call_ok w = false →
     (addWorkspaceMember ws u role by_ w).1 = inl add_failed
     ∧ workspaceMembers (addWorkspaceMember ws u role by_ w).2 = workspaceMembers w)
  ∧ (call_ok w = true →
     ∃ m, (addWorkspaceMember ws u role by_ w).1 = inr m
          ∧ workspaceMembers (addWorkspaceMember ws u role by_ w).2
            = workspaceMembers w ++ [m]
          ∧ wm_workspaceId m = ws ∧ wm_userId m = u ∧ wm_role m = role
          ∧ wm_invitedBy m = by_ ∧ wm_invitedAt m = now w ∧ wm_joinedAt m = now w).
Proof.
  rewrite addWorkspaceMember_eq.
  split; intros ->; cbn [fst snd]; [done|]. by eexists.
Qed.

Lemma addWorkspaceMember_outcomes_witness :
  (addWorkspaceMember "ws1" "dave" viewer None (set_faults [true] team_world)).1
    = inl add_failed
  ∧ ∃ m, (addWorkspaceMember "ws1" "dave" viewer None team_world).1 = inr m
         ∧ wm_role m = viewer.
Proof.
  split.
  - apply (addWorkspaceMember_outcomes "ws1" "dave" viewer None
             (set_faults [true] team_world)). reflexivity.
  - destruct (proj2 (addWorkspaceMember_outcomes "ws1" "dave" viewer None team_world)
                eq_refl) as (m & Hm & _ & _ & _ & Hrole & _).
    by exists m.
Defined.

Lemma healthy_set_workspaceMembers f w : healthy w → healthy (set_workspaceMembers f w).
Proof. done. Qed.

Lemma healthy_set_keySupply k w : healthy w → healthy (set_keySupply k w).
Proof. done. Qed.

Lemma workspaceMembers_after_call w :
  workspaceMembers (after_call w) = workspaceMembers w.
Proof. done. Qed.

Create HintDb healthy.
#[local] Hint Resolve healthy_call_ok healthy_after_call healthy_set_workspaceMembers
  healthy_set_keySupply : healthy.

(** An owner removing somebody else, on a backend that answers. *)
Lemma remove_by_owner ws u req w mr rest :
  healthy w → req ≠ u → member_rows ws req w = mr :: rest → wm_role mr = owner →
  (removeWorkspaceMember ws u req w).1 = inr ()
  ∧ workspaceMembers (removeWorkspaceMember ws u req w).2
    = match member_rows ws u w with
      | [] => workspaceMembers w
      | m0 :: _ => filter (λ x, wm_id x ≠ wm_id m0) (workspaceMembers w)
      end.
Proof.
  intros Hw Hne Hreq Hrole.
  unfold removeWorkspaceMember. unfold_mon.
  rewrite checkWorkspaceAccess_eq, healthy_call_ok, Hreq, Hrole by done.
  cbn [fst snd].
  rewrite bool_decide_false by (intros [? _]; done). cbn [fst snd].
  rewrite bool_decide_false by (intros [? _]; done). cbn [fst snd].
  rewrite workspaceMembers_list_eq, healthy_call_ok by auto with healthy.
  cbn [fst snd]. rewrite !workspaceMembers_after_call. fold (member_rows ws u w).
  destruct (member_rows ws u w) as [|m0 ?]; [by split|].
  rewrite workspaceMembers_delete_eq, healthy_call_ok by auto with healthy.
  by split.
Qed.

(** X5. An owner who adds a new member and then removes that member leaves
    the members collection exactly as it was, provided the key the backend
    gave the new row was not in use. *)
Theorem add_then_remove_restores ws u role req w mr rest :
  healthy w → member_key_fresh w →
  member_rows ws u w = [] → member_rows ws req w = mr :: rest → wm_role mr = owner →
  ((addWorkspaceMember ws u role (Some req);; removeWorkspaceMember ws u req) w).1
    = inr ()
  ∧ workspaceMembers
      ((addWorkspaceMember ws u role (Some req);; removeWorkspaceMember ws u req) w).2
    = workspaceMembers w.
Proof.
  intros Hw Hfresh Hnone Hreq Hrole.
  assert (req ≠ u) as Hne by (intros ->; congruence).
  unfold_mon. rewrite addWorkspaceMember_eq, healthy_call_ok by done.
  cbn [fst snd].
  set (m := added_member ws u role (Some req) w).
  set (w1 := set_workspaceMembers (λ l, l ++ [m]) _).
  assert (healthy w1) as Hw1 by (subst w1; auto with healthy).
  assert (member_rows ws req w1 = mr :: rest) as Hreq1.
  { subst w1. rewrite member_rows_snoc.
    change (member_rows ws req (set_keySupply _ _)) with (member_rows ws req w).
    rewrite Hreq, decide_False by (cbn; intros [_ ?]; congruence).
    by rewrite app_nil_r. }
  assert (member_rows ws u w1 = [m]) as Hu1.
  { subst w1. rewrite member_rows_snoc.
    change (member_rows ws u (set_keySupply _ _)) with (member_rows ws u w).
    by rewrite Hnone, decide_True. }
  destruct (remove_by_owner ws u req w1 mr rest Hw1 Hne Hreq1 Hrole) as [Hok Hrows].
  split; [done|]. rewrite Hrows, Hu1.
  subst w1. cbn [workspaceMembers set_workspaceMembers set_keySupply after_call set_faults].
  rewrite filter_app, filter_cons_False, filter_nil, app_nil_r by (intros ?; done).
  apply filter_all, Forall_forall. intros x Hx Heq.
  apply Hfresh, list_elem_of_fmap. by exists x.
Qed.

Lemma add_then_remove_restores_witness :
  workspaceMembers
    ((addWorkspaceMember "ws1" "dave" viewer (Some "alice");;
      removeWorkspaceMember "ws1" "dave" "alice") team_world).2
  = workspaceMembers team_world.
Proof.
  apply (add_then_remove_restores "ws1" "dave" viewer "alice" team_world
           (member 1%nat "ws1" "alice" owner) []
           ltac:(constructor) ltac:(unfold member_key_fresh; compute_done)
           eq_refl eq_refl eq_refl).
Defined.

(** X6. Whatever the outcome, [removeWorkspaceMember] adds no row, deletes
    at most one row, and never deletes a row of another workspace or of a
    user other than the target (row keys being unique); when it throws, the
    collection is unchanged. *)
Theorem remove_touches_one_row ws u req w :
  member_keys_unique w →
  workspaceMembers (removeWorkspaceMember ws u req w).2 `sublist_of` workspaceMembers w
  ∧ (length (workspaceMembers w)
     ≤ S (length (workspaceMembers (removeWorkspaceMember ws u req w).2)))%nat
  ∧ (∀ x, x ∈ workspaceMembers w → wm_workspaceId x ≠ ws ∨ wm_userId x ≠ u →
          x ∈ workspaceMembers (removeWorkspaceMember ws u req w).2)
  ∧ ((removeWorkspaceMember ws u req w).1 ≠ inr () →
     workspaceMembers (removeWorkspaceMember ws u req w).2 = workspaceMembers w).
Proof.
  intros Hkeys.
  destruct (remove_outcome ws u req w)
    as [(e & He & _ & Hrows)|[(mr & rest & _ & Hrows & _)
       |(m & rest & mr & rest' & Hok & Hrows & Hm & _)]].
  1,2: rewrite Hrows; split_and!; [done|lia|done|done].
  assert (m ∈ member_rows ws u w) as Hmin by (rewrite Hm; left).
  apply list_elem_of_filter in Hmin as [[Hmws Hmu] Hmin].
  rewrite Hrows. split_and!.
  - apply sublist_filter.
  - pose proof (delete_row_count (λ _, True) (workspaceMembers w) m Hkeys Hmin I) as Hc.
    rewrite !filter_all in Hc by (by apply Forall_forall). lia.
  - intros x Hx Hother. apply list_elem_of_filter. split; [|done].
    intros Heq. assert (x = m) as -> by eauto using key_determines_row.
    destruct Hother; congruence.
  - by rewrite Hok.
Qed.

Lemma remove_touches_one_row_witness :
  member 1%nat "ws1" "alice" owner
    ∈ workspaceMembers (removeWorkspaceMember "ws1" "bob" "alice" team_world).2
  ∧ (3 ≤ length (workspaceMembers
                   (removeWorkspaceMember "ws1" "bob" "alice" team_world).2))%nat.
Proof.
  destruct (remove_touches_one_row "ws1" "bob" "alice" team_world
              ltac:(unfold member_keys_unique; compute_done))
    as (_ & Hlen & Hkeep & _).
  split.
  - apply Hkeep; [left|right; discriminate].
  - exact (le_S_n _ _ Hlen).
Defined.

(** X7. A member leaving a workspace (removing themself), on a backend that
    answers and with one row per member: the call succeeds exactly when the
    member is not an owner or the workspace has at least two owner rows; after
    a success the user has no row left and [checkWorkspaceAccess] refuses them
    with the access-denied error. *)
Theorem leave_workspace ws u w m :
  healthy w → membership_unique w →
  m ∈ workspaceMembers w → wm_workspaceId m = ws → wm_userId m = u →
  ((removeWorkspaceMember ws u u w).1 = inr ()
   ↔ wm_role m ≠ owner ∨ (2 ≤ length (owner_rows ws w))%nat)
  ∧ ((removeWorkspaceMember ws u u w).1 = inr () →
     member_rows ws u (removeWorkspaceMember ws u u w).2 = []
     ∧ ((removeWorkspaceMember ws u u;; checkWorkspaceAccess ws u) w).1
       = inl access_denied).
Proof.
  intros Hw Huniq Hin <- <-.
  pose proof (member_rows_unique w m Huniq Hin) as Hrows.
  assert (filter (λ x, wm_workspaceId x = wm_workspaceId m ∧ wm_userId x = wm_userId m)
            (filter (λ x, wm_id x ≠ wm_id m) (workspaceMembers w)) = []) as Hgone.
  { apply filter_none, Forall_forall. intros x Hx Hpair.
    apply list_elem_of_filter in Hx as [Hid Hx].
    assert (x ∈ member_rows (wm_workspaceId m) (wm_userId m) w) as Hxm
      by (by apply list_elem_of_filter).
    rewrite Hrows in Hxm. apply list_elem_of_singleton in Hxm. by subst. }
  unfold_mon. unfold removeWorkspaceMember. unfold_mon.
  rewrite checkWorkspaceAccess_eq, healthy_call_ok, Hrows by done. cbn [fst snd].
  rewrite bool_decide_false by (intros [_ ?]; done). cbn [fst snd].
  destruct (decide (wm_role m = owner)) as [Hrole|Hrole].
  - rewrite bool_decide_true by done.
    rewrite workspaceMembers_list_eq, healthy_call_ok by auto with healthy.
    cbn [fst snd]. rewrite !workspaceMembers_after_call.
    fold (owner_rows (wm_workspaceId m) w).
    case_bool_decide as Hcount; cbn [fst snd].
    + split; [|done]. split; [done|]. intros [?|?]; [done|lia].
    + rewrite workspaceMembers_list_eq, healthy_call_ok by auto with healthy.
      cbn [fst snd]. rewrite !workspaceMembers_after_call.
      fold (member_rows (wm_workspaceId m) (wm_userId m) w).
      rewrite Hrows, workspaceMembers_delete_eq, healthy_call_ok by auto with healthy.
      cbn [fst snd]. split; [split; [intros _; right; lia|done]|]. intros _.
      rewrite checkWorkspaceAccess_eq, healthy_call_ok by auto 10 with healthy.
      unfold member_rows. cbn [fst snd workspaceMembers set_workspaceMembers
                                after_call set_faults].
      by rewrite Hgone.
  - rewrite bool_decide_false by (intros [_ ?]; done). cbn [fst snd].
    rewrite workspaceMembers_list_eq, healthy_call_ok by auto with healthy.
    cbn [fst snd]. rewrite !workspaceMembers_after_call.
    fold (member_rows (wm_workspaceId m) (wm_userId m) w).
    rewrite Hrows, workspaceMembers_delete_eq, healthy_call_ok by auto with healthy.
    cbn [fst snd]. split; [split; [intros _; by left|done]|]. intros _.
    rewrite checkWorkspaceAccess_eq, healthy_call_ok by auto 10 with healthy.
    unfold member_rows. cbn [fst snd workspaceMembers set_workspaceMembers
                              after_call set_faults].
    by rewrite Hgone.
Qed.

Lemma leave_workspace_witness :
  (removeWorkspaceMember "ws1" "bob" "bob" team_world).1 = inr ()
  ∧ (removeWorkspaceMember "ws2" "carol" "carol" team_world).1 = inr ()
  ∧ ((removeWorkspaceMember "ws1" "bob" "bob";; checkWorkspaceAccess "ws1" "bob")
       team_world).1 = inl access_denied.
Proof.
  assert (healthy team_world) as Hw by constructor.
  assert (membership_unique team_world) as Hu by (unfold membership_unique; compute_done).
  destruct (leave_workspace "ws1" "bob" team_world (member 2%nat "ws1" "bob" editor)
              Hw Hu ltac:(right; left) eq_refl eq_refl) as [Hiff Hafter].
  destruct (leave_workspace "ws2" "carol" team_world (member 4%nat "ws2" "carol" owner)
              Hw Hu ltac:(do 3 right; left) eq_refl eq_refl) as [Hiff' _].
  assert ((removeWorkspaceMember "ws1" "bob" "bob" team_world).1 = inr ()) as Hok
    by (apply Hiff; left; discriminate).
  split; [exact Hok|]. split; [|exact (proj2 (Hafter Hok))].
  apply Hiff'. right. compute_done.
Defined.

#[global] Instance member_createdAt_asc_total createdAt :
  Total (member_createdAt_asc createdAt).
Proof. unfold member_createdAt_asc. intros a b. lia. Qed.

(** X8. [getWorkspaceMembers] never throws and never writes: when the
    backend answers, the result holds exactly the rows of the workspace (each
    as often as it is stored), in ascending [createdAt] order; when it does
    not, the result is the empty list. *)
Theorem getWorkspaceMembers_listing createdAt ws w :
  workspaceMembers (getWorkspaceMembers createdAt ws w).2 = workspaceMembers w
  ∧ ∃ l, (getWorkspaceMembers createdAt ws w).1 = inr l
         ∧ (call_ok w = false → l = [])
         ∧ (call_ok w = true →
            l ≡ₚ filter (λ m, wm_workspaceId m = ws) (workspaceMembers w)
            ∧ Sorted (member_createdAt_asc createdAt) l).
Proof.
  unfold getWorkspaceMembers, workspaceMembers_list_by. unfold_mon.
  rewrite db_call_eq. destruct (call_ok w); cbn [fst snd].
  - split; [done|]. eexists. split; [done|]. split; [done|]. intros _.
    split; [apply merge_sort_Permutation|apply Sorted_merge_sort, _].
  - split; [done|]. by exists [].
Qed.

Lemma getWorkspaceMembers_listing_witness :
  ∃ l, (getWorkspaceMembers wm_joinedAt "ws1" team_world).1 = inr l
       ∧ member 2%nat "ws1" "bob" editor ∈ l.
Proof.
  destruct (getWorkspaceMembers_listing wm_joinedAt "ws1" team_world)
    as (_ & l & Hl & _ & Hok).
  exists l. split; [exact Hl|].
  destruct (Hok eq_refl) as [Hperm _]. rewrite Hperm.
  apply list_elem_of_filter. split; [reflexivity|right; left].
Defined.

(** ** The members panel *)

(** X9. [handleInviteMember] with an email that [trim] leaves empty (one
    made of white space and line terminators only, those beyond ASCII
    included), or from a panel whose role is not owner, shows an error toast
    and does nothing else: no backend call is made and no other state
    changes. *)
Theorem invite_refused LocalTZA toLowerCase c w :
  trim (inviteEmail c) = "" ∨ mp_userRole c ≠ owner →
  handleInviteMember LocalTZA toLowerCase (c, w) = (inr (), (mp_toast "Error" c, w)).
Proof.
  intros Hguard. unfold handleInviteMember. unfold_mon. cbn [fst snd].
  case_bool_decide as Hblank; [done|].
  destruct Hguard as [?|Hrole]; [done|].
  by destruct (mp_userRole c).
Qed.

Lemma invite_refused_witness :
  trim blank_address = ""
  ∧ workspaceInvitations
      (handleInviteMember utc_zone toLowerCase_ascii
         (setInviteEmail blank_address owner_panel, invite_world)).2.2
    = workspaceInvitations invite_world.
Proof.
  split; [reflexivity|].
  rewrite (invite_refused utc_zone toLowerCase_ascii
             (setInviteEmail blank_address owner_panel) invite_world
             (or_introl eq_refl)).
  reflexivity.
Defined.

Lemma workspaceInvitations_delete_eq id w :
  workspaceInvitations_delete id w =
    (if call_ok w then inr () else inl OtherError,
     if call_ok w
     then set_workspaceInvitations (filter (λ i, wi_id i ≠ id)) (after_call w)
     else after_call w).
Proof.
  unfold workspaceInvitations_delete. unfold_mon. rewrite db_call_eq.
  by destruct (call_ok w).
Qed.

Lemma loadInvitations_eq c w :
  loadInvitations (c, w) =
    (inr (),
     (if call_ok w
      then setInvitations
             (merge_sort createdAt_desc
                (filter (λ i, wi_workspaceId i = mp_workspaceId c ∧ wi_acceptedAt i = None)
                   (workspaceInvitations w))) c
      else c, after_call w)).
Proof.
  unfold loadInvitations. unfold_mon. cbn [fst snd].
  rewrite workspaceInvitations_list_eq. by destruct (call_ok w).
Qed.

(** The invitation [handleInviteMember] writes for panel [c] in world [w]. *)
Lemma handleInviteMember_written LocalTZA toLowerCase c w :
  trim (inviteEmail c) ≠ "" → mp_userRole c = owner → call_ok w = true →
  Z.abs (UTC LocalTZA (LocalTime LocalTZA (now w) + 7 * msPerDay)) ≤ 8640000000000000 →
  let inv := {| wi_id := keySupply w; wi_workspaceId := mp_workspaceId c;
                wi_email := trim (toLowerCase (inviteEmail c));
                wi_role := inviteRole c; wi_invitedBy := mp_userId c;
                wi_expiresAt := UTC LocalTZA (LocalTime LocalTZA (now w) + 7 * msPerDay);
                wi_acceptedAt := None; wi_createdAt := now w |} in
  let c1 := setInviteDialogOpen false
              (setInviteEmail "" (mp_toast "Invitation sent" (setInviting true c))) in
  let w1 := set_workspaceInvitations (λ l, l ++ [inv])
              (set_keySupply (S (keySupply w)) (after_call w)) in
  handleInviteMember LocalTZA toLowerCase (c, w)
  = (inr (), (setInviting false (loadInvitations (c1, w1)).2.1,
              (loadInvitations (c1, w1)).2.2)).
Proof.
  intros Hemail Hrole Hok Hvalid inv c1 w1.
  unfold handleInviteMember. unfold_mon. cbn [fst snd].
  rewrite bool_decide_false by done. rewrite Hrole. cbn [negb canPerformAction].
  rewrite bool_decide_true by done. cbn [negb fst snd].
  rewrite setDate_shift. unfold TimeClip, Date_toISOString.
  rewrite bool_decide_true by done. unfold_mon. cbn [fst snd].
  rewrite workspaceInvitations_create_eq, Hok. cbn [fst snd].
  fold inv. fold c1. fold w1.
  rewrite (loadInvitations_eq c1 w1). by destruct (call_ok w1).
Qed.

(** X10. A successful invitation shows up in the panel: the pending list
    read back from the backend holds the new invitation, with the address
    as the host's [toLowerCase] and then [trim] leave it, the chosen role and
    the panel's user as inviter,
    next to every invitation that was pending before; the form is reset (empty
    address, dialog closed, not [inviting]). *)
Theorem invite_then_listed LocalTZA toLowerCase c w :
  trim (inviteEmail c) ≠ "" → mp_userRole c = owner → healthy w →
  Z.abs (UTC LocalTZA (LocalTime LocalTZA (now w) + 7 * msPerDay)) ≤ 8640000000000000 →
  (handleInviteMember LocalTZA toLowerCase (c, w)).1 = inr ()
  ∧ inviteEmail (handleInviteMember LocalTZA toLowerCase (c, w)).2.1 = ""
  ∧ inviteDialogOpen (handleInviteMember LocalTZA toLowerCase (c, w)).2.1 = false
  ∧ inviting (handleInviteMember LocalTZA toLowerCase (c, w)).2.1 = false
  ∧ mp_toasts (handleInviteMember LocalTZA toLowerCase (c, w)).2.1
    = mp_toasts c ++ ["Invitation sent"]
  ∧ (∃ inv, inv ∈ invitations (handleInviteMember LocalTZA toLowerCase (c, w)).2.1
            ∧ wi_workspaceId inv = mp_workspaceId c
            ∧ wi_email inv = trim (toLowerCase (inviteEmail c))
            ∧ wi_role inv = inviteRole c
            ∧ wi_invitedBy inv = mp_userId c
            ∧ wi_acceptedAt inv = None)
  ∧ (∀ i, i ∈ workspaceInvitations w → wi_workspaceId i = mp_workspaceId c →
          wi_acceptedAt i = None →
          i ∈ invitations (handleInviteMember LocalTZA toLowerCase (c, w)).2.1).
Proof.
  intros Hemail Hrole Hw Hvalid.
  rewrite handleInviteMember_written by auto using healthy_call_ok.
  rewrite loadInvitations_eq.
  rewrite (healthy_call_ok (set_workspaceInvitations _ _))
    by (by apply healthy_after_call in Hw).
  cbn [fst snd inviteEmail inviteDialogOpen inviting mp_toasts invitations setInviting
       setInvitations setInviteDialogOpen setInviteEmail mp_toast mp_toast_with
       mp_workspaceId workspaceInvitations set_workspaceInvitations set_keySupply
       after_call set_faults].
  split_and!; try done.
  - eexists. split.
    + rewrite merge_sort_Permutation, filter_app. apply elem_of_app. right.
      rewrite filter_cons_True by done. left.
    + done.
  - intros i Hin Hws Hpending.
    rewrite merge_sort_Permutation, filter_app. apply elem_of_app. left.
    by apply list_elem_of_filter.
Qed.

Lemma invite_then_listed_witness :
  (∃ inv, inv ∈ invitations
                  (handleInviteMember utc_zone toLowerCase_ascii
                     (owner_panel, invite_world)).2.1
          ∧ wi_email inv = "bob@example.com")
  ∧ pending_invitation
      ∈ invitations
          (handleInviteMember utc_zone toLowerCase_ascii (owner_panel, invite_world)).2.1.
Proof.
  destruct (invite_then_listed utc_zone toLowerCase_ascii owner_panel invite_world
              ltac:(compute_done) eq_refl ltac:(constructor) ltac:(compute_done))
    as (_ & _ & _ & _ & _ & (inv & Hin & _ & Hemail & _) & Hold).
  split.
  - exists inv. split; [exact Hin|exact Hemail].
  - apply Hold; [left|reflexivity|reflexivity].
Defined.

(** X11. When the invitation cannot be written (the backend rejects the
    call, or the expiry is not a valid date), [handleInviteMember] still
    returns normally: it shows an error toast, writes nothing, keeps the typed
    address and the dialog as they were, does not reload the list, and ends
    with [inviting] off. *)
Theorem invite_failure LocalTZA toLowerCase c w :
  trim (inviteEmail c) ≠ "" → mp_userRole c = owner →
  call_ok w = false
  ∨ ¬ Z.abs (UTC LocalTZA (LocalTime LocalTZA (now w) + 7 * msPerDay)) ≤ 8640000000000000 →
  (handleInviteMember LocalTZA toLowerCase (c, w)).1 = inr ()
  ∧ workspaceInvitations (handleInviteMember LocalTZA toLowerCase (c, w)).2.2
    = workspaceInvitations w
  ∧ (handleInviteMember LocalTZA toLowerCase (c, w)).2.1
    = setInviting false (mp_toast "Error" (setInviting true c)).
Proof.
  intros Hemail Hrole Hfail.
  unfold handleInviteMember. unfold_mon. cbn [fst snd].
  rewrite bool_decide_false by done. rewrite Hrole. cbn [negb canPerformAction].
  rewrite bool_decide_true by done. cbn [negb fst snd].
  rewrite setDate_shift. unfold TimeClip, Date_toISOString.
  case_bool_decide as Hvalid; unfold_mon; cbn [fst snd]; [|done].
  destruct Hfail as [Hok|?]; [|done].
  by rewrite workspaceInvitations_create_eq, Hok.
Qed.

Lemma invite_failure_witness :
  inviteEmail
    (handleInviteMember utc_zone toLowerCase_ascii
       (owner_panel, set_faults [true] invite_world)).2.1
  = "  Bob@Example.com "
  ∧ workspaceInvitations
      (handleInviteMember utc_zone toLowerCase_ascii
         (owner_panel, set_faults [true] invite_world)).2.2
    = [pending_invitation; accepted_invitation].
Proof.
  destruct (invite_failure utc_zone toLowerCase_ascii owner_panel
              (set_faults [true] invite_world)
              ltac:(compute_done) eq_refl (or_introl eq_refl)) as (_ & Hrows & Hc).
  split; [by rewrite Hc|exact Hrows].
Defined.

(** X12. [handleCancelInvitation] never throws.  When the backend answers it
    deletes the invitation with the given key, whatever its workspace and
    whether accepted or not, leaves every other invitation in place, and the
    reloaded pending list no longer holds that key; when the delete is
    rejected nothing is deleted, the list is not reloaded and an error toast is
    shown. *)
Theorem cancel_invitation id c w :
  (handleCancelInvitation id (c, w)).1 = inr ()
  ∧ (healthy w →
     workspaceInvitations (handleCancelInvitation id (c, w)).2.2
       = filter (λ i, wi_id i ≠ id) (workspaceInvitations w)
     ∧ mp_toasts (handleCancelInvitation id (c, w)).2.1
       = mp_toasts c ++ ["Invitation cancelled"]
     ∧ (∀ i, i ∈ invitations (handleCancelInvitation id (c, w)).2.1
             ↔ i ∈ workspaceInvitations w ∧ wi_id i ≠ id
               ∧ wi_workspaceId i = mp_workspaceId c ∧ wi_acceptedAt i = None))
  ∧ (call_ok w = false →
     workspaceInvitations (handleCancelInvitation id (c, w)).2.2
       = workspaceInvitations w
     ∧ (handleCancelInvitation id (c, w)).2.1 = mp_toast "Error" c).
Proof.
  unfold handleCancelInvitation. unfold_mon. cbn [fst snd].
  rewrite workspaceInvitations_delete_eq.
  destruct (call_ok w) eqn:Hok; cbn [fst snd].
  - rewrite loadInvitations_eq. cbn [fst snd]. split; [done|]. split; [|done].
    intros Hw. rewrite (healthy_call_ok (set_workspaceInvitations _ _))
      by (by apply healthy_after_call in Hw).
    cbn [workspaceInvitations set_workspaceInvitations after_call set_faults
         mp_toasts invitations setInvitations mp_toast mp_toast_with mp_workspaceId].
    split_and!; try done.
    intros i. rewrite merge_sort_Permutation, !list_elem_of_filter. tauto.
  - split; [done|]. split; [|done]. intros Hw.
    by rewrite healthy_call_ok in Hok.
Qed.

Lemma cancel_invitation_witness :
  workspaceInvitations (handleCancelInvitation 7%nat (owner_panel, invite_world)).2.2
    = [accepted_invitation]
  ∧ invitations (handleCancelInvitation 7%nat (owner_panel, invite_world)).2.1 = [].
Proof.
  destruct (cancel_invitation 7%nat owner_panel invite_world) as (_ & Hok & _).
  destruct (Hok ltac:(constructor)) as (Hrows & _ & Hlist).
  split; [exact Hrows|].
  destruct (invitations (handleCancelInvitation 7%nat (owner_panel, invite_world)).2.1)
    as [|i l] eqn:Hl; [reflexivity|].
  exfalso. destruct (proj1 (Hlist i) ltac:(left)) as (Hin & Hid & _ & Hpending).
  apply elem_of_cons in Hin as [->|Hin]; [by apply Hid|].
  apply list_elem_of_singleton in Hin as ->. discriminate Hpending.
Defined.

(** X13. Inviting and then cancelling that invitation leaves the
    invitations collection exactly as it was, provided the key the backend
    gave the invitation was not in use. *)
Theorem invite_then_cancel_restores LocalTZA toLowerCase c w :
  trim (inviteEmail c) ≠ "" → mp_userRole c = owner → healthy w →
  Z.abs (UTC LocalTZA (LocalTime LocalTZA (now w) + 7 * msPerDay)) ≤ 8640000000000000 →
  keySupply w ∉ wi_id <$> workspaceInvitations w →
  ((handleInviteMember LocalTZA toLowerCase;; handleCancelInvitation (keySupply w)) (c, w)).1
    = inr ()
  ∧ workspaceInvitations
      ((handleInviteMember LocalTZA toLowerCase;; handleCancelInvitation (keySupply w)) (c, w)).2.2
    = workspaceInvitations w.
Proof.
  intros Hemail Hrole Hw Hvalid Hfresh.
  unfold_mon. rewrite handleInviteMember_written by auto using healthy_call_ok.
  cbn [fst snd]. rewrite loadInvitations_eq. cbn [fst snd].
  unfold handleCancelInvitation. unfold_mon. cbn [fst snd].
  rewrite workspaceInvitations_delete_eq.
  rewrite (healthy_call_ok (after_call _))
    by (by do 2 apply healthy_after_call in Hw).
  cbn [fst snd]. rewrite loadInvitations_eq. cbn [fst snd].
  split; [done|].
  cbn [workspaceInvitations set_workspaceInvitations set_keySupply after_call set_faults].
  rewrite filter_app, filter_cons_False, filter_nil, app_nil_r by (intros ?; done).
  apply filter_all, Forall_forall. intros i Hi Heq.
  apply Hfresh, list_elem_of_fmap. by exists i.
Qed.

Lemma invite_then_cancel_restores_witness :
  workspaceInvitations
    ((handleInviteMember utc_zone toLowerCase_ascii;; handleCancelInvitation 100%nat)
       (owner_panel, invite_world)).2.2
  = [pending_invitation; accepted_invitation].
Proof.
  apply (invite_then_cancel_restores utc_zone toLowerCase_ascii owner_panel invite_world
           ltac:(compute_done) eq_refl ltac:(constructor) ltac:(compute_done)
           ltac:(compute_done)).
Defined.

Lemma getWorkspaceMembers_eq createdAt ws w :
  getWorkspaceMembers createdAt ws w =
    (inr (if call_ok w
          then merge_sort (member_createdAt_asc createdAt)
                 (filter (λ m, wm_workspaceId m = ws) (workspaceMembers w))
          else []), after_call w).
Proof.
  unfold getWorkspaceMembers, workspaceMembers_list_by. unfold_mon.
  rewrite db_call_eq. by destruct (call_ok w).
Qed.

Lemma loadMembers_eq createdAt v w :
  loadMembers createdAt (v, w) =
    (inr (),
     (setLoading false
        (setMembers
           (if call_ok w
            then merge_sort (member_createdAt_asc createdAt)
                   (filter (λ m, wm_workspaceId m = mp_workspaceId (mv_panel v))
                      (workspaceMembers w))
            else []) v), after_call w)).
Proof.
  unfold loadMembers. unfold_mon. cbn [fst snd].
  by rewrite getWorkspaceMembers_eq.
Qed.

(** X14. [loadMembers] never shows its error toast: a failed backend call
    is indistinguishable from an empty workspace, since it leaves an empty
    members list.  Otherwise the list holds exactly the workspace's rows.  In
    both cases [loading] ends up off and nothing is written. *)
Theorem loadMembers_silent createdAt v w :
  (loadMembers createdAt (v, w)).1 = inr ()
  ∧ mv_panel (loadMembers createdAt (v, w)).2.1 = mv_panel v
  ∧ loading (loadMembers createdAt (v, w)).2.1 = false
  ∧ workspaceMembers (loadMembers createdAt (v, w)).2.2 = workspaceMembers w
  ∧ (call_ok w = false → members (loadMembers createdAt (v, w)).2.1 = [])
  ∧ (call_ok w = true →
     members (loadMembers createdAt (v, w)).2.1
     ≡ₚ filter (λ m, wm_workspaceId m = mp_workspaceId (mv_panel v))
          (workspaceMembers w)).
Proof.
  rewrite loadMembers_eq. cbn [fst snd mv_panel loading members setLoading setMembers].
  split_and!; try done.
  - by intros ->.
  - intros ->. apply merge_sort_Permutation.
Qed.

Lemma loadMembers_silent_witness :
  members (loadMembers wm_joinedAt (owner_view, set_faults [true] team_world)).2.1 = []
  ∧ member 2%nat "ws1" "bob" editor
      ∈ members (loadMembers wm_joinedAt (owner_view, team_world)).2.1.
Proof.
  split.
  - apply (loadMembers_silent wm_joinedAt owner_view (set_faults [true] team_world)).
    reflexivity.
  - destruct (loadMembers_silent wm_joinedAt owner_view team_world)
      as (_ & _ & _ & _ & _ & Hok).
    rewrite (Hok eq_refl). apply list_elem_of_filter. split; [reflexivity|right; left].
Defined.

(** A requester whom the backend does not resolve as owner cannot remove
    somebody else. *)
Lemma remove_not_owner ws u req w :
  req ≠ u → (checkWorkspaceAccess ws req w).1 ≠ inr owner →
  (∃ e, (removeWorkspaceMember ws u req w).1 = inl e)
  ∧ workspaceMembers (removeWorkspaceMember ws u req w).2 = workspaceMembers w.
Proof.
  intros Hne. unfold removeWorkspaceMember. unfold_mon.
  rewrite checkWorkspaceAccess_eq. cbn [fst snd].
  destruct (call_ok w); [|intros _; split; [by eexists|done]].
  destruct (member_rows ws req w) as [|mr rest]; [intros _; split; [by eexists|done]|].
  intros Hrole. cbn [fst snd].
  rewrite bool_decide_true by (split; congruence).
  split; [by eexists|done].
Qed.

Lemma removeWorkspaceMember_healthy ws u req w :
  healthy w → healthy (removeWorkspaceMember ws u req w).2.
Proof.
  intros Hw. unfold removeWorkspaceMember. unfold_mon.
  rewrite checkWorkspaceAccess_eq. cbn [fst snd].
  destruct (call_ok w), (member_rows ws req w); cbn [fst snd].
  all: run_remove.
  all: unfold healthy in *; cbn; repeat apply Forall_tail; done.
Qed.

(** X15. The remove button is offered for other members only, so
    [handleRemoveMember] is called with a target other than the panel's user;
    it never throws.  If the backend resolves the panel's user as owner the
    target's first row is deleted, the toast reads "Member removed" and the
    reloaded list shows the remaining rows of the workspace; if it does not
    (the panel's role is out of date), nothing is deleted, the list is not
    reloaded and the toast reads "Error". *)
Theorem remove_via_button createdAt v w m :
  remove_button_shown v m = true → healthy w →
  let ws := mp_workspaceId (mv_panel v) in
  let req := mp_userId (mv_panel v) in
  let r := handleRemoveMember createdAt (wm_userId m) (v, w) in
  r.1 = inr ()
  ∧ (∀ mr rest, member_rows ws req w = mr :: rest → wm_role mr = owner →
       workspaceMembers r.2.2
       = match member_rows ws (wm_userId m) w with
         | [] => workspaceMembers w
         | m0 :: _ => filter (λ x, wm_id x ≠ wm_id m0) (workspaceMembers w)
         end
       ∧ mp_toasts (mv_panel r.2.1) = mp_toasts (mv_panel v) ++ ["Member removed"]
       ∧ members r.2.1
         ≡ₚ filter (λ x, wm_workspaceId x = ws) (workspaceMembers r.2.2)
       ∧ loading r.2.1 = false)
  ∧ ((checkWorkspaceAccess ws req w).1 ≠ inr owner →
       workspaceMembers r.2.2 = workspaceMembers w
       ∧ r.2.1 = mv_toast "Error" v).
Proof.
  intros Hshown Hw ws req r.
  apply andb_true_iff in Hshown as [_ Hother%bool_decide_eq_true].
  assert (req ≠ wm_userId m) as Hne by (subst req; congruence).
  subst r. unfold handleRemoveMember. unfold_mon. cbn [fst snd]. fold ws req.
  split_and!.
  - destruct (removeWorkspaceMember ws (wm_userId m) req w) as [[e|[]] w'];
      cbn [fst snd]; [done|].
    by rewrite loadMembers_eq.
  - intros mr rest Hreq Hrole.
    destruct (remove_by_owner ws (wm_userId m) req w mr rest Hw Hne Hreq Hrole)
      as [Hok Hrows].
    pose proof (removeWorkspaceMember_healthy ws (wm_userId m) req w Hw) as Hw'.
    destruct (removeWorkspaceMember ws (wm_userId m) req w) as [[e|[]] w'];
      cbn [fst snd] in *; [done|].
    rewrite loadMembers_eq, healthy_call_ok by done.
    cbn [fst snd mv_panel members loading setLoading setMembers mv_toast
         workspaceMembers after_call set_faults mp_toasts mp_toast mp_toast_with
         mp_workspaceId].
    split_and!; try done. apply merge_sort_Permutation.
  - intros Hrole.
    destruct (remove_not_owner ws (wm_userId m) req w Hne Hrole) as [[e He] Hrows].
    destruct (removeWorkspaceMember ws (wm_userId m) req w) as [[e'|[]] w'];
      cbn [fst snd] in *; done.
Qed.

Lemma remove_via_button_witness :
  workspaceMembers
    (handleRemoveMember wm_joinedAt "bob" (owner_view, team_world)).2.2
  = [member 1%nat "ws1" "alice" owner; member 3%nat "ws2" "alice" owner;
     member 4%nat "ws2" "carol" owner]
  ∧ members (handleRemoveMember wm_joinedAt "bob" (owner_view, team_world)).2.1
    ≡ₚ [member 1%nat "ws1" "alice" owner].
Proof.
  destruct (remove_via_button wm_joinedAt owner_view team_world
              (member 2%nat "ws1" "bob" editor) eq_refl ltac:(constructor))
    as (_ & Howner & _).
  destruct (Howner (member 1%nat "ws1" "alice" owner) [] eq_refl eq_refl)
    as (Hrows & _ & Hlist & _).
  split; [exact Hrows|]. rewrite Hlist, Hrows. reflexivity.
Defined.

(** ** The editor: colours, saving and the version list *)

(** X16. [getUserColor] answers one of the eight palette colours for every
    user id: the index it computes from the 32-bit hash is always in range
    (also for the hash [-2^31], whose absolute value is not a 32-bit
    integer); the empty id gets the first colour. *)
Theorem getUserColor_in_palette userId :
  getUserColor userId ∈ USER_COLORS ∧ getUserColor "" = "#ef4444".
Proof.
  split; [|done]. unfold getUserColor.
  set (hash := fold_left _ _ _).
  assert (0 ≤ Z.abs hash `mod` Z.of_nat (length USER_COLORS) < 8) as Hidx
    by (apply Z.mod_pos_bound; done).
  destruct (lookup_lt_is_Some_2 USER_COLORS
              (Z.to_nat (Z.abs hash `mod` Z.of_nat (length USER_COLORS))))
    as [c Hc]; [simpl length in *; lia|].
  rewrite Hc. by eapply list_elem_of_lookup_2.
Qed.

(** X17. A [savePrompt] closure created before the prompt or the user was
    loaded does nothing at all: no backend call, no state change, no toast. *)
Theorem savePrompt_not_loaded env c t d s :
  env_prompt env = None ∨ env_currentUser env = None →
  savePrompt env c t d s = (inr (), s).
Proof.
  intros Hguard. unfold savePrompt. unfold_mon.
  destruct Hguard as [-> | ->]; [by destruct s|].
  destruct (env_prompt env); by destruct s.
Qed.

Lemma savePrompt_not_loaded_witness :
  savePrompt (closure_env (initial_editor "p1" (Some alice))) "text" "" ""
    (initial_editor "p1" (Some alice), editor_world)
  = (inr (), (initial_editor "p1" (Some alice), editor_world)).
Proof.
  apply savePrompt_not_loaded. by left.
Defined.

(** X18. [savePrompt] is two writes without a transaction.  If the prompt
    update is rejected nothing is written; if the update goes through and the
    version write is rejected, the prompt row carries the new document while
    the version log and the cached list are as before.  Either way the call
    returns normally with an error toast and [isSaving] off. *)
Theorem savePrompt_partial_failure env c t d e w p user :
  env_prompt env = Some p → env_currentUser env = Some user →
  (call_ok w = false →
     (savePrompt env c t d (e, w)).1 = inr ()
     ∧ prompts (savePrompt env c t d (e, w)).2.2 = prompts w
     ∧ prompt_versions (savePrompt env c t d (e, w)).2.2 = prompt_versions w
     ∧ (savePrompt env c t d (e, w)).2.1
       = setIsSaving false (toast "Error" (setIsSaving true e)))
  ∧ (call_ok w = true → call_ok (after_call w) = false →
     (savePrompt env c t d (e, w)).1 = inr ()
     ∧ prompts (savePrompt env c t d (e, w)).2.2
       = map (saved_prompt (promptId e) c t d (now w)) (prompts w)
     ∧ prompt_versions (savePrompt env c t d (e, w)).2.2 = prompt_versions w
     ∧ (savePrompt env c t d (e, w)).2.1
       = setIsSaving false (toast "Error" (setIsSaving true e))).
Proof.
  intros Hp Hu. unfold savePrompt. unfold_mon. cbn [fst snd]. rewrite Hp, Hu.
  unfold Date_now, fresh_key, loadVersions. unfold_mon. cbn [fst snd].
  rewrite prompts_update_eq. split.
  - by intros ->.
  - intros -> Hok. cbn [fst snd]. rewrite prompt_versions_create_eq.
    change (call_ok (set_keySupply _ _)) with (call_ok (after_call w)).
    by rewrite Hok.
Qed.

Lemma savePrompt_partial_failure_witness :
  prompts (savePrompt (closure_env mounted.1) "text" "T" "D"
             (mounted.1, set_faults [false; true] mounted.2)).2.2
    = [saved_prompt "p1" "text" "T" "D" 0 prompt_p1]
  ∧ prompt_versions (savePrompt (closure_env mounted.1) "text" "T" "D"
                       (mounted.1, set_faults [false; true] mounted.2)).2.2 = [].
Proof.
  destruct (savePrompt_partial_failure (closure_env mounted.1) "text" "T" "D"
              mounted.1 (set_faults [false; true] mounted.2) prompt_p1 alice
              eq_refl eq_refl) as [_ Hpartial].
  destruct (Hpartial eq_refl eq_refl) as (_ & Hrows & Hlog & _).
  split; [exact Hrows|exact Hlog].
Defined.

(** X19. Whatever the backend does, [savePrompt] returns normally, leaves
    the in-memory content, title and description as they are (a failed save
    rolls nothing back), leaves the pending timeouts alone, and publishes
    nothing on the channel. *)
Theorem savePrompt_keeps_document env c t d e w :
  (savePrompt env c t d (e, w)).1 = inr ()
  ∧ same_document e (savePrompt env c t d (e, w)).2.1
  ∧ same_timers e (savePrompt env c t d (e, w)).2.1
  ∧ same_channel w (savePrompt env c t d (e, w)).2.2.
Proof.
  unfold savePrompt, same_document, same_timers, same_channel. unfold_mon.
  cbn [fst snd].
  destruct (env_prompt env), (env_currentUser env); try done.
  unfold Date_now, fresh_key, loadVersions. unfold_mon. cbn [fst snd].
  rewrite prompts_update_eq.
  destruct (call_ok w); cbn [fst snd]; [|done].
  rewrite prompt_versions_create_eq.
  destruct (call_ok _); cbn [fst snd]; [|done].
  rewrite prompt_versions_list_eq.
  by destruct (call_ok _).
Qed.

(** X20. After [loadVersions] has been answered, the cached list holds at
    most 20 records, all of them records of this prompt taken from the log,
    sorted by falling version number, and no record of the log has a higher
    number than the first of them; when the call is rejected the cached list
    stays as it was and no error surfaces. *)
Theorem loadVersions_cache e w :
  (loadVersions (e, w)).1 = inr ()
  ∧ prompt_versions (loadVersions (e, w)).2.2 = prompt_versions w
  ∧ (call_ok w = false → (loadVersions (e, w)).2.1 = e)
  ∧ (call_ok w = true →
     (length (versions (loadVersions (e, w)).2.1) ≤ 20)%nat
     ∧ (∀ v, v ∈ versions (loadVersions (e, w)).2.1 →
             v ∈ prompt_versions w ∧ v_prompt_id v = promptId e)
     ∧ Sorted version_number_desc (versions (loadVersions (e, w)).2.1)
     ∧ (∀ v, v ∈ version_log (promptId e) w →
             ∃ v0, head (versions (loadVersions (e, w)).2.1) = Some v0
                   ∧ v_version_number v ≤ v_version_number v0)).
Proof.
  unfold loadVersions. unfold_mon. cbn [fst snd].
  rewrite prompt_versions_list_eq.
  destruct (call_ok w); cbn [fst snd]; (split; [done|]); (split; [done|]);
    (split; [done|]); [|done].
  intros _. cbn [versions setVersions].
  fold (version_log (promptId e) w).
  pose proof (StronglySorted_merge_sort version_number_desc
                (version_log (promptId e) w)) as Hs.
  pose proof (merge_sort_Permutation version_number_desc
                (version_log (promptId e) w)) as Hperm.
  split_and!.
  - rewrite length_take. lia.
  - intros v Hv. apply (subseteq_take 20) in Hv. rewrite Hperm in Hv.
    apply list_elem_of_filter in Hv. tauto.
  - apply StronglySorted_Sorted.
    destruct (merge_sort _ _) as [|x s]; [constructor|].
    rewrite <- (take_drop 20 (x :: s)) in Hs.
    by apply StronglySorted_app_1_l in Hs.
  - intros v Hv. rewrite <- Hperm in Hv.
    destruct (merge_sort _ _) as [|x s]; [by apply elem_of_nil in Hv|].
    exists x. split; [done|].
    apply StronglySorted_inv in Hs as [_ Hx].
    apply elem_of_cons in Hv as [->|Hv]; [done|].
    by eapply Forall_forall in Hx.
Qed.

Lemma loadVersions_cache_witness :
  versions (loadVersions (mounted.1, restore_world)).2.1
    = prompt_versions restore_world
  ∧ (loadVersions (mounted.1, set_faults [true] restore_world)).2.1 = mounted.1.
Proof.
  split; [reflexivity|].
  apply (loadVersions_cache mounted.1 (set_faults [true] restore_world)).
  reflexivity.
Defined.

(** ** The editor: mounting *)

Lemma prompts_list_eq (P : Prompt → Prop) `{∀ p, Decision (P p)} n w :
  prompts_list P n w =
    (if call_ok w then inr (take n (filter P (prompts w))) else inl OtherError,
     after_call w).
Proof.
  unfold prompts_list. unfold_mon. rewrite db_call_eq. by destruct (call_ok w).
Qed.

Lemma loadData_rejected captured e w u :
  auth e = Some u → call_ok w = false →
  loadData captured (e, w)
  = (inr (), (setIsLoading false
                (toast "Error" (setCurrentUser (Some u) (setIsLoading true e))),
              after_call w)).
Proof.
  intros Hauth Hok. unfold loadData, auth_me. unfold_mon.
  cbn [fst snd auth setIsLoading promptId]. rewrite Hauth. cbn [fst snd].
  by rewrite prompts_list_eq, Hok.
Qed.

Lemma loadData_loads captured e w u p ps :
  auth e = Some u → healthy w →
  filter (λ p, p_id p = promptId e) (prompts w) = p :: ps →
  ∃ e' w',
    loadData captured (e, w) = (inr (), (e', w'))
    ∧ prompt e' = Some p ∧ currentUser e' = Some u
    ∧ content e' = p_content p ∧ title e' = p_title p
    ∧ description e' = or_empty (p_description p)
    ∧ isLoading e' = false ∧ toasts e' = toasts e ∧ closed e' = closed e
    ∧ currentSessionId e' = Some (keySupply w)
    ∧ prompt_sessions w'
      = prompt_sessions w
        ++ [{| s_id := keySupply w; s_prompt_id := promptId e; s_user_id := user_id u;
               s_user_color := getUserColor (user_id u); s_last_seen := now w |}]
    ∧ subscriptions w'
      = subscriptions w
        ++ [(channel_topic (promptId e),
             match captured with
             | Some cu => if bool_decide (user_id cu = "") then "anonymous" else user_id cu
             | None => "anonymous"
             end)].
Proof.
  intros Hauth Hw Hrows.
  unfold loadData, auth_me, loadVersions, fresh_key, Date_now,
    prompt_sessions_create, startRealtimeUpdates, channel_subscribe.
  unfold_mon. cbn [fst snd auth setIsLoading promptId]. rewrite Hauth.
  cbn [fst snd]. rewrite prompts_list_eq, healthy_call_ok, Hrows by done.
  cbn [fst snd take].
  rewrite prompt_versions_list_eq, healthy_call_ok by by apply healthy_after_call.
  cbn [fst snd]. rewrite db_call_eq.
  rewrite healthy_call_ok by (by do 2 apply healthy_after_call in Hw).
  cbn [fst snd].
  eexists _, _. split; [reflexivity|]. by split_and!.
Qed.

Lemma effect_cleanup_idle e w :
  saveTimeoutRef e = None → currentSessionId e = None →
  effect_cleanup (e, w) = (inr (), (e, w)).
Proof.
  intros Href Hsession. unfold effect_cleanup. unfold_mon. cbn [fst snd].
  by rewrite Href, Hsession.
Qed.

(** X21. One run of [loadData] that fails; none of the ways throws.
    Without a signed-in user the run makes no backend call and leaves
    [currentUser] as it was.  If the prompt lookup is rejected the run records
    the user and does not call [onClose].  If the lookup finds no prompt,
    [onClose] is called.  In all three cases the run shows an error toast, ends
    with [isLoading] off, changes neither [prompt] nor the session ref, creates
    no session row and subscribes to nothing.  The failure of a run that
    recorded the user is not the end: that change of [currentUser] changes
    [startRealtimeUpdates], on which the effect depends, so the cleanup runs
    and then [loadData] again, now with the user captured; when only the first
    lookup was rejected, this second run loads the prompt, creates the session
    row and subscribes under the user's id, the error toast of the first run
    staying on screen. *)
Theorem loadData_failures captured e w :
  let r := loadData captured (e, w) in
  (auth e = None →
     r = (inr (), (setIsLoading false (toast "Error" (setIsLoading true e)), w)))
  ∧ (∀ u, auth e = Some u → call_ok w = false →
       r.1 = inr ()
       ∧ r.2.1 = setIsLoading false
                   (toast "Error" (setCurrentUser (Some u) (setIsLoading true e)))
       ∧ closed r.2.1 = closed e ∧ currentUser r.2.1 = Some u)
  ∧ (∀ u, auth e = Some u → call_ok w = true →
       filter (λ p, p_id p = promptId e) (prompts w) = [] →
       r.1 = inr () ∧ closed r.2.1 = true ∧ isLoading r.2.1 = false
       ∧ toasts r.2.1 = toasts e ++ ["Error"] ∧ currentUser r.2.1 = Some u)
  ∧ ((auth e = None ∨ call_ok w = false
      ∨ filter (λ p, p_id p = promptId e) (prompts w) = []) →
     prompt r.2.1 = prompt e ∧ currentSessionId r.2.1 = currentSessionId e
     ∧ prompt_sessions r.2.2 = prompt_sessions w
     ∧ subscriptions r.2.2 = subscriptions w
     ∧ messageHandlers r.2.1 = messageHandlers e)
  ∧ (∀ u p ps,
       auth e = Some u → call_ok w = false → healthy (after_call w) →
       saveTimeoutRef e = None → currentSessionId e = None →
       filter (λ p, p_id p = promptId e) (prompts w) = p :: ps →
       let r2 := (loadData captured;; effect_cleanup;; loadData (Some u)) (e, w) in
       r2.1 = inr ()
       ∧ prompt r2.2.1 = Some p ∧ currentUser r2.2.1 = Some u
       ∧ content r2.2.1 = p_content p ∧ title r2.2.1 = p_title p
       ∧ isLoading r2.2.1 = false ∧ closed r2.2.1 = closed e
       ∧ toasts r2.2.1 = toasts e ++ ["Error"]
       ∧ (∃ session, prompt_sessions r2.2.2 = prompt_sessions w ++ [session]
                     ∧ s_user_id session = user_id u
                     ∧ currentSessionId r2.2.1 = Some (s_id session))
       ∧ subscriptions r2.2.2
         = subscriptions w
           ++ [(channel_topic (promptId e),
                if bool_decide (user_id u = "") then "anonymous" else user_id u)]).
Proof.
  intros r. subst r. split_and!.
  - intros Hauth. unfold loadData, auth_me. unfold_mon.
    cbn [fst snd auth setIsLoading promptId]. by rewrite Hauth.
  - intros u Hauth Hok. by rewrite (loadData_rejected _ _ _ _ Hauth Hok).
  - intros u Hauth Hok Hrows. unfold loadData, auth_me. unfold_mon.
    cbn [fst snd auth setIsLoading promptId]. rewrite Hauth. cbn [fst snd].
    by rewrite prompts_list_eq, Hok, Hrows.
  - unfold loadData, auth_me. unfold_mon.
    cbn [fst snd auth setIsLoading promptId].
    destruct (auth e) as [u|] eqn:Hauth; cbn [fst snd]; [|done].
    rewrite prompts_list_eq.
    destruct (call_ok w) eqn:Hok; cbn [fst snd]; [|done].
    destruct (filter _ (prompts w)) as [|p ps] eqn:Hrows; cbn [fst snd take]; [done|].
    intros [?|[?|?]]; done.
  - intros u p ps Hauth Hok Hrest Href Hsession Hrows r2. subst r2.
    rewrite (bind_eq _ _ _ _ _ (loadData_rejected captured _ _ _ Hauth Hok)).
    set (e1 := setIsLoading false
                 (toast "Error" (setCurrentUser (Some u) (setIsLoading true e)))).
    rewrite (bind_eq _ _ _ _ _
               (effect_cleanup_idle e1 (after_call w) Href Hsession)).
    destruct (loadData_loads (Some u) e1 (after_call w) u p ps Hauth Hrest Hrows)
      as (e' & w' & -> & Hp & Hu & Hc & Ht & _ & Hl & Hto & Hcl & Hid & Hse & Hsub).
    cbn [fst snd]. split_and!; try done.
    eexists. split; [exact Hse|]. by split.
Qed.

Lemma loadData_failures_witness :
  closed (loadData None (initial_editor "missing" (Some alice), editor_world)).2.1 = true
  ∧ closed (loadData None (initial_editor "p1" (Some alice),
                           set_faults [true] editor_world)).2.1 = false
  ∧ prompt (loadData None (initial_editor "p1" (Some alice),
                           set_faults [true] editor_world)).2.1 = None
  ∧ prompt ((loadData None;; effect_cleanup;; loadData (Some alice))
              (initial_editor "p1" (Some alice), set_faults [true] editor_world)).2.1
    = Some prompt_p1
  ∧ subscriptions
      ((loadData None;; effect_cleanup;; loadData (Some alice))
         (initial_editor "p1" (Some alice), set_faults [true] editor_world)).2.2
    = [("prompt_p1", "alice")].
Proof.
  destruct (loadData_failures None (initial_editor "missing" (Some alice)) editor_world)
    as (_ & _ & Hmissing & _).
  destruct (loadData_failures None (initial_editor "p1" (Some alice))
              (set_faults [true] editor_world))
    as (_ & Hrejected & _ & Hrest & Hagain).
  destruct (Hagain alice prompt_p1 [] eq_refl eq_refl ltac:(constructor) eq_refl eq_refl
              eq_refl) as (_ & Hprompt & _ & _ & _ & _ & _ & _ & _ & Hsub).
  split_and!.
  - apply (Hmissing alice eq_refl eq_refl eq_refl).
  - apply (Hrejected alice eq_refl eq_refl).
  - apply Hrest. right; left. reflexivity.
  - exact Hprompt.
  - exact Hsub.
Defined.

(** X22. A successful [loadData]: the editor holds the document of the
    prompt row (an absent description read as the empty string), is [loaded],
    its cached versions are those of the backend, one session row has been
    created for the user with the user's hashed colour, and the channel of the
    prompt has one more subscription, under the id of the user the running
    effect had captured, or ["anonymous"] when it had captured none, as on the
    first mount.  No timeout is armed and nothing is published. *)
Theorem loadData_success captured e w u p ps :
  auth e = Some u → healthy w →
  filter (λ p, p_id p = promptId e) (prompts w) = p :: ps →
  let r := loadData captured (e, w) in
  r.1 = inr ()
  ∧ loaded r.2.1 ∧ prompt r.2.1 = Some p ∧ currentUser r.2.1 = Some u
  ∧ content r.2.1 = p_content p ∧ title r.2.1 = p_title p
  ∧ description r.2.1 = or_empty (p_description p)
  ∧ versions_in_sync r.2.1 r.2.2
  ∧ isLoading r.2.1 = false ∧ closed r.2.1 = closed e ∧ timers r.2.1 = timers e
  ∧ currentSessionId r.2.1 = Some (keySupply w)
  ∧ prompt_sessions r.2.2
    = prompt_sessions w
      ++ [{| s_id := keySupply w; s_prompt_id := promptId e; s_user_id := user_id u;
             s_user_color := getUserColor (user_id u); s_last_seen := now w |}]
  ∧ subscriptions r.2.2
    = subscriptions w
      ++ [(channel_topic (promptId e),
           match captured with
           | Some cu => if bool_decide (user_id cu = "") then "anonymous" else user_id cu
           | None => "anonymous"
           end)]
  ∧ messageHandlers r.2.1 = messageHandlers e ++ [captured]
  ∧ broadcasts r.2.2 = broadcasts w
  ∧ healthy r.2.2.
Proof.
  intros Hauth Hw Hrows r. subst r.
  unfold loadData, auth_me, loadVersions, fresh_key, Date_now,
    prompt_sessions_create, startRealtimeUpdates, channel_subscribe.
  unfold_mon. cbn [fst snd auth setIsLoading promptId]. rewrite Hauth.
  cbn [fst snd]. rewrite prompts_list_eq, healthy_call_ok, Hrows by done.
  cbn [fst snd take].
  rewrite prompt_versions_list_eq, healthy_call_ok by by apply healthy_after_call.
  cbn [fst snd]. rewrite db_call_eq.
  rewrite healthy_call_ok by (by do 2 apply healthy_after_call in Hw).
  cbn [fst snd].
  split_and!; try done.
  unfold healthy in *. cbn. by do 3 apply Forall_tail.
Qed.

Lemma loadData_success_witness :
  content (loadData (Some alice) (initial_editor "p1" (Some alice), editor_world)).2.1 = ""
  ∧ title (loadData (Some alice) (initial_editor "p1" (Some alice), editor_world)).2.1
    = "Greeting"
  ∧ subscriptions
      (loadData (Some alice) (initial_editor "p1" (Some alice), editor_world)).2.2
    = [("prompt_p1", "alice")].
Proof.
  destruct (loadData_success (Some alice) (initial_editor "p1" (Some alice)) editor_world
              alice prompt_p1 [] eq_refl ltac:(constructor) eq_refl)
    as (_ & _ & _ & _ & Hc & Ht & _ & _ & _ & _ & _ & _ & _ & Hsub & _).
  split; [exact Hc|]. split; [exact Ht|exact Hsub].
Defined.

(** ** The editor: broadcasts *)

Lemma handleEdit_world ed e w :
  (handleEdit ed (e, w)).2.2 = set_broadcasts (λ l, l ++ [edit_message ed e w]) w.
Proof.
  destruct ed;
    unfold handleEdit, handleContentChange, handleTitleChange, handleDescriptionChange,
      clear_pending_save, setTimeout_save, Date_now, realtime_publish; unfold_mon;
    cbn [fst snd saveTimeoutRef setContent setTitle setDescription];
    by destruct (saveTimeoutRef e).
Qed.

(** X23. A local edit publishes exactly one [content_change] message on the
    prompt's channel, stamped with the sender's id and the current time and
    carrying the whole document as of the edit, and changes nothing else in the
    world: it makes no backend call and writes no row. *)
Theorem edit_publishes_document ed e w :
  (handleEdit ed (e, w)).1 = inr ()
  ∧ (handleEdit ed (e, w)).2.2 = set_broadcasts (λ l, l ++ [edit_message ed e w]) w
  ∧ msg_topic (edit_message ed e w) = "prompt_" +:+ promptId e
  ∧ msg_data (edit_message ed e w)
    = {| cc_content := content (apply_edit ed e);
         cc_title := Some (title (apply_edit ed e));
         cc_description := Some (description (apply_edit ed e));
         cc_timestamp := now w |}
  ∧ match ed with
    | EditContent s =>
        content (apply_edit ed e) = s ∧ title (apply_edit ed e) = title e
        ∧ description (apply_edit ed e) = description e
    | EditTitle s =>
        content (apply_edit ed e) = content e ∧ title (apply_edit ed e) = s
        ∧ description (apply_edit ed e) = description e
    | EditDescription s =>
        content (apply_edit ed e) = content e ∧ title (apply_edit ed e) = title e
        ∧ description (apply_edit ed e) = s
    end.
Proof.
  split; [|split; [apply handleEdit_world|]].
  - by destruct (handleEdit_spec ed e w) as (e' & w' & -> & _).
  - by destruct ed.
Qed.

(** X24. What one editor publishes another one shows: when the message of
    an edit is handed to the handler of an editor whose captured user is not
    the sender, that editor's content, title and description become those of
    the sender's document as of the edit. *)
Theorem broadcast_round_trip ed eA w captured eB :
  Some (sender_id eA) ≠ user_id <$> captured →
  ∃ m, broadcasts (handleEdit ed (eA, w)).2.2 = broadcasts w ++ [m]
       ∧ content (onMessage captured m eB) = content (apply_edit ed eA)
       ∧ title (onMessage captured m eB) = title (apply_edit ed eA)
       ∧ description (onMessage captured m eB) = description (apply_edit ed eA).
Proof.
  intros Hother. exists (edit_message ed eA w).
  rewrite handleEdit_world. split; [done|].
  unfold onMessage. by rewrite bool_decide_true by done.
Qed.

Lemma broadcast_round_trip_witness :
  ∃ m, broadcasts (handleEdit (EditTitle "Hello") (mounted.1, bob_mounted.2)).2.2 = [m]
       ∧ title (onMessage (Some bob) m bob_mounted.1) = "Hello".
Proof.
  destruct (broadcast_round_trip (EditTitle "Hello") mounted.1 bob_mounted.2
              (Some bob) bob_mounted.1 ltac:(discriminate))
    as (m & Hm & _ & Ht & _).
  exists m. split; [exact Hm|exact Ht].
Defined.

(** X25. The message handler ignores every message that is not a
    [content_change] and every message from the user it captured.  A handler
    that captured no user, as the one registered on the first mount does,
    ignores no [content_change]: it applies the client's own messages too. *)
Theorem messages_ignored captured message e :
  (msg_type message ≠ content_change
   ∨ Some (msg_userId message) = user_id <$> captured →
   onMessage captured message e = e)
  ∧ (msg_type message = content_change →
     content (onMessage None message e) = cc_content (msg_data message)
     ∧ title (onMessage None message e) = or_empty (cc_title (msg_data message))
     ∧ description (onMessage None message e)
       = or_empty (cc_description (msg_data message))).
Proof.
  unfold onMessage. split.
  - intros Hignored. rewrite bool_decide_false; [done|]. intros [? ?].
    by destruct Hignored.
  - intros Htype. by rewrite bool_decide_true.
Qed.

Lemma messages_ignored_witness :
  onMessage (Some bob) hello_from_bob mounted.1 = mounted.1
  ∧ content (onMessage None hello_from_bob bob_mounted.1) = "hello".
Proof.
  destruct (messages_ignored (Some bob) hello_from_bob mounted.1) as [Hself _].
  destruct (messages_ignored None hello_from_bob bob_mounted.1) as [_ Hnone].
  split; [apply Hself; by right|apply Hnone; reflexivity].
Defined.

(** ** The editor: what a pending save writes *)

(** The state right after an edit made with no timeout pending, and the
    save its timeout performs once due. *)
Lemma edit_then_due ed e w :
  timers e = [] →
  ∃ e1 w1 tm,
    handleEdit ed (e, w) = (inr (), (e1, w1))
    ∧ timers e1 = [tm] ∧ timer_fireAt tm = now w + 2000
    ∧ timer_env tm = closure_env e
    ∧ timer_content tm = content (apply_edit ed e)
    ∧ timer_title tm = title (apply_edit ed e)
    ∧ timer_description tm = description (apply_edit ed e)
    ∧ promptId e1 = promptId e ∧ prompt e1 = prompt e
    ∧ currentUser e1 = currentUser e ∧ versions e1 = versions e
    ∧ content e1 = content (apply_edit ed e)
    ∧ prompt_versions w1 = prompt_versions w ∧ prompts w1 = prompts w
    ∧ now w1 = now w ∧ faults w1 = faults w.
Proof.
  intros Ht.
  destruct (handleEdit_debounced ed e w) as (e1 & w1 & Hrun & Ht1 & _ & _ & Hrest);
    [by unfold debounced; rewrite Ht|].
  exists e1, w1, (armed_timer ed e w). by split_and!; try tauto.
Qed.

Lemma restoreVersion_healthy K e w p u :
  prompt e = Some p → currentUser e = Some u → healthy w →
  ∃ e' w',
    restoreVersion K (e, w) = (inr (), (e', w'))
    ∧ prompt_versions w'
      = prompt_versions w
        ++ [saved_version (closure_env e) (v_content K) (or_empty (v_title K))
              (or_empty (v_description K)) e w u]
    ∧ prompts w'
      = map (saved_prompt (promptId e) (v_content K) (or_empty (v_title K))
               (or_empty (v_description K)) (now w)) (prompts w)
    ∧ now w' = now w ∧ healthy w'
    ∧ same_timers e e'
    ∧ promptId e' = promptId e
    ∧ content e' = v_content K ∧ title e' = or_empty (v_title K)
    ∧ description e' = or_empty (v_description K).
Proof.
  intros Hp Hu Hw.
  set (e1 := setDescription (or_empty (v_description K))
               (setTitle (or_empty (v_title K)) (setContent (v_content K) e))).
  set (w1 := set_broadcasts (λ l, l ++
               [{| msg_topic := channel_topic (promptId e); msg_type := content_change;
                   msg_userId := sender_id e;
                   msg_data := {| cc_content := v_content K;
                                  cc_title := Some (or_empty (v_title K));
                                  cc_description := Some (or_empty (v_description K));
                                  cc_timestamp := now w |} |}]) w).
  destruct (savePrompt_healthy (closure_env e) (v_content K) (or_empty (v_title K))
              (or_empty (v_description K)) e1 w1 p u Hp Hu Hw)
    as (e' & w' & Hsave & Hlog & Hrows & (_ & _ & _ & Hnow) & Hw' & _ & Hdoc & Htm & _).
  destruct Hdoc as (Hid & _ & _ & Hc & Ht & Hd & _).
  exists (toast "Version Restored" e'), w'. split_and!; try done.
  unfold restoreVersion, Date_now, realtime_publish. unfold_mon. cbn [fst snd].
  fold e1. fold w1. by rewrite Hsave.
Qed.

(** X26. [restoreVersion] does not cancel a pending timeout.  If an edit is
    followed by a restore within the debounce window, the timeout of the edit
    still runs: the log gets two records with the same version number (both
    closures hold the same cached list), first the restored content and then
    the document of the edit, which is also what the prompt row ends up
    holding, while the editor shows the restored content. *)
Theorem restore_then_stale_autosave ed K e w t :
  loaded e → timers e = [] → healthy w → now w + 2000 ≤ t →
  let r := (handleEdit ed;; restoreVersion K;; advance t) (e, w) in
  let doc := apply_edit ed e in
  r.1 = inr ()
  ∧ (∃ v1 v2,
       prompt_versions r.2.2 = prompt_versions w ++ [v1; v2]
       ∧ v_version_number v1 = v_version_number v2
       ∧ v_content v1 = v_content K
       ∧ v_content v2 = content doc ∧ v_title v2 = Some (title doc)
       ∧ v_description v2 = Some (description doc)
       ∧ v_created_at v2 = now w + 2000)
  ∧ prompts r.2.2
    = map (saved_prompt (promptId e) (content doc) (title doc) (description doc)
             (now w + 2000))
        (map (saved_prompt (promptId e) (v_content K) (or_empty (v_title K))
                (or_empty (v_description K)) (now w)) (prompts w))
  ∧ content r.2.1 = v_content K.
Proof.
  intros [[p Hp] [u Hu]] Ht0 Hw Hlate r doc. subst r doc.
  destruct (edit_then_due ed e w Ht0)
    as (e1 & w1 & tm & Hrun1 & Ht1 & Hfire & Henv & Hc & Hti & Hde & Hid1 & Hp1 & Hu1
        & Hv1 & _ & Hlog1 & Hrows1 & Hnow1 & Hf1).
  rewrite (bind_eq _ _ _ _ _ Hrun1).
  destruct (restoreVersion_healthy K e1 w1 p u)
    as (e2 & w2 & Hrun2 & Hlog2 & Hrows2 & Hnow2 & Hw2 & (Ht2 & _) & Hid2 & Hc2 & _);
    [congruence|congruence|by unfold healthy in *; rewrite Hf1|].
  rewrite (bind_eq _ _ _ _ _ Hrun2).
  rewrite (advance_due t e2 w2 tm) by (congruence || lia).
  destruct (savePrompt_healthy (timer_env tm) (timer_content tm) (timer_title tm)
              (timer_description tm) (set_timers (λ _, []) e2)
              (set_now (timer_fireAt tm) w2) p u)
    as (e3 & w3 & Hsave & Hlog3 & Hrows3 & _ & _ & _ & Hdoc3 & _);
    [by rewrite Henv|by rewrite Henv|done|].
  destruct Hdoc3 as (_ & _ & _ & Hc3 & _).
  rewrite (bind_eq _ _ _ _ _ Hsave). unfold_mon.
  cbn [fst snd prompt_versions prompts set_now].
  split; [done|]. split_and!.
  - eexists _, _. split.
    { rewrite Hlog3. cbn [prompt_versions set_now]. rewrite Hlog2, Hlog1.
      by rewrite <- app_assoc. }
    cbn [saved_version v_version_number v_content v_title v_description v_created_at
         now set_now closure_env env_versions].
    rewrite Henv. cbn [closure_env env_versions]. rewrite Hv1, Hc, Hti, Hde, Hfire.
    done.
  - rewrite Hrows3. cbn [prompts set_now now promptId set_timers].
    by rewrite Hrows2, Hrows1, Hid2, Hid1, Hc, Hti, Hde, Hfire, Hnow1.
  - rewrite Hc3. cbn [content set_timers]. done.
Qed.

Lemma restore_then_stale_autosave_witness :
  let K := {| v_id := 5%nat; v_prompt_id := "p1"; v_version_number := 1;
              v_content := "first draft"; v_title := None; v_description := None;
              v_user_id := "bob"; v_created_at := 10 |} in
  ∃ v1 v2,
    prompt_versions
      ((handleEdit (EditContent "draft two");; restoreVersion K;; advance 2000)
         (restore_editor, restore_world)).2.2
    = prompt_versions restore_world ++ [v1; v2]
    ∧ v_version_number v1 = v_version_number v2
    ∧ v_content v1 = "first draft" ∧ v_content v2 = "draft two".
Proof.
  intros K.
  destruct (restore_then_stale_autosave (EditContent "draft two") K
              restore_editor restore_world 2000
              ltac:(split; eexists; reflexivity) eq_refl ltac:(constructor)
              ltac:(compute_done))
    as (_ & (v1 & v2 & Hlog & Hn & Hc1 & Hc2 & _) & _).
  exists v1, v2. split_and!; [exact Hlog|exact Hn|exact Hc1|exact Hc2].
Defined.

Lemma onMessage_frame captured message e :
  same_timers e (onMessage captured message e)
  ∧ promptId (onMessage captured message e) = promptId e
  ∧ prompt (onMessage captured message e) = prompt e
  ∧ currentUser (onMessage captured message e) = currentUser e
  ∧ versions (onMessage captured message e) = versions e.
Proof. unfold onMessage. by case_bool_decide. Qed.

(** X27. A remote change that arrives while a save is pending replaces the
    document on screen but not the one the timeout captured: when the timeout
    runs, the version it records and the prompt row it writes hold the local
    edit, and the editor keeps showing the remote document. *)
Theorem pending_save_ignores_remote_change ed captured message e w t :
  loaded e → timers e = [] → healthy w → now w + 2000 ≤ t →
  msg_type message = content_change →
  Some (msg_userId message) ≠ user_id <$> captured →
  let r := (handleEdit ed;; update (onMessage captured message);; advance t) (e, w) in
  let doc := apply_edit ed e in
  r.1 = inr ()
  ∧ (∃ v,
       prompt_versions r.2.2 = prompt_versions w ++ [v]
       ∧ v_content v = content doc ∧ v_title v = Some (title doc)
       ∧ v_description v = Some (description doc))
  ∧ prompts r.2.2
    = map (saved_prompt (promptId e) (content doc) (title doc) (description doc)
             (now w + 2000)) (prompts w)
  ∧ content r.2.1 = cc_content (msg_data message)
  ∧ title r.2.1 = or_empty (cc_title (msg_data message))
  ∧ description r.2.1 = or_empty (cc_description (msg_data message)).
Proof.
  intros [[p Hp] [u Hu]] Ht0 Hw Hlate Htype Hother r doc. subst r doc.
  destruct (edit_then_due ed e w Ht0)
    as (e1 & w1 & tm & Hrun1 & Ht1 & Hfire & Henv & Hc & Hti & Hde & Hid1 & _ & _
        & _ & _ & Hlog1 & Hrows1 & Hnow1 & Hf1).
  rewrite (bind_eq _ _ _ _ _ Hrun1).
  destruct (onMessage_frame captured message e1) as ((Ht2 & _) & Hid2 & _).
  assert (Hshown : content (onMessage captured message e1) = cc_content (msg_data message)
                   ∧ title (onMessage captured message e1)
                     = or_empty (cc_title (msg_data message))
                   ∧ description (onMessage captured message e1)
                     = or_empty (cc_description (msg_data message))).
  { unfold onMessage. by rewrite bool_decide_true. }
  set (e2 := onMessage captured message e1) in *.
  assert (Hrun2 : update (onMessage captured message) (e1, w1) = (inr (), (e2, w1)))
    by done.
  rewrite (bind_eq _ _ _ _ _ Hrun2).
  rewrite (advance_due t e2 w1 tm) by (congruence || lia).
  destruct (savePrompt_healthy (timer_env tm) (timer_content tm) (timer_title tm)
              (timer_description tm) (set_timers (λ _, []) e2)
              (set_now (timer_fireAt tm) w1) p u)
    as (e3 & w3 & Hsave & Hlog3 & Hrows3 & _ & _ & _ & Hdoc3 & _);
    [by rewrite Henv|by rewrite Henv|by unfold healthy in *; cbn; rewrite Hf1|].
  destruct Hdoc3 as (_ & _ & _ & Hc3 & Ht3 & Hd3 & _).
  rewrite (bind_eq _ _ _ _ _ Hsave). unfold_mon.
  cbn [fst snd prompt_versions prompts set_now].
  split; [done|]. split_and!.
  - eexists. split; [by rewrite Hlog3; cbn [prompt_versions set_now]; rewrite Hlog1|].
    cbn [saved_version v_content v_title v_description]. by rewrite Hc, Hti, Hde.
  - rewrite Hrows3. cbn [prompts set_now now promptId set_timers].
    by rewrite Hrows1, Hid2, Hid1, Hc, Hti, Hde, Hfire.
  - rewrite Hc3. cbn [content set_timers]. tauto.
  - rewrite Ht3. cbn [title set_timers]. tauto.
  - rewrite Hd3. cbn [description set_timers]. tauto.
Qed.

Lemma pending_save_ignores_remote_change_witness :
  let r := (handleEdit (EditContent "mine");; update (onMessage None hello_from_bob);;
            advance 5000) (mounted.1, mounted.2) in
  (∃ v, prompt_versions r.2.2 = prompt_versions mounted.2 ++ [v]
        ∧ v_content v = "mine")
  ∧ content r.2.1 = "hello".
Proof.
  intros r.
  destruct (pending_save_ignores_remote_change (EditContent "mine") None hello_from_bob
              mounted.1 mounted.2 5000
              ltac:(split; eexists; reflexivity) eq_refl ltac:(constructor)
              ltac:(compute_done) eq_refl ltac:(discriminate))
    as (_ & (v & Hlog & Hc & _) & _ & Hshown & _).
  split; [exists v; split; [exact Hlog|exact Hc]|exact Hshown].
Defined.

Lemma effect_cleanup_frame e w :
  (effect_cleanup (e, w)).1 = inr ()
  ∧ timers (effect_cleanup (e, w)).2.1 = still_pending e
  ∧ prompt_versions (effect_cleanup (e, w)).2.2 = prompt_versions w
  ∧ prompts (effect_cleanup (e, w)).2.2 = prompts w.
Proof.
  unfold effect_cleanup, still_pending, prompt_sessions_delete.
  unfold_mon. cbn [fst snd].
  destruct (saveTimeoutRef e) as [tid|], (currentSessionId e) as [sid|];
    cbn [fst snd]; rewrite ?db_call_eq; split_and!; try done.
  all: by destruct (call_ok w).
Qed.

(** X28. Closing the editor within the debounce window drops the edit: the
    cleanup of the effect clears the pending timeout without running it, so no
    version is recorded and the prompt row is not written, however long one
    waits afterwards and whatever the backend does. *)
Theorem unsaved_edit_lost_on_unmount ed e w t :
  debounced e →
  let r := (handleEdit ed;; effect_cleanup;; advance t) (e, w) in
  r.1 = inr ()
  ∧ timers r.2.1 = []
  ∧ prompt_versions r.2.2 = prompt_versions w
  ∧ prompts r.2.2 = prompts w.
Proof.
  intros Hd r. subst r.
  destruct (handleEdit_debounced ed e w Hd)
    as (e1 & w1 & Hrun1 & _ & _ & Hd1 & _ & _ & _ & _ & _ & _ & _ & Hlog1 & Hrows1 & _).
  rewrite (bind_eq _ _ _ _ _ Hrun1).
  destruct (effect_cleanup_frame e1 w1) as (Hok & Ht2 & Hlog2 & Hrows2).
  rewrite (debounced_still_pending _ Hd1) in Ht2.
  destruct (effect_cleanup (e1, w1)) as [[?|[]] [e2 w2]] eqn:Hrun2; [done|].
  cbn [fst snd] in *.
  rewrite (bind_eq _ _ _ _ _ Hrun2), (advance_idle _ _ _ Ht2).
  cbn [fst snd prompt_versions prompts set_now]. by rewrite Hlog2, Hrows2.
Qed.

Lemma unsaved_edit_lost_on_unmount_witness :
  let r := (handleEdit (EditContent "never saved");; effect_cleanup;; advance 9000)
             (mounted.1, mounted.2) in
  timers r.2.1 = [] ∧ prompt_versions r.2.2 = prompt_versions mounted.2.
Proof.
  intros r.
  destruct (unsaved_edit_lost_on_unmount (EditContent "never saved") mounted.1 mounted.2
              9000 I) as (_ & Ht & Hlog & _).
  split; [exact Ht|exact Hlog].
Defined.

(** X29. From a fresh mount on, whatever the user and the other clients do
    (edits, manual saves, restores, remote messages, time passing, with any
    backend failures), no handler throws and at most one save timeout is ever
    pending, the one [saveTimeoutRef] holds. *)
Theorem at_most_one_pending_save pid auth captured evs w :
  let r := (loadData captured;; run evs) (initial_editor pid auth, w) in
  r.1 = inr () ∧ debounced r.2.1 ∧ (length (timers r.2.1) ≤ 1)%nat.
Proof.
  intros r. subst r.
  destruct (loadData_timers captured (initial_editor pid auth) w) as [Hok Ht].
  destruct (loadData captured (initial_editor pid auth, w)) as [[?|[]] [e1 w1]] eqn:Hload;
    [done|].
  cbn [fst snd] in Ht.
  rewrite (bind_eq _ _ _ _ _ Hload).
  destruct (run_debounced evs e1 w1) as [Hrun Hd];
    [by unfold debounced; rewrite Ht|].
  split_and!; [done..|].
  unfold debounced in Hd.
  destruct (timers (run evs (e1, w1)).2.1) as [|? [|? ?]]; cbn [length]; [lia|lia|done].
Qed.
